(** * trainer.py: the training controller of pytorch_resnet_cifar10

    A shallow embedding of [src/trainer.py]: the metric accumulator
    [AverageMeter], the top-k [accuracy] evaluator and the control flow of
    [main] (resume, learning-rate schedule, epoch loop, checkpoint writes).

    Conventions of the embedding.
    - A finite Python float is modelled by the rational number it denotes
      ([Q]); Python ints are [Z].  The float32 arithmetic of [accuracy] is
      modelled with its rounding ([fl32], [fl64]); the double arithmetic of
      [AverageMeter] is exact, its sums and means are those of the
      specification "to floating-point tolerance".
    - An exception is a value of [exn].  A statement that mutates an object
      and may raise is a function [S -> S * result A]: whatever was assigned
      before the exception stays assigned, as in Python.
    - Dictionaries are [gmap string _]; the file system is a map from paths
      to nodes.
    - The log of a run of [main] is a selection of what the run emits, in
      order: the 'learning rate' and 'test accuracy' scalars, the calls of
      [torch.save], and the lines printed by the resume block and by the
      periodic save.  What else a run emits is not in it: [print(args)],
      the 'test loss' and training scalars, the progress lines and the
      timing lines.  The batch loops and the timing meters are modelled
      apart ([Epoch], [Timing]).
    - Of the file system, [main] is followed at the paths it names itself:
      the save directory, taken to be a non-empty path whose parent exists,
      the resume path and the checkpoint paths.  The event file of the
      summary writer and the downloaded data are not represented. *)

From stdpp Require Import base gmap strings list pretty.
From Stdlib Require Import Ascii QArith Qminmax Qpower Qround Lqa ZArith Lia.
From Stdlib Require Import Sorting.Sorted Sorting.Permutation.

(** * Part I: the program *)

(** ** Exceptions, results, statements *)

Inductive exn : Type :=
  | ZeroDivisionError
  | KeyError (key : string)
  | RuntimeError (msg : string)
  | ValueError
  | TypeError
  | UnboundLocalError
  | UnpicklingError.

Inductive result (A : Type) : Type :=
  | Ok (a : A)
  | Raise (e : exn).
Arguments Ok {A} a.
Arguments Raise {A} e.

#[global] Instance result_ret : MRet result := fun A a => Ok a.
#[global] Instance result_bind : MBind result := fun A B f r =>
  match r with
  | Ok a => f a
  | Raise e => Raise e
  end.

(** A statement of Python acting on an object (or a world) of type [S]. *)
Definition M (S A : Type) : Type := S -> S * result A.

#[global] Instance M_ret {S} : MRet (M S) := fun A a s => (s, Ok a).
#[global] Instance M_bind {S} : MBind (M S) := fun A B f m s =>
  match m s with
  | (s', Ok a) => f a s'
  | (s', Raise e) => (s', Raise e)
  end.

Definition raise {S A} (e : exn) : M S A := fun s => (s, Raise e).
Definition get {S} : M S S := fun s => (s, Ok s).
Definition modify {S} (f : S -> S) : M S unit := fun s => (f s, Ok tt).
Definition lift {S A} (r : result A) : M S A := fun s => (s, r).
Definition skip {S} : M S unit := mret tt.

(** [for x in l: body x] *)
Fixpoint for_each {S A} (l : list A) (body : A -> M S unit) : M S unit :=
  match l with
  | [] => skip
  | x :: l' => body x ;; for_each l' body
  end.

(** ** Numbers *)

(** [x < y] on numbers. *)
Definition Qltb (x y : Q) : bool :=
  match (x ?= y)%Q with Lt => true | _ => false end.

(** Python's [max(a, b)]: the first argument unless the second is greater. *)
Definition py_max2 (a b : Q) : Q := if Qltb a b then b else a.

(** [a / b]: a zero divisor raises. *)
Definition py_div (a : Q) (b : Z) : result Q :=
  if (b =? 0)%Z then Raise ZeroDivisionError else Ok (a / inject_Z b)%Q.

(** [a % b] on ints: floor remainder, a zero divisor raises. *)
Definition py_mod (a b : Z) : result Z :=
  if (b =? 0)%Z then Raise ZeroDivisionError else Ok (a mod b)%Z.

(** [range(a, b)] *)
Definition py_range (a b : Z) : list Z :=
  List.map (fun i => (a + Z.of_nat i)%Z) (List.seq 0 (Z.to_nat (b - a))).

(** ** Binary floating point *)

(** [floor(log2 x)] for a positive [x]: the difference of the bit lengths of
    numerator and denominator, or one less. *)
Definition ilog2 (x : Q) : Z :=
  let a := Z.log2 (Qnum x) in
  let b := Z.log2 (Zpos (Qden x)) in
  if Qle_bool (2 ^ (a - b)) x then (a - b)%Z else (a - b - 1)%Z.

(** The integer nearest to [y >= 0], the even one of two equally near. *)
Definition round_half_even (y : Q) : Z :=
  let f := Qfloor y in
  match (y - inject_Z f ?= 1 # 2)%Q with
  | Lt => f
  | Gt => (f + 1)%Z
  | Eq => if Z.even f then f else (f + 1)%Z
  end.

(** The float of [p] significant bits and least exponent [emin] nearest to
    [x], ties to even (IEEE 754 round-to-nearest-even, gradual underflow).
    Overflow to infinity is not represented: the values rounded below stay
    under 101 times 2^24. *)
Definition fl_pos (p emin : Z) (x : Q) : Q :=
  let e := Z.max (ilog2 x - (p - 1)) emin in
  Qred (inject_Z (round_half_even (x / 2 ^ e)) * 2 ^ e).

Definition fl (p emin : Z) (x : Q) : Q :=
  match (x ?= 0)%Q with
  | Eq => 0
  | Gt => fl_pos p emin x
  | Lt => - fl_pos p emin (- x)
  end.

(** binary32 ([torch.float32]) and binary64 (a Python float). *)
Definition fl32 : Q -> Q := fl 24 (-149).
Definition fl64 : Q -> Q := fl 53 (-1074).

(** [a / b] of a Python float by an int: a zero divisor raises, the
    quotient is rounded. *)
Definition py_float_div (a : Q) (b : Z) : result Q :=
  if (b =? 0)%Z then Raise ZeroDivisionError else Ok (fl64 (a / inject_Z b))%Q.

(** ** AverageMeter (lines 310-325) *)

Record AverageMeter : Type := mkMeter {
  val : Q;
  avg : Q;
  sum : Q;
  count : Z
}.

(** [reset]: four assignments of constants. *)
Definition reset : M AverageMeter unit :=
  modify (fun _ => {| val := 0; avg := 0; sum := 0; count := 0 |}).

(** [AverageMeter()]: [__init__] calls [reset] on the new object, whose
    fields do not exist before; the object it leaves is this one. *)
Definition AverageMeter_new : AverageMeter :=
  {| val := 0; avg := 0; sum := 0; count := 0 |}.

(** [update(val, n=1)]: three assignments, then the division. *)
Definition update (v : Q) (n : Z) : M AverageMeter unit :=
  modify (fun m => {| val := v; avg := avg m; sum := sum m; count := count m |}) ;;
  modify (fun m => {| val := val m; avg := avg m;
                      sum := (sum m + v * inject_Z n)%Q; count := count m |}) ;;
  modify (fun m => {| val := val m; avg := avg m;
                      sum := sum m; count := (count m + n)%Z |}) ;;
  m ← get ;
  a ← lift (py_div (sum m) (count m)) ;
  modify (fun m => {| val := val m; avg := a; sum := sum m; count := count m |}).






(** ** accuracy (lines 328-341) *)

(** A two-dimensional float tensor: [nrows] rows of [ncols] scores. *)
Record Tensor2 : Type := mkTensor2 {
  ncols : nat;
  rows : list (list Q)
}.

Definition nrows (t : Tensor2) : nat := length (rows t).

(** Every row has [ncols] entries: what the tensor type guarantees. *)
Definition well_shaped (t : Tensor2) : bool :=
  forallb (fun r => Nat.eqb (length r) (ncols t)) (rows t).

(** [max(topk)] *)
Definition py_max (l : list nat) : result nat :=
  match l with
  | [] => Raise ValueError
  | k :: l' => Ok (List.fold_left Nat.max l' k)
  end.

(** Indices of a row ordered by decreasing score.  [torch.topk] leaves the
    order among equal scores unspecified; the embedding fixes it to the
    lower index first (a stable insertion sort). *)
Fixpoint insert_desc (x : nat * Q) (l : list (nat * Q)) : list (nat * Q) :=
  match l with
  | [] => [x]
  | y :: l' => if Qltb (snd x) (snd y) then y :: insert_desc x l' else x :: y :: l'
  end.

Definition sort_desc (l : list (nat * Q)) : list (nat * Q) :=
  List.fold_right insert_desc [] l.

Definition indexed (row : list Q) : list (nat * Q) :=
  List.combine (List.seq 0 (length row)) row.

Definition topk_indices (k : nat) (row : list Q) : list nat :=
  List.firstn k (List.map fst (sort_desc (indexed row))).

(** [output.topk(maxk, 1, True, True)], the index part. *)
Definition tensor_topk (k : nat) (t : Tensor2) : result (list (list nat)) :=
  if (k <=? ncols t)%nat then Ok (List.map (topk_indices k) (rows t))
  else Raise (RuntimeError "selected index k out of range").

(** [pred.t()] for a tensor of [n] columns. *)
Definition transpose (n : nat) (m : list (list nat)) : list (list nat) :=
  List.map (fun j => List.map (fun r => List.nth j r 0%nat) m) (List.seq 0 n).

(** [target.view(1, -1).expand_as(pred)] for [pred] of [k] rows and [b]
    columns: the one row is repeated; a target of length one is also
    stretched along the columns; any other length is refused. *)
Definition expand_as (k b : nat) (target : list Z) : result (list (list Z)) :=
  if Nat.eqb (length target) b then Ok (List.repeat target k)
  else if Nat.eqb (length target) 1
       then Ok (List.repeat (List.repeat (List.hd 0%Z target) b) k)
       else Raise (RuntimeError "The expanded size of the tensor must match").

(** [pred.eq(...)], elementwise. *)
Definition tensor_eq (pred : list (list nat)) (tgt : list (list Z)) : list (list bool) :=
  List.map (fun pr => List.map (fun pt => (Z.of_nat (fst pt) =? snd pt)%Z)
                               (List.combine (fst pr) (snd pr)))
           (List.combine pred tgt).

(** [correct[:k].view(-1)] for [correct] of [b] columns.  [pred.eq] gives
    its result the strides of [pred.t()], one step along a column and [maxk]
    steps along a row, so the first [k] rows are one run of memory only when
    there is at most one row or one column to take: [view] refuses every
    other slice (an empty one is always accepted). *)
Definition view_flat {A} (k b : nat) (m : list (list A)) : result (list A) :=
  if (2 <=? k)%nat && (2 <=? b)%nat
  then Raise (RuntimeError "view size is not compatible with input tensor's size and stride")
  else Ok (List.concat m).

(** [.float().sum(0)]: the number of true entries, which float32 holds
    exactly below 2^24 entries. *)
Definition float_sum (l : list bool) : Q :=
  inject_Z (Z.of_nat (length (List.filter (fun b => b) l))).

Definition accuracy (output : Tensor2) (target : list Z) (topk : list nat)
  : result (list Q) :=
  maxk ← py_max topk ;
  let batch_size := Z.of_nat (length target) in
  pred ← tensor_topk maxk output ;
  let pred := transpose maxk pred in
  expanded ← expand_as maxk (nrows output) target ;
  let correct := tensor_eq pred expanded in
  mapM (fun k =>
          flat ← view_flat k (nrows output) (List.firstn k correct) ;
          let correct_k := float_sum flat in
          c ← py_float_div 100 batch_size ;
          (* [mul_] of a float32 tensor by a Python float: the factor is
             brought to float32, the product is rounded *)
          mret (fl32 (correct_k * fl32 c))%Q) topk.

(** The quantity the specification names: the examples whose true class is
    among the [k] best indices of their row. *)
Definition in_topk (k : nat) (row : list Q) (t : Z) : bool :=
  existsb (fun i => (Z.of_nat i =? t)%Z) (topk_indices k row).

Definition correct_within (k : nat) (output : Tensor2) (target : list Z) : nat :=
  length (List.filter (fun rt => in_topk k (fst rt) (snd rt))
                      (List.combine (rows output) target)).

Definition percent_correct (k : nat) (output : Tensor2) (target : list Z) : Q :=
  (100 * inject_Z (Z.of_nat (correct_within k output target))
       / inject_Z (Z.of_nat (length target)))%Q.

(** [a] is ranked no later than [b]: its score is at least [b]'s. *)
Definition outranks (a b : nat * Q) : Prop := (snd b <= snd a)%Q.

(** The examples whose true class is the index ranked [j] among the [maxk]
    best of their row: row [j] of [correct]. *)
Definition hits (maxk j : nat) (rws : list (list Q)) (target : list Z) : nat :=
  length (List.filter
            (fun rt => (Z.of_nat (List.nth j (topk_indices maxk (fst rt)) 0%nat)
                        =? snd rt)%Z)
            (List.combine rws target)).

(** ** The collaborators of [main] *)

(** What [main] takes from torch, from [resnet] and from the data loaders:
    the model's parameters (its [state_dict]), the state the optimizer and
    the gradient scaler keep between batches, and the two epoch runners seen
    from outside.  [train] leaves new parameters; [validate] returns
    [top1.avg].  Forward passes, losses and batches stay behind this
    interface. *)
Class Torch : Type := {
  params : Type;
  buffers : Type;
  (** [resnet.__dict__[args.arch]()] *)
  new_model : string -> params;
  new_buffers : buffers;
  (** [train(train_loader, model, criterion, optimizer, epoch)] under the
      optimizer's current learning rate *)
  train_pass : params -> buffers -> Q -> Z -> params * buffers;
  (** the value [validate(val_loader, model, criterion, epoch)] returns *)
  validate_pass : params -> option Z -> Q
}.

(** ** Values, checkpoints, files *)

Inductive PyVal (P : Type) : Type :=
  | PInt (z : Z)
  | PNum (q : Q)
  | PState (p : P).
Arguments PInt {P} z.
Arguments PNum {P} q.
Arguments PState {P} p.

Inductive Content (P : Type) : Type :=
  | Pickled (obj : gmap string (PyVal P))
  | Junk.
Arguments Pickled {P} obj.
Arguments Junk {P}.

Inductive Node (P : Type) : Type :=
  | Dir
  | File (c : Content P).
Arguments Dir {P}.
Arguments File {P} c.

(** [os.path.join(a, b)] for a relative [b]. *)
Fixpoint ends_with_sep (a : string) : bool :=
  match a with
  | EmptyString => false
  | String c EmptyString => Ascii.eqb c "/"%char
  | String _ a' => ends_with_sep a'
  end.

Definition path_join (a b : string) : string :=
  if String.eqb a "" then b
  else if ends_with_sep a then a +:+ b
  else a +:+ "/" +:+ b.

(** ** The command line (lines 23-56), the fields [main] branches on *)

Record Args : Type := mkArgs {
  arch : string;
  epochs : Z;
  resume : option string;
  start_epoch : Z;
  lr : Q;
  evaluate : bool;
  amp : bool;
  save_dir : string;
  save_every : Z
}.

(** ** The optimizer's parameter group and the scheduler *)

(** [torch.optim.SGD(model.parameters(), args.lr, ...)] has one parameter
    group.  Of its keys, [lr] and [initial_lr] are the ones the scheduler
    reads and writes; a new optimizer has no [initial_lr]. *)
Record ParamGroup : Type := mkGroup {
  group_lr : Q;
  group_initial_lr : option Q
}.

(** [torch.optim.lr_scheduler.MultiStepLR], as in the torch releases that
    have [torch.cuda.amp] (which [main] and [train] use): [milestones] is a
    multiset of epochs and [get_lr] is the recursive form. *)
Record MultiStepLR : Type := mkSched {
  milestones : list Z;
  gamma : Q;
  base_lrs : list Q;
  last_epoch : Z
}.

Inductive Event (P : Type) : Type :=
  | Stdout (line : string)
  | AddScalar (tag : string) (value : Q) (step : option Z)
  | TorchSave (path : string) (obj : gmap string (PyVal P)).
Arguments Stdout {P} line.
Arguments AddScalar {P} tag value step.
Arguments TorchSave {P} path obj.

Section Controller.
Context `{T : Torch}.

(** The world [main] runs in: the module globals ([args], [best_prec1]),
    the objects [main] builds, the files, and what was printed, sent to the
    summary writer or saved, in order. *)
Record State : Type := mkState {
  args : Args;
  best_prec1 : Q;
  model : params;
  opt_buffers : buffers;
  param_group : ParamGroup;
  lr_scheduler : option MultiStepLR;
  fs : gmap string (Node params);
  log : list (Event params)
}.

Definition set_args (f : Args -> Args) (s : State) : State :=
  mkState (f (args s)) (best_prec1 s) (model s) (opt_buffers s) (param_group s)
          (lr_scheduler s) (fs s) (log s).
Definition set_best_prec1 (b : Q) (s : State) : State :=
  mkState (args s) b (model s) (opt_buffers s) (param_group s)
          (lr_scheduler s) (fs s) (log s).
Definition set_model (m : params) (s : State) : State :=
  mkState (args s) (best_prec1 s) m (opt_buffers s) (param_group s)
          (lr_scheduler s) (fs s) (log s).
Definition set_opt_buffers (b : buffers) (s : State) : State :=
  mkState (args s) (best_prec1 s) (model s) b (param_group s)
          (lr_scheduler s) (fs s) (log s).
Definition set_param_group (g : ParamGroup) (s : State) : State :=
  mkState (args s) (best_prec1 s) (model s) (opt_buffers s) g
          (lr_scheduler s) (fs s) (log s).
Definition set_lr_scheduler (o : option MultiStepLR) (s : State) : State :=
  mkState (args s) (best_prec1 s) (model s) (opt_buffers s) (param_group s)
          o (fs s) (log s).
Definition set_fs (f : gmap string (Node params)) (s : State) : State :=
  mkState (args s) (best_prec1 s) (model s) (opt_buffers s) (param_group s)
          (lr_scheduler s) f (log s).
Definition emit (e : Event params) (s : State) : State :=
  mkState (args s) (best_prec1 s) (model s) (opt_buffers s) (param_group s)
          (lr_scheduler s) (fs s) (log s ++ [e]).

Definition print (line : string) : M State unit := modify (emit (Stdout line)).
Definition add_scalar (tag : string) (v : Q) (step : option Z) : M State unit :=
  modify (emit (AddScalar tag v step)).

(** The state [main] starts from: [best_prec1 = 0] (line 58), the parsed
    arguments, the model of line 74 and the optimizer of line 120, which are
    built whatever the arguments are and which nothing reads before. *)
Definition initial_state (a : Args) (files : gmap string (Node params)) : State :=
  {| args := a;
     best_prec1 := 0;
     model := new_model (arch a);
     opt_buffers := new_buffers;
     param_group := {| group_lr := lr a; group_initial_lr := None |};
     lr_scheduler := None;
     fs := files;
     log := [] |}.

(** *** Files *)

(** [os.makedirs(args.save_dir)] unless the path exists (lines 71-72), for
    a non-empty path under an existing parent: the directory is the one node
    added. *)
Definition ensure_save_dir : M State unit :=
  s ← get ;
  match fs s !! save_dir (args s) with
  | Some _ => skip
  | None => modify (set_fs (<[save_dir (args s) := Dir]> (fs s)))
  end.

Definition isfile (s : State) (p : string) : bool :=
  match fs s !! p with
  | Some (File _) => true
  | _ => false
  end.

(** [torch.save(obj, path)]: the file at [path] now holds [obj]. *)
Definition torch_save (obj : gmap string (PyVal params)) (path : string) : M State unit :=
  modify (fun s => set_fs (<[path := File (Pickled obj)]> (fs s)) s) ;;
  modify (emit (TorchSave path obj)).

(** [torch.load(path)] of a regular file. *)
Definition torch_load (path : string) : M State (gmap string (PyVal params)) :=
  s ← get ;
  match fs s !! path with
  | Some (File (Pickled obj)) => mret obj
  | _ => raise UnpicklingError
  end.

(** [d[key]] *)
Definition getitem (d : gmap string (PyVal params)) (key : string) : M State (PyVal params) :=
  match d !! key with
  | Some v => mret v
  | None => raise (KeyError key)
  end.

(** The three entries are used as an int, a number and a state dict; an
    entry of another type is refused where it is read (Python would refuse it
    at its first use). *)
Definition as_int (v : PyVal params) : M State Z :=
  match v with PInt z => mret z | _ => raise TypeError end.
Definition as_number (v : PyVal params) : M State Q :=
  match v with PNum q => mret q | PInt z => mret (inject_Z z) | _ => raise TypeError end.
Definition as_state_dict (v : PyVal params) : M State params :=
  match v with PState p => mret p | _ => raise TypeError end.

(** The dictionary of lines 164-168 and 173-177. *)
Definition checkpoint_dict (epoch : Z) (sd : params) (best : Q) : gmap string (PyVal params) :=
  <["epoch" := PInt epoch]>
    (<["state_dict" := PState sd]>
       (<["best_prec1" := PNum best]> ∅)).

Definition best_path (a : Args) : string :=
  path_join (save_dir a) "best_checkpoint.th".
Definition periodic_path (a : Args) (n : Z) : string :=
  path_join (save_dir a) ("checkpoint_" +:+ pretty n +:+ ".th").

(** *** Resume (lines 78-88) *)

(** [if args.resume:] a path that is [None] or empty is not taken. *)
Definition configured (r : option string) : option string :=
  match r with
  | Some p => if String.eqb p "" then None else Some p
  | None => None
  end.

Definition resume_checkpoint : M State unit :=
  s ← get ;
  match configured (resume (args s)) with
  | Some p =>
      if isfile s p then
        print ("=> loading checkpoint '" +:+ p +:+ "'") ;;
        checkpoint ← torch_load p ;
        e ← getitem checkpoint "epoch" ;
        e ← as_int e ;
        modify (set_args (fun a =>
          mkArgs (arch a) (epochs a) (resume a) e (lr a) (evaluate a) (amp a)
                 (save_dir a) (save_every a))) ;;
        b ← getitem checkpoint "best_prec1" ;
        b ← as_number b ;
        modify (set_best_prec1 b) ;;
        sd ← getitem checkpoint "state_dict" ;
        sd ← as_state_dict sd ;
        modify (set_model sd) ;;
        print ("=> loaded checkpoint '" +:+ p +:+ "' (epoch " +:+ pretty e +:+ ")")
      else
        print ("=> no checkpoint found at '" +:+ p +:+ "'")
  | None => skip
  end.

(** *** The learning-rate scheduler (lines 124-125, 152) *)

(** [MultiStepLR.get_lr]: the current rate, times [gamma] once for each
    time [last_epoch] occurs among the milestones. *)
Definition get_lr (sch : MultiStepLR) (g : ParamGroup) : Q :=
  let c := count_occ Z.eq_dec (milestones sch) (last_epoch sch) in
  if Nat.eqb c 0 then group_lr g
  else (group_lr g * gamma sch ^ Z.of_nat c)%Q.

(** [lr_scheduler.step()]: advance [last_epoch], write the new rate into
    the parameter group. *)
Definition scheduler_step : M State unit :=
  s ← get ;
  match lr_scheduler s with
  | None => raise UnboundLocalError
  | Some sch =>
      let sch' := mkSched (milestones sch) (gamma sch) (base_lrs sch)
                          (last_epoch sch + 1)%Z in
      modify (set_lr_scheduler (Some sch')) ;;
      modify (fun s => set_param_group
                         (mkGroup (get_lr sch' (param_group s))
                                  (group_initial_lr (param_group s))) s)
  end.

(** [MultiStepLR(optimizer, milestones=..., last_epoch=...)] with the default
    [gamma=0.1].  The base class sets [initial_lr] when [last_epoch] is -1
    and otherwise insists on finding it in the parameter group; then it
    takes one step. *)
Definition MultiStepLR_new (ms : list Z) (last : Z) : M State unit :=
  s ← get ;
  let g := param_group s in
  (if (last =? -1)%Z
   then modify (set_param_group
                  (mkGroup (group_lr g)
                           (Some (default (group_lr g) (group_initial_lr g)))))
   else match group_initial_lr g with
        | Some _ => skip
        | None => raise (KeyError "initial_lr")
        end) ;;
  s ← get ;
  base ← match group_initial_lr (param_group s) with
         | Some b => mret b
         | None => raise (KeyError "initial_lr")
         end ;
  modify (set_lr_scheduler (Some (mkSched ms (1 # 10) [base] last))) ;;
  scheduler_step.

(** Lines 127-131: the warm-up override. *)
Definition warm_up_arch (a : string) : bool :=
  existsb (String.eqb a) ["resnet1202"; "resnet110"].

Definition warm_up : M State unit :=
  s ← get ;
  if warm_up_arch (arch (args s))
  then modify (set_param_group
                 (mkGroup (lr (args s) * (1 # 10))%Q
                          (group_initial_lr (param_group s))))
  else skip.

(** *** The epoch runners, from outside *)

Definition train (epoch : Z) : M State unit :=
  modify (fun s =>
    let r := train_pass (model s) (opt_buffers s) (group_lr (param_group s)) epoch in
    set_opt_buffers (snd r) (set_model (fst r) s)).

(** [validate] sends [top1.avg] to the summary writer (line 306) and
    returns it.  Of what it emits, only that scalar is kept in the log of
    [main]; [Epoch.validate] has its lines and both scalars. *)
Definition validate (epoch : option Z) : M State Q :=
  s ← get ;
  let prec := validate_pass (model s) epoch in
  add_scalar "test accuracy" prec epoch ;;
  mret prec.

(** *** One epoch (lines 142-182) *)

Definition epoch_body (epoch : Z) : M State unit :=
  s ← get ;
  add_scalar "learning rate" (group_lr (param_group s)) (Some epoch) ;;
  train epoch ;;
  scheduler_step ;;
  prec1 ← validate (Some epoch) ;
  (* remember best prec@1 and save checkpoint *)
  s ← get ;
  let is_best := Qltb (best_prec1 s) prec1 in
  modify (set_best_prec1 (py_max2 prec1 (best_prec1 s))) ;;
  s ← get ;
  (if is_best
   then torch_save (checkpoint_dict (epoch + 1) (model s) (best_prec1 s))
                   (best_path (args s))
   else skip) ;;
  (* save checkpoint regularly *)
  periodic ← (if (0 <? epoch)%Z
              then r ← lift (py_mod (epoch + 1) (save_every (args s))) ;
                   mret (r =? 0)%Z
              else mret false) ;
  if periodic : bool
  then print ("Saving checkpoint at epoch " +:+ pretty epoch +:+ "...") ;;
       s ← get ;
       torch_save (checkpoint_dict (epoch + 1) (model s) (best_prec1 s))
                  (periodic_path (args s) (epoch + 1))
  else skip.

Definition train_loop (es : list Z) : M State unit := for_each es epoch_body.

(** *** main (lines 61-182) *)

(** From the save directory on (line 71).  The loaded state dict is taken
    to fit the model ([load_state_dict] accepts it), as it does when the
    checkpoint was written by this program for the same architecture. *)

Definition main : M State unit :=
  ensure_save_dir ;;
  resume_checkpoint ;;
  s ← get ;
  MultiStepLR_new [100; 150]%Z (start_epoch (args s) - 1) ;;
  warm_up ;;
  s ← get ;
  if evaluate (args s)
  then validate None ;; skip
  else train_loop (py_range (start_epoch (args s)) (epochs (args s))).

(** *** Reading the log *)

(** The validation metrics of the epochs, in order. *)
Definition test_accuracies (tr : list (Event params)) : list (Z * Q) :=
  omap (fun ev => match ev with
                  | AddScalar tag v (Some e) =>
                      if String.eqb tag "test accuracy" then Some (e, v) else None
                  | _ => None
                  end) tr.

(** The learning rate each epoch was trained with. *)
Definition learning_rates (tr : list (Event params)) : list (Z * Q) :=
  omap (fun ev => match ev with
                  | AddScalar tag v (Some e) =>
                      if String.eqb tag "learning rate" then Some (e, v) else None
                  | _ => None
                  end) tr.

(** The objects saved at [path], in order. *)
Definition saves_at (path : string) (tr : list (Event params))
  : list (gmap string (PyVal params)) :=
  omap (fun ev => match ev with
                  | TorchSave p obj => if String.eqb p path then Some obj else None
                  | _ => None
                  end) tr.

(** The paths of the saves that do not go to [path], in order. *)
Definition saves_elsewhere (path : string) (tr : list (Event params)) : list string :=
  omap (fun ev => match ev with
                  | TorchSave p _ => if String.eqb p path then None else Some p
                  | _ => None
                  end) tr.

Definition all_saves (tr : list (Event params))
  : list (string * gmap string (PyVal params)) :=
  omap (fun ev => match ev with
                  | TorchSave p obj => Some (p, obj)
                  | _ => None
                  end) tr.

Definition printed (tr : list (Event params)) : list string :=
  omap (fun ev => match ev with Stdout l => Some l | _ => None end) tr.

(** *** One epoch, seen from outside *)

(** The parameters after the training pass of [epoch], the metric
    [validate] then returns, and the test of line 171. *)
Definition trained (s : State) (epoch : Z) : params :=
  fst (train_pass (model s) (opt_buffers s) (group_lr (param_group s)) epoch).

Definition epoch_metric (s : State) (epoch : Z) : Q :=
  validate_pass (trained s epoch) (Some epoch).

Definition periodic_due (every epoch : Z) : bool :=
  (0 <? epoch)%Z && ((epoch + 1) mod every =? 0)%Z.

(** What one epoch started in [s] appends to the log when it completes. *)
Definition epoch_events (s : State) (epoch : Z) : list (Event params) :=
  let prec1 := epoch_metric s epoch in
  let obj := checkpoint_dict (epoch + 1) (trained s epoch)
                             (py_max2 prec1 (best_prec1 s)) in
  [AddScalar "learning rate" (group_lr (param_group s)) (Some epoch);
   AddScalar "test accuracy" prec1 (Some epoch)]
  ++ (if Qltb (best_prec1 s) prec1
      then [TorchSave (best_path (args s)) obj] else [])
  ++ (if periodic_due (save_every (args s)) epoch
      then [Stdout ("Saving checkpoint at epoch " +:+ pretty epoch +:+ "...");
            TorchSave (periodic_path (args s) (epoch + 1)) obj]
      else []).

(** The scheduler after one more step. *)
Definition stepped (sch : MultiStepLR) : MultiStepLR :=
  mkSched (milestones sch) (gamma sch) (base_lrs sch) (last_epoch sch + 1)%Z.

(** *** The states [main] passes through before the loop *)

(** The files once the save directory is there (lines 71-72). *)
Definition files_with_save_dir (a : Args) (files : gmap string (Node params))
  : gmap string (Node params) :=
  match files !! save_dir a with
  | Some _ => files
  | None => <[save_dir a := Dir]> files
  end.

(** The state in which a run that loaded no checkpoint and starts at epoch
    0 enters the loop, [lg] being what was printed so far. *)
Definition entry_state (a : Args) (files : gmap string (Node params))
  (lg : list (Event params)) : State :=
  {| args := a;
     best_prec1 := 0;
     model := new_model (arch a);
     opt_buffers := new_buffers;
     param_group :=
       mkGroup (if warm_up_arch (arch a) then lr a * (1 # 10) else lr a)%Q
               (Some (lr a));
     lr_scheduler := Some (mkSched [100; 150]%Z (1 # 10) [lr a] 0);
     fs := files_with_save_dir a files;
     log := lg |}.

(** The state after a checkpoint holding [e], [b] and [sd] was loaded from
    [p] (lines 80-86). *)
Definition restored (s : State) (p : string) (e : Z) (b : Q) (sd : params) : State :=
  {| args := mkArgs (arch (args s)) (epochs (args s)) (resume (args s)) e
                    (lr (args s)) (evaluate (args s)) (amp (args s))
                    (save_dir (args s)) (save_every (args s));
     best_prec1 := b;
     model := sd;
     opt_buffers := opt_buffers s;
     param_group := param_group s;
     lr_scheduler := lr_scheduler s;
     fs := fs s;
     log := log s ++ [Stdout ("=> loading checkpoint '" +:+ p +:+ "'");
                      Stdout ("=> loaded checkpoint '" +:+ p +:+ "' (epoch "
                             +:+ pretty e +:+ ")")] |}.

(** Epoch [e] started in [s] completes and leaves [s1]. *)
Definition epoch_completes (s : State) (e : Z) (s1 : State) : Prop :=
  epoch_body e s = (s1, Ok tt) /\
  args s1 = args s /\
  model s1 = trained s e /\
  best_prec1 s1 = py_max2 (epoch_metric s e) (best_prec1 s) /\
  (exists sch, lr_scheduler s = Some sch /\
               lr_scheduler s1 = Some (stepped sch) /\
               param_group s1 = mkGroup (get_lr (stepped sch) (param_group s))
                                        (group_initial_lr (param_group s))) /\
  log s1 = log s ++ epoch_events s e /\
  (forall p obj, In (TorchSave p obj) (epoch_events s e) ->
     fs s1 !! p = Some (File (Pickled obj))).

(** A run of the loop that nothing interrupts, with what it logs. *)
Inductive loop_run : State -> list Z -> list (Event params) -> State -> Prop :=
  | loop_done s : loop_run s [] [] s
  | loop_epoch s e s1 es tr s' :
      epoch_completes s e s1 ->
      loop_run s1 es tr s' ->
      loop_run s (e :: es) (epoch_events s e ++ tr) s'.

(** The two entries of a checkpoint that are numbers. *)
Definition numeric_fields (obj : gmap string (PyVal params))
  : option (PyVal params) * option (PyVal params) :=
  (obj !! "epoch", obj !! "best_prec1").

End Controller.

(** A collaborator for examples: its parameters count the epochs trained,
    and validation replays a given sequence of metrics. *)
Definition replay (metrics : list Q) : Torch :=
  {| params := nat;
     buffers := unit;
     new_model := fun _ => 0%nat;
     new_buffers := tt;
     train_pass := fun p b _ _ => (S p, b);
     validate_pass := fun p _ => List.nth (Nat.pred p) metrics 0%Q |}.

(** Arguments for examples: [resnet32], no resume, start at epoch 0, rate
    0.1, saving under [save_temp]. *)
Definition example_args (n every : Z) : Args :=
  mkArgs "resnet32" n None 0 (1 # 10) false false "save_temp" every.

(** The same with [--evaluate], and with [--resume] of a given path. *)
Definition evaluate_args : Args :=
  mkArgs "resnet32" 200 None 0 (1 # 10) true false "save_temp" 10.

Definition resume_args (p : string) (n : Z) : Args :=
  mkArgs "resnet32" n (Some p) 0 (1 # 10) false false "save_temp" 10.

(** [b] is the greatest of [b0] and the metrics [seen]. *)
Definition running_best (b0 : Q) (seen : list Q) (b : Q) : Prop :=
  (b0 <= b)%Q /\ List.Forall (fun x => (x <= b)%Q) seen /\ (b = b0 \/ In b seen).

(** ** What the specification calls a strict improvement *)

(** The entries of a sequence of (epoch, metric) pairs whose metric is
    greater than the starting value [b] and than every metric before it. *)
Fixpoint strict_improvements_from (b : Q) (seen : list Q) (ms : list (Z * Q))
  : list (Z * Q) :=
  match ms with
  | [] => []
  | (e, m) :: ms' =>
      if Qltb b m && forallb (fun x => Qltb x m) seen
      then (e, m) :: strict_improvements_from b (seen ++ [m]) ms'
      else strict_improvements_from b (seen ++ [m]) ms'
  end.

Definition strict_improvements (b : Q) (ms : list (Z * Q)) : list (Z * Q) :=
  strict_improvements_from b [] ms.

(** The closed form of the schedule: [base] times [gamma] for every
    milestone not after [epoch]. *)
Definition closed_form_lr (base : Q) (ms : list Z) (epoch : Z) : Q :=
  (base * (1 # 10) ^ Z.of_nat (length (List.filter (fun m => (m <=? epoch)%Z) ms)))%Q.

(** ** The epoch runners from inside (lines 185-308) *)

(** [main] sees [train] and [validate] through [Torch].  Here are their
    bodies, batch by batch, over what they take from torch: the forward pass
    in either mode, the loss, and the backward pass with the optimizer step.
    The wall-clock meters [batch_time] and [data_time] are updated with the
    default weight 1 and only feed the printed line; they are left out. *)
Module Epoch.

Class Net : Type := {
  weights : Type;
  optim : Type;
  images : Type;
  (** [image.size(0)] *)
  size0 : images -> Z;
  (** [model(input_var)] after [model.eval()], under [no_grad] *)
  eval_forward : weights -> images -> Tensor2;
  (** [model(input_var)] after [model.train()], under [autocast] when the
      flag is set *)
  train_forward : bool -> weights -> images -> Tensor2;
  (** [criterion(output, target_var)], read with [loss.item()] *)
  criterion : Tensor2 -> list Z -> result Q;
  (** [zero_grad], [backward] and [optimizer.step()], or their scaled forms
      under [--amp], together with what the forward pass in training mode
      leaves in the model's buffers *)
  backward_step : bool -> weights -> optim -> images -> list Z -> weights * optim
}.

(** What a runner prints and logs: the progress line with the [val] and
    [avg] of both meters, the summary line, the scalars. *)
Inductive Report : Type :=
  | TrainLine (epoch : Z) (i n : nat) (loss_val loss_avg top1_val top1_avg : Q)
  | TestLine (i n : nat) (loss_val loss_avg top1_val top1_avg : Q)
  | PrecLine (top1_avg : Q)
  | Scalar (tag : string) (value : Q) (step : option Z).

Section Runners.
Context `{N : Net}.

Record Runner : Type := mkRunner {
  net : weights;
  opt : optim;
  losses : AverageMeter;
  top1 : AverageMeter;
  out : list Report
}.

Definition set_net (w : weights) (s : Runner) : Runner :=
  mkRunner w (opt s) (losses s) (top1 s) (out s).
Definition set_opt (o : optim) (s : Runner) : Runner :=
  mkRunner (net s) o (losses s) (top1 s) (out s).
Definition set_losses (m : AverageMeter) (s : Runner) : Runner :=
  mkRunner (net s) (opt s) m (top1 s) (out s).
Definition set_top1 (m : AverageMeter) (s : Runner) : Runner :=
  mkRunner (net s) (opt s) (losses s) m (out s).
Definition report (e : Report) (s : Runner) : Runner :=
  mkRunner (net s) (opt s) (losses s) (top1 s) (out s ++ [e]).

(** A method call on one of the two meters. *)
Definition on_losses {A} (m : M AverageMeter A) : M Runner A :=
  fun s => let r := m (losses s) in (set_losses (fst r) s, snd r).
Definition on_top1 {A} (m : M AverageMeter A) : M Runner A :=
  fun s => let r := m (top1 s) in (set_top1 (fst r) s, snd r).

(** [enumerate(loader)] *)
Definition enumerate {A} (l : list A) : list (nat * A) :=
  List.combine (List.seq 0 (length l)) l.

(** [accuracy(output.data, target)[0]] with the default [topk=(1,)] *)
Definition prec_at_1 (output : Tensor2) (target : list Z) : result Q :=
  res ← accuracy output target [1%nat] ;
  match res with
  | x :: _ => Ok x
  | [] => Raise (RuntimeError "list index out of range")
  end.

(** One iteration of the loop of [validate] (lines 270-301). *)
Definition validate_batch (print_freq : Z) (n : nat)
    (ib : nat * (images * list Z)) : M Runner unit :=
  let i := fst ib in
  let image := fst (snd ib) in
  let target := snd (snd ib) in
  s ← get ;
  let output := eval_forward (net s) image in
  loss ← lift (criterion output target) ;
  prec1 ← lift (prec_at_1 output target) ;
  on_losses (update loss (size0 image)) ;;
  on_top1 (update prec1 (size0 image)) ;;
  r ← lift (py_mod (Z.of_nat i) print_freq) ;
  if (r =? 0)%Z
  then s ← get ;
       modify (report (TestLine i n (val (losses s)) (avg (losses s))
                                    (val (top1 s)) (avg (top1 s))))
  else skip.

(** [validate(val_loader, model, criterion, epoch)] *)
Definition validate (print_freq : Z) (val_loader : list (images * list Z))
    (epoch : option Z) : M Runner Q :=
  modify (set_losses AverageMeter_new) ;;
  modify (set_top1 AverageMeter_new) ;;
  for_each (enumerate val_loader) (validate_batch print_freq (length val_loader)) ;;
  s ← get ;
  modify (report (PrecLine (avg (top1 s)))) ;;
  modify (report (Scalar "test loss" (avg (losses s)) epoch)) ;;
  modify (report (Scalar "test accuracy" (avg (top1 s)) epoch)) ;;
  mret (avg (top1 s)).

(** One iteration of the loop of [train] (lines 198-251): the step is taken
    before the accuracy of the batch is measured, on the output computed
    before the step. *)
Definition train_batch (amp : bool) (print_freq : Z) (epoch : Z) (n : nat)
    (ib : nat * (images * list Z)) : M Runner unit :=
  let i := fst ib in
  let image := fst (snd ib) in
  let target := snd (snd ib) in
  s ← get ;
  let output := train_forward amp (net s) image in
  loss ← lift (criterion output target) ;
  modify (fun s => let r := backward_step amp (net s) (opt s) image target in
                   set_net (fst r) (set_opt (snd r) s)) ;;
  prec1 ← lift (prec_at_1 output target) ;
  on_losses (update loss (size0 image)) ;;
  on_top1 (update prec1 (size0 image)) ;;
  r ← lift (py_mod (Z.of_nat i) print_freq) ;
  if (r =? 0)%Z
  then s ← get ;
       modify (report (TrainLine epoch i n (val (losses s)) (avg (losses s))
                                         (val (top1 s)) (avg (top1 s))))
  else skip.

(** [train(train_loader, model, criterion, optimizer, epoch)] *)
Definition train (amp : bool) (print_freq : Z)
    (train_loader : list (images * list Z)) (epoch : Z) : M Runner unit :=
  modify (set_losses AverageMeter_new) ;;
  modify (set_top1 AverageMeter_new) ;;
  for_each (enumerate train_loader)
           (train_batch amp print_freq epoch (length train_loader)) ;;
  s ← get ;
  modify (report (Scalar "training loss" (avg (losses s)) (Some epoch))) ;;
  modify (report (Scalar "training accuracy" (avg (top1 s)) (Some epoch))).

(** A batch the runners are written for: one row of scores and one target
    per image, at least one image and one class, a loss that is defined. *)
Definition sound_batch (f : images -> Tensor2) (b : images * list Z) : Prop :=
  well_shaped (f (fst b)) = true /\
  nrows (f (fst b)) = length (snd b) /\
  snd b <> [] /\
  (1 <= ncols (f (fst b)))%nat /\
  size0 (fst b) = Z.of_nat (length (snd b)) /\
  exists l, criterion (f (fst b)) (snd b) = Ok l.

(** The examples of a whole loader. *)
Definition total_examples (loader : list (images * list Z)) : nat :=
  List.list_sum (List.map (fun b => length (snd b)) loader).

(** The weights and the optimizer after one step per batch, in order. *)
Definition steps (amp : bool) (loader : list (images * list Z))
    (wo : weights * optim) : weights * optim :=
  List.fold_left (fun wo b => backward_step amp (fst wo) (snd wo) (fst b) (snd b))
                 loader wo.

(** The indices at which a progress line is due. *)
Definition progress_indices (print_freq : Z) (n : nat) : list nat :=
  List.filter (fun i => (Z.of_nat i mod print_freq =? 0)%Z) (List.seq 0 n).

Definition test_lines (l : list Report) : list nat :=
  omap (fun e => match e with TestLine i _ _ _ _ _ => Some i | _ => None end) l.

End Runners.

(** A network for examples: the images are the rows of scores themselves,
    the loss is constant, a step counts. *)
Definition scores_net : Net :=
  {| weights := nat;
     optim := nat;
     images := list (list Q);
     size0 := fun im => Z.of_nat (length im);
     eval_forward := fun _ im => mkTensor2 2 im;
     train_forward := fun _ _ im => mkTensor2 2 im;
     criterion := fun _ _ => Ok (1 # 2)%Q;
     backward_step := fun _ w o _ _ => (S w, S o) |}.

Definition example_runner : @Runner scores_net :=
  @mkRunner scores_net 0%nat 0%nat AverageMeter_new AverageMeter_new [].

(** Two batches of two classes: three examples, of which the first two have
    their target ranked first. *)
Definition example_loader : list (@images scores_net * list Z) :=
  [([[1 # 10; 9 # 10]; [8 # 10; 2 # 10]]%Q, [1; 0]%Z); ([[3 # 10; 7 # 10]]%Q, [0%Z])].

End Epoch.

(** ** The wall-clock lines of the loop (lines 139-141, 145-158, 180-181) *)

(** The loop of [main] keeps three meters of durations and prints three
    lines per epoch.  The six values [time.time()] returns to the loop in one
    epoch are taken as given; the statements between them are those of
    [epoch_body]. *)
Module Timing.

Record Stamps : Type := mkStamps {
  t_start : Q;        (* line 145 *)
  t_train_begin : Q;  (* line 148 *)
  t_train_end : Q;    (* line 150 *)
  t_val_begin : Q;    (* line 155 *)
  t_val_end : Q;      (* line 157 *)
  t_end : Q           (* line 180 *)
}.

(** The three printed lines, with the two numbers each one shows. *)
Inductive TimeLine : Type :=
  | TrainingTime (epoch : Z) (shown average : Q)      (* line 151 *)
  | ValidationTime (epoch : Z) (shown average : Q)    (* line 158 *)
  | EpochEnd (epoch : Z) (shown average : Q).         (* line 181 *)

Record Timers : Type := mkTimers {
  epoch_time : AverageMeter;
  train_time : AverageMeter;
  val_time : AverageMeter;
  shown : list TimeLine
}.

Definition timers_new : Timers :=
  mkTimers AverageMeter_new AverageMeter_new AverageMeter_new [].

Definition on_epoch_time {A} (m : M AverageMeter A) : M Timers A :=
  fun s => let r := m (epoch_time s) in
           (mkTimers (fst r) (train_time s) (val_time s) (shown s), snd r).
Definition on_train_time {A} (m : M AverageMeter A) : M Timers A :=
  fun s => let r := m (train_time s) in
           (mkTimers (epoch_time s) (fst r) (val_time s) (shown s), snd r).
Definition on_val_time {A} (m : M AverageMeter A) : M Timers A :=
  fun s => let r := m (val_time s) in
           (mkTimers (epoch_time s) (train_time s) (fst r) (shown s), snd r).

Definition say (f : Timers -> TimeLine) : M Timers unit :=
  modify (fun s => mkTimers (epoch_time s) (train_time s) (val_time s)
                            (shown s ++ [f s])).

(** The timing statements of one epoch, in order. *)
Definition time_epoch (es : Z * Stamps) : M Timers unit :=
  let epoch := fst es in
  let st := snd es in
  on_train_time (update (t_train_end st - t_train_begin st) 1) ;;
  say (fun s => TrainingTime epoch (val (epoch_time s)) (avg (train_time s))) ;;
  on_val_time (update (t_val_end st - t_val_begin st) 1) ;;
  say (fun s => ValidationTime epoch (val (epoch_time s)) (avg (val_time s))) ;;
  on_epoch_time (update (t_end st - t_start st) 1) ;;
  say (fun s => EpochEnd epoch (val (epoch_time s)) (avg (val_time s))).

Definition time_loop (l : list (Z * Stamps)) : M Timers unit :=
  for_each l time_epoch.

(** The number each 'training time' line shows, in order. *)
Definition training_shown (l : list TimeLine) : list Q :=
  omap (fun e => match e with TrainingTime _ v _ => Some v | _ => None end) l.

(** The whole duration of an epoch. *)
Definition epoch_duration (st : Stamps) : Q := (t_end st - t_start st)%Q.

End Timing.

(** * Part II: properties *)

(** ** Numbers *)

Lemma Qltb_lt x y : Qltb x y = true <-> (x < y)%Q.
Proof.
  unfold Qltb. rewrite Qlt_alt. destruct (x ?= y)%Q; split; congruence.
Qed.

Lemma Qltb_ge x y : Qltb x y = false <-> (y <= x)%Q.
Proof.
  unfold Qltb. rewrite Qge_alt. destruct (x ?= y)%Q; split; congruence.
Qed.

Lemma py_max2_Qmax a b : (py_max2 a b == Qmax a b)%Q.
Proof.
  unfold py_max2. destruct (Qltb a b) eqn:E.
  - apply Qltb_lt in E. symmetry. apply Q.max_r. lra.
  - apply Qltb_ge in E. symmetry. apply Q.max_l. lra.
Qed.

Lemma py_max2_ge_l a b : (a <= py_max2 a b)%Q.
Proof.
  unfold py_max2. destruct (Qltb a b) eqn:E; [apply Qltb_lt in E|]; lra.
Qed.

Lemma py_max2_ge_r a b : (b <= py_max2 a b)%Q.
Proof.
  unfold py_max2. destruct (Qltb a b) eqn:E; [|apply Qltb_ge in E]; lra.
Qed.

(** ** AverageMeter *)

Lemma update_ok m v n :
  (count m + n)%Z <> 0%Z ->
  update v n m =
    ({| val := v;
        avg := ((sum m + v * inject_Z n) / inject_Z (count m + n))%Q;
        sum := (sum m + v * inject_Z n)%Q;
        count := (count m + n)%Z |}, Ok tt).
Proof.
  intros Hc. unfold update, py_div, lift, modify, get, mbind, M_bind. cbn.
  destruct (Z.eqb_spec (count m + n) 0); [contradiction | reflexivity].
Qed.

Lemma update_raises m v n :
  (count m + n)%Z = 0%Z ->
  update v n m =
    ({| val := v; avg := avg m;
        sum := (sum m + v * inject_Z n)%Q;
        count := (count m + n)%Z |}, Raise ZeroDivisionError).
Proof.
  intros Hc. unfold update, py_div, lift, modify, get, mbind, M_bind. cbn.
  rewrite Hc. reflexivity.
Qed.









(** Outside that contract: an update of weight 0 on a fresh meter divides
    by a [count] that is 0. *)
Lemma update_weight_zero_raises :
  snd ((reset ;; update 5 0) AverageMeter_new) = Raise ZeroDivisionError /\
  count (fst ((reset ;; update 5 0) AverageMeter_new)) = 0%Z.
Proof. split; reflexivity. Qed.

(** ** Top-k selection *)

Lemma insert_desc_perm x l : Permutation (insert_desc x l) (x :: l).
Proof.
  induction l as [|y l IH]; cbn; [reflexivity|].
  destruct (Qltb (snd x) (snd y)); [|reflexivity].
  rewrite IH. apply perm_swap.
Qed.

Lemma sort_desc_perm l : Permutation (sort_desc l) l.
Proof.
  induction l as [|x l IH]; cbn; [reflexivity|].
  rewrite insert_desc_perm. apply perm_skip, IH.
Qed.

Lemma insert_desc_sorted x l :
  StronglySorted outranks l -> StronglySorted outranks (insert_desc x l).
Proof.
  induction l as [|y l IH]; intros Hs; cbn.
  - repeat constructor.
  - apply StronglySorted_inv in Hs as [Hs Hy].
    destruct (Qltb (snd x) (snd y)) eqn:E.
    + apply Qltb_lt in E. constructor; [apply IH, Hs|].
      eapply Permutation_Forall; [symmetry; apply insert_desc_perm|].
      constructor; [unfold outranks; lra | exact Hy].
    + apply Qltb_ge in E. constructor; [constructor; assumption|].
      constructor; [exact E|].
      eapply List.Forall_impl; [|exact Hy].
      intros z Hz. unfold outranks in *. lra.
Qed.

Lemma sort_desc_sorted l : StronglySorted outranks (sort_desc l).
Proof.
  induction l as [|x l IH]; cbn; [constructor|].
  apply insert_desc_sorted, IH.
Qed.

Lemma StronglySorted_app_outranks (l1 l2 : list (nat * Q)) :
  StronglySorted outranks (l1 ++ l2) ->
  forall a b, In a l1 -> In b l2 -> outranks a b.
Proof.
  induction l1 as [|x l1 IH]; intros Hs a b Ha Hb; [destruct Ha|].
  cbn in Hs. apply StronglySorted_inv in Hs as [Hs Hx].
  destruct Ha as [<-|Ha].
  - rewrite List.Forall_forall in Hx. apply Hx, List.in_or_app. right. exact Hb.
  - exact (IH Hs a b Ha Hb).
Qed.

Lemma indexed_fst row : List.map fst (indexed row) = List.seq 0 (length row).
Proof.
  unfold indexed. generalize 0%nat.
  induction row as [|q row IH]; intros n; cbn; [reflexivity|].
  f_equal. apply IH.
Qed.

Lemma indexed_In row i q :
  In (i, q) (indexed row) -> (i < length row)%nat /\ q = List.nth i row 0%Q.
Proof.
  unfold indexed.
  enough (H : forall n, In (i, q) (List.combine (List.seq n (length row)) row) ->
                        (n <= i < n + length row)%nat /\ q = List.nth (i - n) row 0%Q).
  { intros Hin. destruct (H 0%nat Hin) as [? ->].
    split; [lia|]. f_equal. lia. }
  induction row as [|x row IH]; intros n Hin; [destruct Hin|].
  cbn in Hin. destruct Hin as [Heq|Hin].
  - inversion Heq; subst. split; [cbn; lia|].
    replace (i - i)%nat with 0%nat by lia. reflexivity.
  - destruct (IH (S n) Hin) as [Hr ->]. split; [cbn; lia|].
    replace (i - n)%nat with (S (i - S n)) by lia. reflexivity.
Qed.

Lemma In_indexed row i :
  (i < length row)%nat -> In (i, List.nth i row 0%Q) (indexed row).
Proof.
  unfold indexed.
  enough (H : forall n, (i < length row)%nat ->
            In ((n + i)%nat, List.nth i row 0%Q)
               (List.combine (List.seq n (length row)) row)).
  { intros Hi. exact (H 0%nat Hi). }
  revert i. induction row as [|x row IH]; intros i n Hi; cbn in Hi; [lia|].
  destruct i as [|i]; cbn.
  - left. f_equal. lia.
  - right. replace (n + S i)%nat with (S n + i)%nat by lia. apply IH. lia.
Qed.

Lemma ranking_perm row :
  Permutation (List.map fst (sort_desc (indexed row))) (List.seq 0 (length row)).
Proof.
  rewrite <- indexed_fst. apply Permutation_map, sort_desc_perm.
Qed.

Lemma ranking_length row :
  length (List.map fst (sort_desc (indexed row))) = length row.
Proof.
  rewrite (Permutation_length (ranking_perm row)). apply List.length_seq.
Qed.

Lemma ranking_NoDup row : List.NoDup (List.map fst (sort_desc (indexed row))).
Proof.
  eapply Permutation_NoDup; [symmetry; apply ranking_perm|].
  apply List.seq_NoDup.
Qed.

Lemma In_firstn {A} (k : nat) (l : list A) (x : A) :
  In x (List.firstn k l) -> In x l.
Proof.
  intros Hx. rewrite <- (List.firstn_skipn k l).
  apply List.in_or_app. left. exact Hx.
Qed.

Lemma NoDup_firstn {A} (k : nat) (l : list A) :
  List.NoDup l -> List.NoDup (List.firstn k l).
Proof.
  intros Hl. rewrite <- (List.firstn_skipn k l) in Hl.
  exact (List.NoDup_app_remove_r _ _ Hl).
Qed.

Lemma topk_indices_NoDup k row : List.NoDup (topk_indices k row).
Proof. apply NoDup_firstn, ranking_NoDup. Qed.

Lemma topk_indices_length k row :
  length (topk_indices k row) = Nat.min k (length row).
Proof.
  unfold topk_indices. rewrite List.length_firstn, ranking_length. reflexivity.
Qed.

Lemma topk_indices_range k row i :
  In i (topk_indices k row) -> (i < length row)%nat.
Proof.
  intros Hi. apply In_firstn in Hi.
  apply (Permutation_in _ (ranking_perm row)) in Hi.
  apply List.in_seq in Hi. lia.
Qed.

(** The slice [[:k]] of the [maxk] best indices is the [k] best indices. *)
Lemma topk_indices_firstn j k row :
  (j <= k)%nat -> List.firstn j (topk_indices k row) = topk_indices j row.
Proof.
  intros Hjk. unfold topk_indices. rewrite List.firstn_firstn.
  replace (Nat.min j k) with j by lia. reflexivity.
Qed.

(** The selected indices carry the highest scores: a selected score is at
    least any score that was not selected. *)
Lemma topk_indices_highest k row i j :
  In i (topk_indices k row) ->
  (j < length row)%nat -> ~ In j (topk_indices k row) ->
  (List.nth j row 0 <= List.nth i row 0)%Q.
Proof.
  intros Hi Hj Hnj. unfold topk_indices in *.
  set (sorted := sort_desc (indexed row)) in *.
  assert (Hsorted : StronglySorted outranks
                      (List.firstn k sorted ++ List.skipn k sorted)).
  { rewrite List.firstn_skipn. apply sort_desc_sorted. }
  rewrite List.firstn_map in Hi, Hnj.
  apply List.in_map_iff in Hi as ([i' qi] & Hfst & Hi). cbn in Hfst. subst i'.
  assert (Hqi : qi = List.nth i row 0%Q).
  { apply In_firstn in Hi.
    apply (Permutation_in _ (sort_desc_perm _)) in Hi.
    apply indexed_In in Hi. tauto. }
  assert (Hjin : In (j, List.nth j row 0%Q) sorted).
  { apply (Permutation_in _ (Permutation_sym (sort_desc_perm _))).
    apply In_indexed, Hj. }
  rewrite <- (List.firstn_skipn k sorted) in Hjin.
  apply List.in_app_or in Hjin as [Hjin|Hjin].
  - exfalso. apply Hnj. apply List.in_map_iff.
    exists (j, List.nth j row 0%Q). split; [reflexivity | exact Hjin].
  - pose proof (StronglySorted_app_outranks _ _ Hsorted _ _ Hi Hjin) as Ho.
    unfold outranks in Ho. cbn in Ho. subst qi. exact Ho.
Qed.

(** ** accuracy *)

Lemma py_max_ge topk maxk :
  py_max topk = Ok maxk -> forall k, In k topk -> (k <= maxk)%nat.
Proof.
  destruct topk as [|k0 l]; [discriminate|]. cbn. intros [= <-].
  assert (Hfold : forall l a, (a <= List.fold_left Nat.max l a)%nat /\
            forall k, In k l -> (k <= List.fold_left Nat.max l a)%nat).
  { clear. induction l as [|x l IH]; intros a; cbn; [split; [lia | tauto]|].
    destruct (IH (Nat.max a x)) as [Ha Hl]. split; [lia|].
    intros k [<-|Hk]; [lia | apply Hl, Hk]. }
  destruct (Hfold l k0) as [H0 Hl].
  intros k [<-|Hk]; [exact H0 | exact (Hl k Hk)].
Qed.

Lemma mapM_result_ok {A B} (f : A -> result B) (g : A -> B) (l : list A) :
  (forall x, In x l -> f x = Ok (g x)) -> mapM f l = Ok (List.map g l).
Proof.
  induction l as [|x l IH]; intros Hf; cbn; [reflexivity|].
  rewrite (Hf x) by (left; reflexivity). cbn.
  rewrite IH by (intros y Hy; apply Hf; right; exact Hy). reflexivity.
Qed.

Lemma combine_map_repeat {A B C} (f : A -> B) (t : C) (l : list A) :
  List.combine (List.map f l) (List.repeat t (length l))
  = List.map (fun j => (f j, t)) l.
Proof. induction l as [|x l IH]; cbn; [reflexivity|]. f_equal. exact IH. Qed.

Lemma combine_map_fst {A B C} (h : A -> B) (l : list A) (t : list C) :
  List.combine (List.map h l) t
  = List.map (fun rt => (h (fst rt), snd rt)) (List.combine l t).
Proof.
  revert t. induction l as [|x l IH]; intros [|y t]; cbn; try reflexivity.
  f_equal. apply IH.
Qed.

Lemma count_true_map {A} (f : A -> bool) (l : list A) :
  length (List.filter (fun b => b) (List.map f l)) = length (List.filter f l).
Proof.
  induction l as [|x l IH]; cbn; [reflexivity|].
  destruct (f x); cbn; rewrite IH; reflexivity.
Qed.

Lemma count_disjoint_or {A} (f g h : A -> bool) (l : list A) :
  (forall x, In x l -> h x = f x || g x) ->
  (forall x, In x l -> f x && g x = false) ->
  length (List.filter h l)
  = (length (List.filter f l) + length (List.filter g l))%nat.
Proof.
  induction l as [|x l IH]; intros Hh Hd; cbn; [reflexivity|].
  rewrite (Hh x) by (left; reflexivity).
  pose proof (Hd x (or_introl eq_refl)) as Hx.
  assert (IH' := IH (fun y Hy => Hh y (or_intror Hy))
                      (fun y Hy => Hd y (or_intror Hy))).
  destruct (f x), (g x); cbn in *; try discriminate; rewrite IH'; lia.
Qed.

Lemma firstn_S_nth {A} (d : A) (l : list A) (k : nat) :
  (k < length l)%nat ->
  List.firstn (S k) l = List.firstn k l ++ [List.nth k l d].
Proof.
  revert k. induction l as [|x l IH]; intros k Hk; cbn in Hk; [lia|].
  destruct k as [|k]; [reflexivity|].
  cbn [List.firstn List.nth]. rewrite (IH k) by lia. reflexivity.
Qed.

Lemma firstn_seq_le (k n : nat) : forall s,
  (k <= n)%nat -> List.firstn k (List.seq s n) = List.seq s k.
Proof.
  revert n. induction k as [|k IH]; intros n s Hk; [reflexivity|].
  destruct n as [|n]; [lia|]. cbn. f_equal. apply IH. lia.
Qed.

(** [correct[:k]], row by row. *)
Lemma correct_rows maxk k (rws : list (list Q)) (target : list Z) :
  (k <= maxk)%nat ->
  List.firstn k (tensor_eq (transpose maxk (List.map (topk_indices maxk) rws))
                           (List.repeat target maxk))
  = List.map
      (fun j => List.map
         (fun rt => (Z.of_nat (List.nth j (topk_indices maxk (fst rt)) 0%nat)
                     =? snd rt)%Z)
         (List.combine rws target))
      (List.seq 0 k).
Proof.
  intros Hk. unfold tensor_eq, transpose.
  replace (List.repeat target maxk)
    with (List.repeat target (length (List.seq 0 maxk)))
    by (rewrite List.length_seq; reflexivity).
  rewrite combine_map_repeat, List.map_map. cbn [fst snd].
  rewrite List.firstn_map, firstn_seq_le by exact Hk.
  apply List.map_ext. intros j.
  rewrite List.map_map, combine_map_fst, List.map_map. cbn [fst snd].
  reflexivity.
Qed.

Lemma float_sum_rows maxk k (rws : list (list Q)) (target : list Z) :
  length (List.filter (fun b => b)
    (List.concat (List.map
      (fun j => List.map
         (fun rt => (Z.of_nat (List.nth j (topk_indices maxk (fst rt)) 0%nat)
                     =? snd rt)%Z)
         (List.combine rws target))
      (List.seq 0 k))))
  = List.list_sum (List.map (fun j => hits maxk j rws target) (List.seq 0 k)).
Proof.
  induction k as [|k IH]; [reflexivity|].
  rewrite List.seq_S, !List.map_app, List.concat_app, List.filter_app,
    List.length_app, IH, List.list_sum_app.
  cbn. rewrite List.app_nil_r, count_true_map. unfold hits. lia.
Qed.

Lemma in_topk_step maxk k row t :
  (S k <= maxk)%nat -> (maxk <= length row)%nat ->
  let hit := (Z.of_nat (List.nth k (topk_indices maxk row) 0%nat) =? t)%Z in
  in_topk (S k) row t = in_topk k row t || hit /\
  in_topk k row t && hit = false.
Proof.
  intros Hk Hlen hit. unfold in_topk.
  rewrite <- (topk_indices_firstn (S k) maxk row) by lia.
  rewrite <- (topk_indices_firstn k maxk row) by lia.
  assert (Hlt : (k < length (topk_indices maxk row))%nat).
  { rewrite topk_indices_length. lia. }
  rewrite (firstn_S_nth 0%nat _ _ Hlt), List.existsb_app. cbn [existsb].
  rewrite orb_false_r. fold hit. split; [reflexivity|].
  destruct (existsb _ _) eqn:Hex; [|reflexivity]. cbn.
  destruct hit eqn:Hhit; [exfalso|reflexivity].
  apply List.existsb_exists in Hex as (i & Hi & Heq).
  subst hit. apply Z.eqb_eq in Heq, Hhit.
  assert (i = List.nth k (topk_indices maxk row) 0%nat) by lia. subst i.
  pose proof (NoDup_firstn (S k) _ (topk_indices_NoDup maxk row)) as Hnd.
  rewrite (firstn_S_nth 0%nat _ _ Hlt) in Hnd.
  apply List.NoDup_remove_2 in Hnd. rewrite List.app_nil_r in Hnd.
  exact (Hnd Hi).
Qed.

Lemma correct_within_sum output target maxk k :
  well_shaped output = true -> (maxk <= ncols output)%nat -> (k <= maxk)%nat ->
  correct_within k output target
  = List.list_sum (List.map (fun j => hits maxk j (rows output) target)
                            (List.seq 0 k)).
Proof.
  intros Hws Hmax. induction k as [|k IH]; intros Hk.
  - unfold correct_within, in_topk, topk_indices. cbn.
    induction (List.combine (rows output) target); [reflexivity | assumption].
  - rewrite List.seq_S, List.map_app, List.list_sum_app, <- IH by lia.
    cbn. rewrite Nat.add_0_r. unfold correct_within, hits.
    assert (Hrow : forall rt, In rt (List.combine (rows output) target) ->
                     (maxk <= length (fst rt))%nat).
    { intros [r t] Hin. apply List.in_combine_l in Hin. cbn.
      unfold well_shaped in Hws. rewrite List.forallb_forall in Hws.
      apply Hws, Nat.eqb_eq in Hin. lia. }
    apply count_disjoint_or; intros rt Hin;
      apply (in_topk_step maxk k (fst rt) (snd rt) Hk (Hrow rt Hin)).
Qed.

(** ** Rounding *)

Lemma Qpower2_pos (e : Z) : (0 < 2 ^ e)%Q.
Proof. apply Qpower_0_lt. reflexivity. Qed.

Lemma Qpower2_nat (a : Z) : (0 <= a)%Z -> (inject_Z (2 ^ a) == 2 ^ a)%Q.
Proof. intros Ha. rewrite Zpower_Qpower by exact Ha. reflexivity. Qed.

Lemma Qpower2_plus (a b : Z) : (2 ^ (a + b) == 2 ^ a * 2 ^ b)%Q.
Proof. apply Qpower_plus. discriminate. Qed.

Lemma ilog2_le (x : Q) : (0 < x)%Q -> (2 ^ ilog2 x <= x)%Q.
Proof.
  intros Hx. unfold ilog2.
  destruct (Qle_bool (2 ^ (Z.log2 (Qnum x) - Z.log2 (Z.pos (Qden x)))) x) eqn:E.
  - apply Qle_bool_iff. exact E.
  - destruct x as [n d]. cbn [Qnum Qden] in *.
    assert (Hn : (0 < n)%Z) by (unfold Qlt in Hx; cbn in Hx; lia).
    set (a := Z.log2 n). set (b := Z.log2 (Z.pos d)).
    pose proof (Z.log2_spec n Hn) as [Hlo _]. fold a in Hlo.
    pose proof (Z.log2_spec (Z.pos d) eq_refl) as [_ Hhi]. fold b in Hhi.
    assert (Ha : (0 <= a)%Z) by apply Z.log2_nonneg.
    assert (Hb : (0 <= b)%Z) by apply Z.log2_nonneg.
    rewrite (Qmake_Qdiv n d).
    apply Qle_shift_div_l.
    { change 0%Q with (inject_Z 0). rewrite <- Zlt_Qlt. reflexivity. }
    apply Qle_trans with (2 ^ (a - b - 1) * 2 ^ (b + 1))%Q.
    + apply Qmult_le_l; [apply Qpower2_pos|].
      rewrite <- (Qpower2_nat (b + 1)) by lia. rewrite <- Zle_Qle.
      replace (b + 1)%Z with (Z.succ b) by lia. lia.
    + rewrite <- Qpower2_plus. replace (a - b - 1 + (b + 1))%Z with a by lia.
      rewrite <- (Qpower2_nat a) by exact Ha. rewrite <- Zle_Qle. exact Hlo.
Qed.

Lemma round_half_even_near (y : Q) :
  (y - (1 # 2) <= inject_Z (round_half_even y) <= y + (1 # 2))%Q.
Proof.
  unfold round_half_even.
  pose proof (Qfloor_le y) as Hlo. pose proof (Qlt_floor y) as Hhi.
  rewrite inject_Z_plus in Hhi. change (inject_Z 1) with 1%Q in Hhi.
  destruct (y - inject_Z (Qfloor y) ?= 1 # 2)%Q eqn:E.
  - apply Qeq_alt in E.
    destruct (Z.even (Qfloor y)); rewrite ?inject_Z_plus;
      change (inject_Z 1) with 1%Q; lra.
  - apply Qlt_alt in E. lra.
  - apply Qgt_alt in E. rewrite inject_Z_plus. change (inject_Z 1) with 1%Q. lra.
Qed.

Lemma round_half_even_nonneg (y : Q) : (0 <= y)%Q -> (0 <= round_half_even y)%Z.
Proof.
  intros Hy. unfold round_half_even.
  assert (Hf : (0 <= Qfloor y)%Z).
  { change 0%Z with (Qfloor 0). apply Qfloor_resp_le. exact Hy. }
  destruct (_ ?= _)%Q; try destruct (Z.even _); lia.
Qed.

Lemma fl_pos_nonneg (p emin : Z) (x : Q) : (0 <= x)%Q -> (0 <= fl_pos p emin x)%Q.
Proof.
  intros Hx. unfold fl_pos. rewrite Qred_correct.
  apply Qmult_le_0_compat.
  - change 0%Q with (inject_Z 0). rewrite <- Zle_Qle.
    apply round_half_even_nonneg.
    apply Qle_shift_div_l; [apply Qpower2_pos|]. lra.
  - apply Qlt_le_weak, Qpower2_pos.
Qed.

Lemma fl_nonneg (p emin : Z) (x : Q) : (0 <= x)%Q -> (0 <= fl p emin x)%Q.
Proof.
  intros Hx. unfold fl. destruct (x ?= 0)%Q eqn:E.
  - apply Qle_refl.
  - apply Qlt_alt in E. lra.
  - apply fl_pos_nonneg. exact Hx.
Qed.

Lemma fl_of_zero (p emin : Z) (x : Q) : (x == 0)%Q -> fl p emin x = 0%Q.
Proof. intros Hx. unfold fl. apply Qeq_alt in Hx. rewrite Hx. reflexivity. Qed.

(** The rounding error of a positive number: at most half a unit in the
    last place, which is its [2^-p]-th part, or half the least step. *)
Lemma fl_error (p emin : Z) (x : Q) :
  (0 < x)%Q ->
  (x - (x * 2 ^ (- p) + 2 ^ (emin - 1)) <= fl p emin x
   <= x + (x * 2 ^ (- p) + 2 ^ (emin - 1)))%Q.
Proof.
  intros Hx. unfold fl.
  destruct (x ?= 0)%Q eqn:E;
    [apply Qeq_alt in E; lra | apply Qlt_alt in E; lra | clear E].
  unfold fl_pos. rewrite Qred_correct.
  set (e := Z.max (ilog2 x - (p - 1)) emin).
  pose proof (round_half_even_near (x / 2 ^ e)) as [Hlo Hhi].
  pose proof (Qpower2_pos e) as He.
  assert (Hy : (x / 2 ^ e * 2 ^ e == x)%Q) by (field; lra).
  assert (Hhalf : (2 ^ e * (1 # 2) <= x * 2 ^ (- p) + 2 ^ (emin - 1))%Q).
  { pose proof (Qpower2_pos (- p)) as Hp. pose proof (Qpower2_pos (emin - 1)) as Hm.
    assert (Hxp : (0 <= x * 2 ^ (- p))%Q) by (apply Qmult_le_0_compat; lra).
    unfold e. destruct (Z.max_spec (ilog2 x - (p - 1)) emin) as [[_ ->]|[_ ->]].
    - replace (emin - 1)%Z with (emin + -1)%Z by lia. rewrite Qpower2_plus.
      change (2 ^ (-1))%Q with (1 # 2)%Q. lra.
    - replace (ilog2 x - (p - 1))%Z with (ilog2 x + - p + 1)%Z by lia.
      rewrite !Qpower2_plus. change (2 ^ 1)%Q with 2%Q.
      pose proof (ilog2_le x Hx) as Hl.
      assert (Hmul : (2 ^ ilog2 x * 2 ^ (- p) <= x * 2 ^ (- p))%Q)
        by (apply Qmult_le_compat_r; lra).
      lra. }
  set (m := inject_Z (round_half_even (x / 2 ^ e))) in *.
  assert (H1 : ((x / 2 ^ e - (1 # 2)) * 2 ^ e <= m * 2 ^ e)%Q)
    by (apply Qmult_le_compat_r; lra).
  assert (H2 : (m * 2 ^ e <= (x / 2 ^ e + (1 # 2)) * 2 ^ e)%Q)
    by (apply Qmult_le_compat_r; lra).
  assert (H3 : ((x / 2 ^ e - (1 # 2)) * 2 ^ e == x - 2 ^ e * (1 # 2))%Q)
    by (rewrite <- Hy at 2; ring).
  assert (H4 : ((x / 2 ^ e + (1 # 2)) * 2 ^ e == x + 2 ^ e * (1 # 2))%Q)
    by (rewrite <- Hy at 2; ring).
  lra.
Qed.

(** The value [accuracy] computes from a count of [c] among [b] examples,
    against the exact percentage: within 100 * 2^-22 of it. *)
Lemma percent_rounding (c b : Z) :
  (0 <= c <= b)%Z -> (0 < b < 2 ^ 24)%Z ->
  let exact := (100 * inject_Z c / inject_Z b)%Q in
  let v := fl32 (inject_Z c * fl32 (fl64 (100 / inject_Z b))) in
  (0 <= v)%Q /\
  (exact - (100 # 4194304) <= v <= exact + (100 # 4194304))%Q /\
  (v <= 100 + (100 # 4194304))%Q.
Proof.
  intros Hc Hb exact v.
  assert (Hbq : (0 < inject_Z b)%Q).
  { change 0%Q with (inject_Z 0). rewrite <- Zlt_Qlt. lia. }
  assert (Hb24 : (inject_Z b <= 16777216)%Q).
  { change 16777216%Q with (inject_Z 16777216). rewrite <- Zle_Qle.
    change 16777216%Z with (2 ^ 24)%Z. lia. }
  assert (Hcq : (0 <= inject_Z c)%Q).
  { change 0%Q with (inject_Z 0). rewrite <- Zle_Qle. lia. }
  assert (Hcb : (inject_Z c <= inject_Z b)%Q) by (rewrite <- Zle_Qle; lia).
  set (C := inject_Z c) in *. set (B := inject_Z b) in *.
  set (q := (100 / B)%Q).
  assert (Hqb : (q * B == 100)%Q) by (unfold q; field; lra).
  assert (Hq : (0 < q)%Q).
  { unfold q. apply Qlt_shift_div_l; [exact Hbq | lra]. }
  assert (Hqlo : (100 # 16777216 <= q)%Q).
  { unfold q. apply Qle_shift_div_l; [exact Hbq|].
    assert (H : ((100 # 16777216) * B <= (100 # 16777216) * 16777216)%Q)
      by (apply Qmult_le_l; [reflexivity | exact Hb24]).
    lra. }
  assert (Hexact : (exact == C * q)%Q) by (unfold exact, q; field; lra).
  assert (Hcq100 : (C * q <= 100)%Q).
  { rewrite <- Hqb. rewrite (Qmult_comm q). apply Qmult_le_compat_r; lra. }
  assert (Hcq0 : (0 <= C * q)%Q) by (apply Qmult_le_0_compat; lra).
  pose proof (fl_error 53 (-1074) q Hq) as H64. fold (fl64 q) in H64.
  set (s64 := fl64 q) in *.
  change (Qpower 2 (Z.opp 53)) with (1 # 9007199254740992)%Q in H64.
  set (d1 := (2 ^ (-1074 - 1))%Q) in *.
  set (eps := (1 # 1267650600228229401496703205376)%Q).
  assert (Hd1 : (0 < d1 <= eps)%Q).
  { unfold d1, eps. split; [apply Qpower2_pos|]. vm_compute. discriminate. }
  assert (Hs64 : (0 < s64)%Q) by (unfold eps in Hd1; lra).
  pose proof (fl_error 24 (-149) s64 Hs64) as H32. fold (fl32 s64) in H32.
  set (s32 := fl32 s64) in *.
  change (Qpower 2 (Z.opp 24)) with (1 # 16777216)%Q in H32.
  set (d2 := (2 ^ (-149 - 1))%Q) in *.
  assert (Hd2 : (0 < d2 <= eps)%Q).
  { unfold d2, eps. split; [apply Qpower2_pos|]. vm_compute. discriminate. }
  unfold eps in Hd1, Hd2.
  assert (Hs32 : (q * (1 - (1 # 8388608)) - 3 * eps <= s32
                  <= q * (1 + (1 # 8388608)) + 3 * eps)%Q)
    by (unfold eps; lra).
  assert (Hs32pos : (0 < s32)%Q) by (unfold eps in Hs32; lra).
  destruct Hs32 as [Hs32lo Hs32hi].
  assert (HPlo : ((q * (1 - (1 # 8388608)) - 3 * eps) * C <= s32 * C)%Q)
    by (apply Qmult_le_compat_r; assumption).
  assert (HPhi : (s32 * C <= (q * (1 + (1 # 8388608)) + 3 * eps) * C)%Q)
    by (apply Qmult_le_compat_r; assumption).
  assert (Hr1 : ((q * (1 - (1 # 8388608)) - 3 * eps) * C
                 == C * q * (1 - (1 # 8388608)) - 3 * eps * C)%Q) by ring.
  assert (Hr2 : ((q * (1 + (1 # 8388608)) + 3 * eps) * C
                 == C * q * (1 + (1 # 8388608)) + 3 * eps * C)%Q) by ring.
  assert (Hr3 : (s32 * C == C * s32)%Q) by ring.
  rewrite Hr1, Hr3 in HPlo. rewrite Hr2, Hr3 in HPhi. clear Hr1 Hr2 Hr3.
  assert (HC24 : (C <= 16777216)%Q) by lra.
  rewrite Hexact.
  destruct (Z.eq_dec c 0) as [->|Hc0].
  - unfold v. rewrite (fl_of_zero 24 (-149)) by (unfold C; ring).
    unfold C. change (inject_Z 0) with 0%Q. lra.
  - assert (HC1 : (1 <= C)%Q).
    { unfold C. change 1%Q with (inject_Z 1). rewrite <- Zle_Qle. lia. }
    assert (HP : (0 < C * s32)%Q).
    { apply Qlt_le_trans with (1 * s32)%Q; [lra|].
      apply Qmult_le_compat_r; lra. }
    pose proof (fl_error 24 (-149) (C * s32) HP) as Hv.
    fold (fl32 (C * s32)) in Hv. change (fl32 (C * s32)) with v in Hv.
    change (Qpower 2 (Z.opp 24)) with (1 # 16777216)%Q in Hv. fold d2 in Hv.
    assert (Hv0 : (0 <= v)%Q) by (apply fl_nonneg, Qlt_le_weak, HP).
    set (P := (C * s32)%Q) in *. set (CQ := (C * q)%Q) in *.
    unfold eps in *. lra.
Qed.

(** ** accuracy *)

Lemma mapM_result_raise {A B} (f : A -> result B) (e : exn) (l : list A) :
  (forall x, In x l -> (exists y, f x = Ok y) \/ f x = Raise e) ->
  List.Exists (fun x => f x = Raise e) l ->
  mapM f l = Raise e.
Proof.
  induction l as [|x l IH]; intros Hf Hex; [inversion Hex|].
  cbn. destruct (Hf x (or_introl eq_refl)) as [[y Hy]|Hx].
  - rewrite Hy. cbn. rewrite IH; [reflexivity | |].
    + intros z Hz. apply Hf. right. exact Hz.
    + inversion Hex as [? ? Hx|? ? Hl]; subst; [congruence | exact Hl].
  - rewrite Hx. reflexivity.
Qed.

Lemma view_flat_ok {A} (k b : nat) (m : list (list A)) :
  (k <= 1 \/ b <= 1)%nat -> view_flat k b m = Ok (List.concat m).
Proof.
  intros Hkb. unfold view_flat.
  destruct (Nat.leb_spec 2 k), (Nat.leb_spec 2 b); cbn; try reflexivity. lia.
Qed.

Lemma view_flat_refused {A} (k b : nat) (m : list (list A)) :
  (2 <= k)%nat -> (2 <= b)%nat ->
  view_flat k b m
  = Raise (RuntimeError "view size is not compatible with input tensor's size and stride").
Proof.
  intros Hk Hb. unfold view_flat.
  destruct (Nat.leb_spec 2 k), (Nat.leb_spec 2 b); cbn; try reflexivity; lia.
Qed.

Lemma py_float_div_ok (a : Q) (b : nat) :
  (0 < b)%nat ->
  py_float_div a (Z.of_nat b) = Ok (fl64 (a / inject_Z (Z.of_nat b))).
Proof.
  intros Hb. unfold py_float_div.
  destruct (Z.eqb_spec (Z.of_nat b) 0); [lia | reflexivity].
Qed.

Lemma expand_as_cases (k b : nat) (target : list Z) :
  (length target = b \/ length target = 1%nat) ->
  exists expanded, expand_as k b target = Ok expanded.
Proof.
  intros Hshape. unfold expand_as.
  destruct (Nat.eqb_spec (length target) b); [eauto|].
  destruct (Nat.eqb_spec (length target) 1); [eauto|].
  destruct Hshape; contradiction.
Qed.

(** What [accuracy] returns on a batch whose slices can be flattened: for
    each [k], the number of examples correct within the top [k], times the
    float32 of [100.0 / batch_size], rounded to float32. *)
Lemma accuracy_value output target topk maxk :
  well_shaped output = true ->
  length target = nrows output ->
  target <> [] ->
  py_max topk = Ok maxk ->
  (maxk <= ncols output)%nat ->
  List.Forall (fun k => (k <= 1 \/ nrows output <= 1)%nat) topk ->
  accuracy output target topk
  = Ok (List.map
          (fun k => fl32 (inject_Z (Z.of_nat (correct_within k output target))
                          * fl32 (fl64 (100 / inject_Z (Z.of_nat (length target))))))
          topk).
Proof.
  intros Hws Hlen Hne Hmax Hcols Hview. unfold accuracy.
  rewrite Hmax. cbn [mbind result_bind].
  unfold tensor_topk. destruct (Nat.leb_spec maxk (ncols output)); [|lia].
  unfold expand_as. rewrite Hlen, Nat.eqb_refl.
  apply mapM_result_ok. intros k Hk.
  pose proof (py_max_ge _ _ Hmax k Hk) as Hkmax.
  rewrite List.Forall_forall in Hview.
  rewrite (view_flat_ok _ _ _ (Hview k Hk)).
  rewrite py_float_div_ok by (destruct target; [congruence | cbn in Hlen; lia]).
  cbn [mbind result_bind mret result_ret]. do 3 f_equal.
  unfold float_sum. do 2 f_equal.
  rewrite (correct_rows maxk k (rows output) target Hkmax), float_sum_rows.
  symmetry. apply correct_within_sum; assumption.
Qed.

(** Where a slice of two rows or more would have to be flattened over two
    columns or more, [accuracy] raises. *)
Lemma accuracy_view_refused output target topk maxk :
  py_max topk = Ok maxk ->
  (maxk <= ncols output)%nat ->
  (length target = nrows output \/ length target = 1%nat) ->
  (2 <= nrows output)%nat ->
  List.Exists (fun k => (2 <= k)%nat) topk ->
  accuracy output target topk
  = Raise (RuntimeError "view size is not compatible with input tensor's size and stride").
Proof.
  intros Hmax Hcols Hshape Hrows Hex. unfold accuracy.
  rewrite Hmax. cbn [mbind result_bind].
  unfold tensor_topk. destruct (Nat.leb_spec maxk (ncols output)); [|lia].
  cbn [mbind result_bind].
  assert (Hexp : exists expanded,
             expand_as maxk (nrows output) target = Ok expanded).
  { unfold expand_as.
    destruct (Nat.eqb_spec (length target) (nrows output)); [eauto|].
    destruct (Nat.eqb_spec (length target) 1); [eauto|].
    destruct Hshape; contradiction. }
  destruct Hexp as [expanded ->]. cbn [mbind result_bind].
  assert (Hdiv : py_float_div 100 (Z.of_nat (length target))
                 = Ok (fl64 (100 / inject_Z (Z.of_nat (length target))))).
  { apply py_float_div_ok. destruct Hshape as [-> | ->]; lia. }
  apply mapM_result_raise.
  - intros k _. destruct (Nat.le_gt_cases 2 k) as [Hk|Hk].
    + right. rewrite view_flat_refused by assumption. reflexivity.
    + left. rewrite view_flat_ok by lia. rewrite Hdiv. cbn. eauto.
  - eapply List.Exists_impl; [|exact Hex]. intros k Hk. cbn beta in Hk.
    rewrite view_flat_refused by assumption. reflexivity.
Qed.

(** Outside these conditions [accuracy] raises too. *)
Lemma accuracy_too_few_classes output target topk maxk :
  py_max topk = Ok maxk ->
  (ncols output < maxk)%nat ->
  accuracy output target topk
  = Raise (RuntimeError "selected index k out of range").
Proof.
  intros Hmax Hcols. unfold accuracy. rewrite Hmax. cbn [mbind result_bind].
  unfold tensor_topk. destruct (Nat.leb_spec maxk (ncols output)); [lia|].
  reflexivity.
Qed.

Lemma accuracy_empty_batch output topk maxk :
  nrows output = 0%nat ->
  py_max topk = Ok maxk ->
  (maxk <= ncols output)%nat ->
  accuracy output [] topk = Raise ZeroDivisionError.
Proof.
  intros Hrows Hmax Hcols. unfold accuracy. rewrite Hmax. cbn [mbind result_bind].
  unfold tensor_topk. destruct (Nat.leb_spec maxk (ncols output)); [|lia].
  unfold expand_as. rewrite Hrows. cbn [length Nat.eqb mbind result_bind].
  destruct topk as [|k topk]; [discriminate Hmax|]. cbn [mapM].
  rewrite view_flat_ok by lia. reflexivity.
Qed.

Lemma py_max_In topk :
  topk <> [] -> exists maxk, py_max topk = Ok maxk /\ In maxk topk.
Proof.
  destruct topk as [|k0 l]; [congruence|]. intros _. cbn.
  eexists. split; [reflexivity|].
  revert k0. induction l as [|x l IH]; intros k0; cbn; [left; reflexivity|].
  destruct (IH (Nat.max k0 x)) as [Heq|Hin]; [|right; right; exact Hin].
  rewrite <- Heq. destruct (Nat.max_spec k0 x) as [[_ ->]|[_ ->]]; auto.
Qed.

Lemma py_max_bounded topk n :
  topk <> [] -> List.Forall (fun k => (k <= n)%nat) topk ->
  exists maxk, py_max topk = Ok maxk /\ (maxk <= n)%nat.
Proof.
  intros Hne Hall. destruct (py_max_In topk Hne) as (maxk & Hmax & Hin).
  exists maxk. split; [exact Hmax|].
  rewrite List.Forall_forall in Hall. exact (Hall maxk Hin).
Qed.

Lemma correct_within_le k output target :
  (correct_within k output target <= length target)%nat.
Proof.
  unfold correct_within.
  etransitivity; [apply List.filter_length_le|].
  rewrite List.length_combine. lia.
Qed.

(** The value of a batch against its exact percentage. *)
Lemma accuracy_value_rounding k output target :
  target <> [] ->
  (Z.of_nat (length target) < 2 ^ 24)%Z ->
  let v := fl32 (inject_Z (Z.of_nat (correct_within k output target))
                 * fl32 (fl64 (100 / inject_Z (Z.of_nat (length target))))) in
  (0 <= v <= 100 + (100 # 4194304))%Q /\
  (percent_correct k output target - (100 # 4194304) <= v
   <= percent_correct k output target + (100 # 4194304))%Q.
Proof.
  intros Hne Hlen v.
  assert (Hb : (0 < length target)%nat) by (destruct target; [congruence | cbn; lia]).
  pose proof (correct_within_le k output target) as Hle.
  destruct (percent_rounding (Z.of_nat (correct_within k output target))
              (Z.of_nat (length target)) ltac:(lia) ltac:(lia))
    as (H0 & Hnear & Hhi).
  split; [split; [exact H0 | exact Hhi] | exact Hnear].
Qed.

(** C7, as stated, fails: with two of three examples correct [accuracy]
    returns 66.66666412353516, the float32 product of 2 and of the float32
    of [100.0 / 3], and not 200/3. *)
Lemma accuracy_two_of_three_rounded :
  accuracy (mkTensor2 2 [[1 # 10; 9 # 10]; [8 # 10; 2 # 10]; [3 # 10; 7 # 10]]%Q)
           [1; 0; 0]%Z [1%nat]
  = Ok [8738133 # 131072]%Q /\
  (percent_correct 1
     (mkTensor2 2 [[1 # 10; 9 # 10]; [8 # 10; 2 # 10]; [3 # 10; 7 # 10]]%Q)
     [1; 0; 0]%Z == 200 # 3)%Q /\
  ~ (8738133 # 131072 == 200 # 3)%Q.
Proof.
  split; [vm_compute; reflexivity|]. split; [reflexivity|]. discriminate.
Qed.

(** C7, as amended.  On a batch (one true class per score row, at least one
    row, fewer than 2^24 rows) whose rows have at least [max(topk)] classes
    and whose slices [correct[:k]] can be flattened (each [k <= 1], as in
    every call of the program, or a single row), [accuracy] returns for each
    requested [k] the float32 product of the number of examples whose true
    class is among the indices of the [k] highest scores of their row and of
    [100.0 / batch_size], which is within 100 * 2^-22 of the percentage.
    The indices are [k] distinct positions of the row, and no position left
    out scores higher than one selected.  On the scores
    [[0.1, 0.9], [0.8, 0.2]] it returns exactly 100 for the targets [1, 0]
    and 0 for the targets [0, 1].  The result is a function of the
    arguments. *)
Theorem accuracy_percent_rounded (output : Tensor2) (target : list Z) (topk : list nat) :
  well_shaped output = true ->
  length target = nrows output ->
  target <> [] ->
  (Z.of_nat (length target) < 2 ^ 24)%Z ->
  topk <> [] ->
  List.Forall (fun k => (k <= ncols output)%nat) topk ->
  List.Forall (fun k => (k <= 1 \/ nrows output <= 1)%nat) topk ->
  (exists res,
     accuracy output target topk = Ok res /\
     List.Forall2
       (fun v k =>
          v = fl32 (inject_Z (Z.of_nat (correct_within k output target))
                    * fl32 (fl64 (100 / inject_Z (Z.of_nat (length target))))) /\
          (percent_correct k output target - (100 # 4194304) <= v
           <= percent_correct k output target + (100 # 4194304))%Q)
       res topk) /\
  (forall k row, In k topk -> In row (rows output) ->
     length (topk_indices k row) = k /\
     List.NoDup (topk_indices k row) /\
     forall i j, In i (topk_indices k row) ->
                 (j < length row)%nat -> ~ In j (topk_indices k row) ->
                 (List.nth j row 0 <= List.nth i row 0)%Q) /\
  accuracy (mkTensor2 2 [[1 # 10; 9 # 10]; [8 # 10; 2 # 10]]%Q)
           [1; 0]%Z [1%nat] = Ok [100%Q] /\
  accuracy (mkTensor2 2 [[1 # 10; 9 # 10]; [8 # 10; 2 # 10]]%Q)
           [0; 1]%Z [1%nat] = Ok [0%Q].
Proof.
  intros Hws Hlen Hne Hsmall Htopk Hcols Hview.
  destruct (py_max_bounded topk _ Htopk Hcols) as (maxk & Hmax & Hle).
  split; [|split; [|split]].
  - eexists.
    split; [apply (accuracy_value _ _ _ maxk); assumption|].
    clear Hmax Htopk Hcols Hview. induction topk as [|k topk IH]; cbn; constructor.
    + split; [reflexivity|].
      apply (accuracy_value_rounding k output target Hne Hsmall).
    + exact IH.
  - intros k row Hk Hrow.
    rewrite List.Forall_forall in Hcols. specialize (Hcols k Hk).
    unfold well_shaped in Hws. rewrite List.forallb_forall in Hws.
    apply Hws, Nat.eqb_eq in Hrow.
    split; [rewrite topk_indices_length; lia|].
    split; [apply topk_indices_NoDup|].
    intros i j. apply topk_indices_highest.
  - vm_compute. reflexivity.
  - vm_compute. reflexivity.
Qed.

Lemma accuracy_percent_rounded_witness :
  exists res,
    accuracy (mkTensor2 3 [[1 # 10; 7 # 10; 2 # 10]; [5 # 10; 3 # 10; 2 # 10]]%Q)
             [2; 0]%Z [1%nat] = Ok res /\
    List.Forall2
      (fun v k =>
         (percent_correct k
            (mkTensor2 3 [[1 # 10; 7 # 10; 2 # 10]; [5 # 10; 3 # 10; 2 # 10]]%Q)
            [2; 0]%Z - (100 # 4194304) <= v
          <= percent_correct k
               (mkTensor2 3 [[1 # 10; 7 # 10; 2 # 10]; [5 # 10; 3 # 10; 2 # 10]]%Q)
               [2; 0]%Z + (100 # 4194304))%Q)
      res [1%nat].
Proof.
  destruct (accuracy_percent_rounded
              (mkTensor2 3 [[1 # 10; 7 # 10; 2 # 10]; [5 # 10; 3 # 10; 2 # 10]]%Q)
              [2; 0]%Z [1%nat])
    as ((res & Hres & Hall) & _).
  - reflexivity.
  - reflexivity.
  - discriminate.
  - cbn. lia.
  - discriminate.
  - repeat constructor.
  - repeat constructor.
  - exists res. split; [exact Hres|].
    eapply List.Forall2_impl; [|exact Hall]. intros v k [_ Hnear]. exact Hnear.
Defined.

(** C10, as stated, fails: on 45 examples that are all correct, the float32
    product of 45 and of the float32 of [100.0 / 45] is 100.00000762939453. *)
Lemma accuracy_all_correct_exceeds_100 :
  accuracy (mkTensor2 2 (List.repeat [1 # 10; 9 # 10]%Q 45))
           (List.repeat 1%Z 45) [1%nat]
  = Ok [13107201 # 131072]%Q /\
  (100 < 13107201 # 131072)%Q.
Proof. split; [vm_compute; reflexivity | reflexivity]. Qed.

(** C10, as amended.  On a non-empty batch of fewer than 2^24 rows, with
    one target per row, at least [max(topk)] classes and slices that can be
    flattened (each [k <= 1], or a single row), [accuracy] returns one value
    for each requested [k], and each value lies between 0 and
    100 + 100 * 2^-22. *)
Theorem accuracy_values_near_range (output : Tensor2) (target : list Z) (topk : list nat) :
  well_shaped output = true ->
  length target = nrows output ->
  target <> [] ->
  (Z.of_nat (length target) < 2 ^ 24)%Z ->
  topk <> [] ->
  List.Forall (fun k => (k <= ncols output)%nat) topk ->
  List.Forall (fun k => (k <= 1 \/ nrows output <= 1)%nat) topk ->
  exists res,
    accuracy output target topk = Ok res /\
    length res = length topk /\
    List.Forall (fun v => (0 <= v <= 100 + (100 # 4194304))%Q) res.
Proof.
  intros Hws Hlen Hne Hsmall Htopk Hcols Hview.
  destruct (py_max_bounded topk _ Htopk Hcols) as (maxk & Hmax & Hle).
  eexists. split; [apply (accuracy_value _ _ _ maxk); assumption|].
  split; [apply List.length_map|].
  apply List.Forall_forall. intros v Hv.
  apply List.in_map_iff in Hv as (k & <- & _).
  apply (accuracy_value_rounding k output target Hne Hsmall).
Qed.

Lemma accuracy_values_near_range_witness :
  exists res,
    accuracy (mkTensor2 2 [[1 # 10; 9 # 10]; [8 # 10; 2 # 10]; [3 # 10; 7 # 10]]%Q)
             [1; 1; 1]%Z [1%nat] = Ok res /\
    length res = 1%nat /\
    List.Forall (fun v => (0 <= v <= 100 + (100 # 4194304))%Q) res.
Proof.
  apply (accuracy_values_near_range
           (mkTensor2 2 [[1 # 10; 9 # 10]; [8 # 10; 2 # 10]; [3 # 10; 7 # 10]]%Q)
           [1; 1; 1]%Z [1%nat]).
  - reflexivity.
  - reflexivity.
  - discriminate.
  - cbn. lia.
  - discriminate.
  - repeat constructor.
  - repeat constructor.
Defined.

(** ** The controller *)

Section ControllerProperties.
Context `{T : Torch}.

Ltac run_statement :=
  repeat (unfold mbind, M_bind, mret, M_ret, get, modify, lift, skip,
            raise, print, add_scalar, torch_save; cbn).

(** The scheduler step, when the scheduler exists. *)
Lemma scheduler_step_run (s : State) (sch : MultiStepLR) :
  lr_scheduler s = Some sch ->
  scheduler_step s =
    (set_param_group
       (mkGroup (get_lr (stepped sch) (param_group s))
                (group_initial_lr (param_group s)))
       (set_lr_scheduler (Some (stepped sch)) s), Ok tt).
Proof.
  intros Hs. unfold scheduler_step. run_statement. rewrite Hs. reflexivity.
Qed.

(** One epoch that completes: the state it leaves. *)
Lemma epoch_body_run (s : State) (e : Z) (sch : MultiStepLR) :
  lr_scheduler s = Some sch ->
  (save_every (args s) <> 0 \/ e <= 0)%Z ->
  exists s', epoch_completes s e s'.
Proof.
  unfold epoch_completes.
  enough (Hrun : lr_scheduler s = Some sch ->
    (save_every (args s) <> 0 \/ e <= 0)%Z ->
    exists s',
      epoch_body e s = (s', Ok tt) /\
      args s' = args s /\
      model s' = trained s e /\
      best_prec1 s' = py_max2 (epoch_metric s e) (best_prec1 s) /\
      lr_scheduler s' = Some (stepped sch) /\
      param_group s' = mkGroup (get_lr (stepped sch) (param_group s))
                               (group_initial_lr (param_group s)) /\
      log s' = log s ++ epoch_events s e /\
      (forall p obj, In (TorchSave p obj) (epoch_events s e) ->
         fs s' !! p = Some (File (Pickled obj)))).
  { intros Hs Hse.
    destruct (Hrun Hs Hse) as (s' & H1 & H2 & H3 & H4 & H5 & H6 & H7 & H8).
    exists s'. repeat split; try assumption. exists sch. auto. }
  intros Hs Hse. unfold epoch_body, train, validate, scheduler_step.
  run_statement. rewrite Hs. run_statement.
  unfold epoch_events, epoch_metric, trained, periodic_due, py_mod.
  set (m := (train_pass _ _ _ _).1).
  set (prec := validate_pass m (Some e)).
  destruct (Qltb (best_prec1 s) prec) eqn:Ebest;
    destruct (Z.ltb_spec 0 e) as [He|He]; run_statement;
    try (destruct (Z.eqb_spec (save_every (args s)) 0) as [E0|E0]; [lia|]);
    try (destruct (Z.eqb_spec ((e + 1) mod save_every (args s)) 0) as [Em|Em]);
    run_statement;
    (eexists; split; [reflexivity|]; cbn;
     repeat (split; [try reflexivity; rewrite <- ?app_assoc; reflexivity|]);
     intros p obj Hin; cbn in Hin;
     repeat (destruct Hin as [Hin|Hin]; try discriminate Hin;
             try (injection Hin as <- <-));
     try contradiction).
  all: try apply lookup_insert_eq.
  all: rewrite lookup_insert; case_decide; [reflexivity | apply lookup_insert_eq].
Qed.

(** With [save_every = 0] an epoch after the first raises at line 171,
    once [best_prec1] has been brought up to date. *)
Lemma epoch_body_zero_division (s : State) (e : Z) (sch : MultiStepLR) :
  lr_scheduler s = Some sch ->
  save_every (args s) = 0%Z ->
  (0 < e)%Z ->
  exists s',
    epoch_body e s = (s', Raise ZeroDivisionError) /\
    best_prec1 s' = py_max2 (epoch_metric s e) (best_prec1 s).
Proof.
  intros Hs Hse He. unfold epoch_body, train, validate, scheduler_step.
  run_statement. rewrite Hs. run_statement.
  unfold epoch_metric, trained, py_mod. rewrite Hse.
  destruct (Qltb _ _); destruct (Z.ltb_spec 0 e) as [_|Hle];
    try (exfalso; clear - He Hle; lia);
    run_statement; eexists; split; reflexivity.
Qed.

(** *** Paths *)

Lemma append_assoc (a b c : string) : a +:+ (b +:+ c) = (a +:+ b) +:+ c.
Proof.
  induction a as [|x a IH]; [reflexivity|].
  change (String x (a +:+ (b +:+ c)) = String x ((a +:+ b) +:+ c)).
  rewrite IH. reflexivity.
Qed.

(** [os.path.join(a, b)] is [b] behind a prefix that depends on [a] only. *)
Lemma path_join_prefix (a : string) :
  exists pre, forall b, path_join a b = pre +:+ b.
Proof.
  unfold path_join. destruct (String.eqb a "").
  - exists "". reflexivity.
  - destruct (ends_with_sep a).
    + exists a. reflexivity.
    + exists (a +:+ "/"). intros b. apply append_assoc.
Qed.

Lemma periodic_path_not_best (a : Args) (n : Z) : periodic_path a n <> best_path a.
Proof.
  unfold periodic_path, best_path.
  destruct (path_join_prefix (save_dir a)) as [pre Hpre].
  rewrite !Hpre. intros Heq. apply String.app_inj in Heq. discriminate Heq.
Qed.

Lemma path_join_nonempty (a b : string) : b <> "" -> path_join a b <> "".
Proof.
  intros Hb. destruct (path_join_prefix a) as [pre Hpre]. rewrite Hpre.
  destruct pre as [|c pre]; [exact Hb|].
  change (String c (pre +:+ b) <> ""). discriminate.
Qed.

Lemma configured_save_path (p : string) : p <> "" -> configured (Some p) = Some p.
Proof.
  intros Hp. unfold configured.
  destruct (String.eqb_spec p ""); [contradiction | reflexivity].
Qed.

(** *** The log of one epoch *)

Lemma test_accuracies_epoch (s : State) (e : Z) :
  test_accuracies (epoch_events s e) = [(e, epoch_metric s e)].
Proof.
  unfold epoch_events, test_accuracies.
  destruct (Qltb _ _), (periodic_due _ _); reflexivity.
Qed.

Lemma learning_rates_epoch (s : State) (e : Z) :
  learning_rates (epoch_events s e) = [(e, group_lr (param_group s))].
Proof.
  unfold epoch_events, learning_rates.
  destruct (Qltb _ _), (periodic_due _ _); reflexivity.
Qed.

Lemma saves_at_best_epoch (s : State) (e : Z) :
  saves_at (best_path (args s)) (epoch_events s e)
  = if Qltb (best_prec1 s) (epoch_metric s e)
    then [checkpoint_dict (e + 1) (trained s e) (epoch_metric s e)]
    else [].
Proof.
  unfold epoch_events, saves_at.
  pose proof (periodic_path_not_best (args s) (e + 1)) as Hne.
  apply String.eqb_neq in Hne.
  destruct (Qltb (best_prec1 s) (epoch_metric s e)) eqn:Eb;
    destruct (periodic_due _ _); cbn;
    rewrite ?String.eqb_refl, ?Hne; try reflexivity.
  all: unfold py_max2; apply Qltb_lt in Eb;
    destruct (Qltb (epoch_metric s e) (best_prec1 s)) eqn:E2;
    [apply Qltb_lt in E2; lra | reflexivity].
Qed.

Lemma saves_elsewhere_epoch (s : State) (e : Z) :
  saves_elsewhere (best_path (args s)) (epoch_events s e)
  = if periodic_due (save_every (args s)) e
    then [periodic_path (args s) (e + 1)] else [].
Proof.
  unfold epoch_events, saves_elsewhere.
  pose proof (periodic_path_not_best (args s) (e + 1)) as Hne.
  apply String.eqb_neq in Hne.
  destruct (Qltb _ _), (periodic_due _ _); cbn;
    rewrite ?String.eqb_refl, ?Hne; reflexivity.
Qed.

(** *** The loop *)

Lemma run_bind {S A B} (m : M S A) (f : A -> M S B) (s s1 : S) (a : A) :
  m s = (s1, Ok a) -> (m ≫= f) s = f a s1.
Proof. intros H. unfold mbind, M_bind. rewrite H. reflexivity. Qed.

Lemma run_bind_raise {S A B} (m : M S A) (f : A -> M S B) (s s1 : S) (e : exn) :
  m s = (s1, Raise e) -> (m ≫= f) s = (s1, Raise e).
Proof. intros H. unfold mbind, M_bind. rewrite H. reflexivity. Qed.

Lemma train_loop_app (es1 es2 : list Z) (s : State) :
  train_loop (es1 ++ es2) s = (train_loop es1 ;; train_loop es2) s.
Proof.
  revert s. induction es1 as [|e es1 IH]; intros s; [reflexivity|].
  unfold train_loop in *. cbn [for_each app]. unfold mbind, M_bind in *.
  destruct (epoch_body e s) as [s1 [[]|x]]; [apply IH | reflexivity].
Qed.

Lemma loop_run_train_loop s es tr s' :
  loop_run s es tr s' ->
  train_loop es s = (s', Ok tt) /\ log s' = log s ++ tr.
Proof.
  induction 1 as [s|s e s1 es tr s' Hep _ [IHrun IHlog]].
  - split; [reflexivity | symmetry; apply app_nil_r].
  - destruct Hep as (Hbody & _ & _ & _ & _ & Hlog & _). split.
    + unfold train_loop in *. cbn [for_each].
      rewrite (run_bind _ _ _ _ _ Hbody). exact IHrun.
    + rewrite IHlog, Hlog, app_assoc. reflexivity.
Qed.

(** With a scheduler and a usable [save_every], the loop runs every epoch
    it is given. *)
Lemma loop_runs (es : list Z) : forall (s : State) (sch : MultiStepLR),
  lr_scheduler s = Some sch ->
  save_every (args s) <> 0%Z ->
  exists tr s', loop_run s es tr s'.
Proof.
  induction es as [|e es IH]; intros s sch Hs Hse.
  - exists [], s. constructor.
  - destruct (epoch_body_run s e sch Hs (or_introl Hse)) as (s1 & Hep).
    pose proof Hep as (_ & Hargs & _ & _ & (sch' & _ & Hsch & _) & _).
    destruct (IH s1 (stepped sch') Hsch) as (tr & s' & Hrun).
    { rewrite Hargs. exact Hse. }
    exists (epoch_events s e ++ tr), s'.
    econstructor; eassumption.
Qed.

(** *** Resume *)

Lemma resume_checkpoint_found (s : State) p obj e b sd :
  configured (resume (args s)) = Some p ->
  fs s !! p = Some (File (Pickled obj)) ->
  obj !! "epoch" = Some (PInt e) ->
  obj !! "best_prec1" = Some (PNum b) ->
  obj !! "state_dict" = Some (PState sd) ->
  resume_checkpoint s = (restored s p e b sd, Ok tt).
Proof.
  intros Hp Hfile He Hb Hsd.
  unfold resume_checkpoint, isfile, torch_load, getitem, as_int, as_number,
    as_state_dict.
  run_statement. rewrite Hp, Hfile. run_statement.
  rewrite Hfile. run_statement. rewrite He. run_statement.
  rewrite Hb. run_statement. rewrite Hsd. run_statement.
  unfold restored, emit, set_model, set_best_prec1, set_args. cbn.
  rewrite <- app_assoc. reflexivity.
Qed.

Lemma resume_checkpoint_missing (s : State) p :
  configured (resume (args s)) = Some p ->
  isfile s p = false ->
  resume_checkpoint s
  = (emit (Stdout ("=> no checkpoint found at '" +:+ p +:+ "'")) s, Ok tt).
Proof.
  intros Hp Hfile. unfold resume_checkpoint. run_statement.
  rewrite Hp, Hfile. reflexivity.
Qed.

Lemma resume_checkpoint_none (s : State) :
  configured (resume (args s)) = None -> resume_checkpoint s = (s, Ok tt).
Proof.
  intros Hp. unfold resume_checkpoint. run_statement. rewrite Hp. reflexivity.
Qed.

(** *** The scheduler's constructor *)

Lemma ensure_save_dir_run (a : Args) files :
  ensure_save_dir (initial_state a files)
  = (set_fs (files_with_save_dir a files) (initial_state a files), Ok tt).
Proof.
  unfold ensure_save_dir, files_with_save_dir. run_statement.
  destruct (files !! save_dir a); reflexivity.
Qed.

(** A new optimizer has no [initial_lr]: the constructor refuses any
    [last_epoch] but -1. *)
Lemma MultiStepLR_new_resuming_raises (s : State) ms last :
  group_initial_lr (param_group s) = None ->
  last <> (-1)%Z ->
  MultiStepLR_new ms last s = (s, Raise (KeyError "initial_lr")).
Proof.
  intros Hnone Hlast. unfold MultiStepLR_new. run_statement.
  destruct (Z.eqb_spec last (-1)); [contradiction|].
  rewrite Hnone. reflexivity.
Qed.

Lemma MultiStepLR_new_fresh (s : State) ms :
  group_initial_lr (param_group s) = None ->
  count_occ Z.eq_dec ms 0%Z = 0%nat ->
  MultiStepLR_new ms (-1) s
  = (set_param_group (mkGroup (group_lr (param_group s))
                              (Some (group_lr (param_group s))))
       (set_lr_scheduler
          (Some (mkSched ms (1 # 10) [group_lr (param_group s)] 0)) s), Ok tt).
Proof.
  intros Hnone Hms. unfold MultiStepLR_new, scheduler_step. run_statement.
  rewrite Hnone. unfold get_lr. cbn. change (-1 + 1)%Z with 0%Z.
  rewrite Hms. reflexivity.
Qed.

(** *** main up to the loop *)

Lemma warm_up_run (s : State) :
  warm_up s
  = (if warm_up_arch (arch (args s))
     then set_param_group
            (mkGroup (lr (args s) * (1 # 10))%Q
                     (group_initial_lr (param_group s))) s
     else s, Ok tt).
Proof.
  unfold warm_up, mbind, M_bind, get.
  destruct (warm_up_arch (arch (args s))); reflexivity.
Qed.

(** Whatever the resume step left, a start epoch other than 0 stops [main]
    at the construction of the scheduler. *)
Lemma main_resuming_raises (a : Args) files (s1 : State) :
  resume_checkpoint (set_fs (files_with_save_dir a files) (initial_state a files))
    = (s1, Ok tt) ->
  group_initial_lr (param_group s1) = None ->
  start_epoch (args s1) <> 0%Z ->
  main (initial_state a files) = (s1, Raise (KeyError "initial_lr")).
Proof.
  intros Hres Hnone Hstart. unfold main.
  rewrite (run_bind _ _ _ _ _ (ensure_save_dir_run a files)).
  rewrite (run_bind _ _ _ _ _ Hres).
  rewrite (run_bind get _ s1 s1 s1 eq_refl).
  apply run_bind_raise.
  apply MultiStepLR_new_resuming_raises; [exact Hnone | lia].
Qed.

(** A run that loaded nothing and starts at epoch 0 reaches the loop in
    [entry_state]. *)
Lemma main_enters_loop (a : Args) files lg :
  start_epoch a = 0%Z ->
  evaluate a = false ->
  resume_checkpoint (set_fs (files_with_save_dir a files) (initial_state a files))
    = (mkState a 0 (new_model (arch a)) new_buffers (mkGroup (lr a) None) None
               (files_with_save_dir a files) lg, Ok tt) ->
  main (initial_state a files)
  = train_loop (py_range 0 (epochs a)) (entry_state a files lg).
Proof.
  intros Hstart Heval Hres. unfold main.
  rewrite (run_bind _ _ _ _ _ (ensure_save_dir_run a files)).
  rewrite (run_bind _ _ _ _ _ Hres).
  erewrite (run_bind get) by reflexivity.
  cbn [args]. rewrite Hstart. change (0 - 1)%Z with (-1)%Z.
  erewrite run_bind by (apply MultiStepLR_new_fresh; reflexivity).
  erewrite run_bind by apply warm_up_run.
  erewrite (run_bind get) by reflexivity.
  unfold entry_state. cbn [args set_param_group set_lr_scheduler].
  destruct (warm_up_arch (arch a)); cbn; rewrite Heval, Hstart; reflexivity.
Qed.

Lemma main_without_resume (a : Args) files :
  configured (resume a) = None ->
  start_epoch a = 0%Z ->
  evaluate a = false ->
  main (initial_state a files)
  = train_loop (py_range 0 (epochs a)) (entry_state a files []).
Proof.
  intros Hres Hstart Heval. apply main_enters_loop; [assumption..|].
  apply resume_checkpoint_none. exact Hres.
Qed.

Lemma files_with_save_dir_file (a : Args) files p :
  (exists c, files_with_save_dir a files !! p = Some (File c))
  <-> (exists c, files !! p = Some (File c)).
Proof.
  unfold files_with_save_dir.
  destruct (files !! save_dir a) eqn:Hdir; [reflexivity|].
  rewrite lookup_insert. case_decide as Hk; [subst p|reflexivity].
  rewrite Hdir. split; intros [c Hc]; discriminate Hc.
Qed.

Lemma main_resume_missing (a : Args) files p :
  configured (resume a) = Some p ->
  (forall c, files !! p <> Some (File c)) ->
  start_epoch a = 0%Z ->
  evaluate a = false ->
  main (initial_state a files)
  = train_loop (py_range 0 (epochs a))
      (entry_state a files [Stdout ("=> no checkpoint found at '" +:+ p +:+ "'")]).
Proof.
  intros Hres Hmiss Hstart Heval. apply main_enters_loop; [assumption..|].
  rewrite (resume_checkpoint_missing _ p); [reflexivity | exact Hres |].
  unfold isfile. cbn [fs set_fs].
  destruct (files_with_save_dir a files !! p) as [[|c]|] eqn:Hp; try reflexivity.
  exfalso. destruct (proj1 (files_with_save_dir_file a files p)) as [c' Hc'];
    [eauto | exact (Hmiss c' Hc')].
Qed.

(** *** Checkpoints *)

Lemma checkpoint_dict_epoch e (sd : params) b :
  checkpoint_dict e sd b !! "epoch" = Some (PInt e).
Proof. unfold checkpoint_dict. apply lookup_insert_eq. Qed.

Lemma checkpoint_dict_state_dict e (sd : params) b :
  checkpoint_dict e sd b !! "state_dict" = Some (PState sd).
Proof.
  unfold checkpoint_dict.
  rewrite lookup_insert_ne by discriminate. apply lookup_insert_eq.
Qed.

Lemma checkpoint_dict_best_prec1 e (sd : params) b :
  checkpoint_dict e sd b !! "best_prec1" = Some (PNum b).
Proof.
  unfold checkpoint_dict.
  rewrite !lookup_insert_ne by discriminate. apply lookup_insert_eq.
Qed.

Lemma checkpoint_dict_dom e (sd : params) b :
  dom (checkpoint_dict e sd b)
  = ({["epoch"]} ∪ {["state_dict"]} ∪ {["best_prec1"]} : gset string).
Proof.
  unfold checkpoint_dict. rewrite !dom_insert_L, dom_empty_L. set_solver.
Qed.

(** *** Best-checkpoint tracking *)

Lemma Qltb_running_best b0 seen b m :
  running_best b0 seen b ->
  Qltb b m = Qltb b0 m && forallb (fun x => Qltb x m) seen.
Proof.
  intros (Hb0 & Hseen & Hin). rewrite List.Forall_forall in Hseen.
  destruct (Qltb b m) eqn:Eb.
  - apply Qltb_lt in Eb. symmetry. apply andb_true_iff. split.
    + apply Qltb_lt. lra.
    + apply List.forallb_forall. intros x Hx. apply Qltb_lt.
      specialize (Hseen x Hx). cbn in Hseen. lra.
  - symmetry. apply andb_false_iff. destruct Hin as [->|Hin]; [left; exact Eb|].
    right. destruct (forallb _ seen) eqn:Ef; [|reflexivity].
    rewrite List.forallb_forall in Ef. rewrite <- Eb. symmetry. exact (Ef b Hin).
Qed.

Lemma running_best_step b0 seen b m :
  running_best b0 seen b -> running_best b0 (seen ++ [m]) (py_max2 m b).
Proof.
  intros (Hb0 & Hseen & Hin). unfold py_max2, running_best.
  destruct (Qltb m b) eqn:E.
  - apply Qltb_lt in E. split; [exact Hb0|]. split.
    + apply List.Forall_app. split; [exact Hseen|]. constructor; [lra | constructor].
    + destruct Hin as [->|Hin]; [left; reflexivity|].
      right. apply List.in_or_app. left. exact Hin.
  - apply Qltb_ge in E. split; [lra|]. split.
    + apply List.Forall_app. split.
      * eapply List.Forall_impl; [|exact Hseen]. intros x Hx. cbn in Hx. lra.
      * constructor; [lra | constructor].
    + right. apply List.in_or_app. right. left. reflexivity.
Qed.

Lemma running_best_start b : running_best b [] b.
Proof. split; [lra|]. split; [constructor | left; reflexivity]. Qed.

Lemma loop_run_args s es tr s' : loop_run s es tr s' -> args s' = args s.
Proof.
  induction 1 as [s|s e s1 es tr s' Hep _ IH]; [reflexivity|].
  destruct Hep as (_ & Hargs & _). congruence.
Qed.

Lemma loop_run_scheduler s es tr s' :
  loop_run s es tr s' ->
  is_Some (lr_scheduler s) -> is_Some (lr_scheduler s').
Proof.
  induction 1 as [s|s e s1 es tr s' Hep _ IH]; [tauto|].
  intros _. apply IH.
  destruct Hep as (_ & _ & _ & _ & (sch & _ & Hsch & _) & _). eauto.
Qed.

Lemma best_saves_loop s es tr s' :
  loop_run s es tr s' ->
  forall b0 seen, running_best b0 seen (best_prec1 s) ->
  List.map fst (test_accuracies tr) = es /\
  List.map numeric_fields (saves_at (best_path (args s)) tr)
  = List.map (fun em => (Some (PInt (fst em + 1)), Some (PNum (snd em))))
             (strict_improvements_from b0 seen (test_accuracies tr)) /\
  running_best b0 (seen ++ List.map snd (test_accuracies tr)) (best_prec1 s').
Proof.
  induction 1 as [s|s e s1 es tr s' Hep Hrun IH]; intros b0 seen Hbest.
  - cbn. rewrite app_nil_r. auto.
  - destruct Hep as (_ & Hargs & _ & Hb1 & _).
    unfold test_accuracies, saves_at in *.
    rewrite !omap_app.
    fold (test_accuracies (epoch_events s e)).
    fold (saves_at (best_path (args s)) (epoch_events s e)).
    rewrite test_accuracies_epoch, saves_at_best_epoch.
    destruct (IH b0 (seen ++ [epoch_metric s e])) as (IHes & IHsaves & IHbest).
    { rewrite Hb1. apply running_best_step, Hbest. }
    rewrite Hargs in IHsaves.
    cbn [app List.map fst snd strict_improvements_from].
    rewrite <- (Qltb_running_best _ _ _ _ Hbest).
    split; [f_equal; exact IHes|]. split.
    + destruct (Qltb (best_prec1 s) (epoch_metric s e)); cbn [app List.map].
      * unfold numeric_fields at 1.
        rewrite checkpoint_dict_epoch, checkpoint_dict_best_prec1.
        cbn [fst snd]. f_equal. exact IHsaves.
      * exact IHsaves.
    + rewrite <- app_assoc in IHbest. exact IHbest.
Qed.

(** A resume path that names no file: the run says so and goes on from the
    defaults to the end of the loop. *)
Lemma missing_checkpoint_is_logged (a : Args) files p :
  configured (resume a) = Some p ->
  (forall c, files !! p <> Some (File c)) ->
  start_epoch a = 0%Z ->
  evaluate a = false ->
  save_every a <> 0%Z ->
  exists s' tr,
    main (initial_state a files) = (s', Ok tt) /\
    log s' = Stdout ("=> no checkpoint found at '" +:+ p +:+ "'") :: tr /\
    printed (log s') <> [] /\
    List.map fst (test_accuracies tr) = py_range 0 (epochs a).
Proof.
  intros Hres Hmiss Hstart Heval Hse.
  rewrite (main_resume_missing a files p Hres Hmiss Hstart Heval).
  destruct (loop_runs (py_range 0 (epochs a))
              (entry_state a files
                 [Stdout ("=> no checkpoint found at '" +:+ p +:+ "'")])
              (mkSched [100; 150]%Z (1 # 10) [lr a] 0) eq_refl Hse)
    as (tr & s' & Hrun).
  destruct (loop_run_train_loop _ _ _ _ Hrun) as (Hloop & Hlog).
  exists s', tr. split; [exact Hloop|]. cbn in Hlog.
  split; [exact Hlog|]. split; [rewrite Hlog; discriminate|].
  destruct (best_saves_loop _ _ _ _ Hrun _ _ (running_best_start 0)) as (Hes & _).
  exact Hes.
Qed.

Lemma py_max2_improved m b : Qltb b m = true -> py_max2 m b = m.
Proof.
  intros Hb. apply Qltb_lt in Hb. unfold py_max2.
  destruct (Qltb m b) eqn:E; [apply Qltb_lt in E; lra | reflexivity].
Qed.

Lemma loop_run_best_monotone s es tr s' :
  loop_run s es tr s' -> (best_prec1 s <= best_prec1 s')%Q.
Proof.
  intros Hrun.
  destruct (best_saves_loop _ _ _ _ Hrun _ _ (running_best_start (best_prec1 s)))
    as (_ & _ & Hb & _).
  exact Hb.
Qed.

(** C1.  In each epoch, once validation has returned [prec1], the best
    checkpoint is written exactly when [prec1] is strictly greater than
    [best_prec1] (an equal value writes nothing), and [best_prec1] becomes
    the maximum of the two.  Over any list of epochs the loop runs, the best
    checkpoints written are, in order, those of the epochs whose metric is
    greater than the starting [best_prec1] and than every metric before it,
    tagged with the epoch plus one and holding that metric; [best_prec1]
    ends as the greatest value seen and never decreases along the run. *)
Theorem best_checkpoint_on_strict_improvement
  (s : State) (sch : MultiStepLR) (es : list Z) :
  lr_scheduler s = Some sch ->
  save_every (args s) <> 0%Z ->
  (forall e, exists s1,
     epoch_completes s e s1 /\
     (best_prec1 s1 == Qmax (epoch_metric s e) (best_prec1 s))%Q /\
     ((best_prec1 s < epoch_metric s e)%Q /\
      saves_at (best_path (args s)) (epoch_events s e)
      = [checkpoint_dict (e + 1) (model s1) (best_prec1 s1)]
      \/
      (epoch_metric s e <= best_prec1 s)%Q /\
      saves_at (best_path (args s)) (epoch_events s e) = [])) /\
  exists s' tr,
    train_loop es s = (s', Ok tt) /\
    log s' = log s ++ tr /\
    List.map fst (test_accuracies tr) = es /\
    List.map numeric_fields (saves_at (best_path (args s)) tr)
    = List.map (fun em => (Some (PInt (fst em + 1)), Some (PNum (snd em))))
               (strict_improvements (best_prec1 s) (test_accuracies tr)) /\
    running_best (best_prec1 s) (List.map snd (test_accuracies tr)) (best_prec1 s') /\
    (forall es1 es2, es = es1 ++ es2 ->
       exists s1, train_loop es1 s = (s1, Ok tt) /\
                  (best_prec1 s <= best_prec1 s1)%Q /\
                  (best_prec1 s1 <= best_prec1 s')%Q).
Proof.
  intros Hs Hse. split.
  - intros e.
    destruct (epoch_body_run s e sch Hs (or_introl Hse)) as (s1 & Hep).
    exists s1. split; [exact Hep|].
    destruct Hep as (_ & _ & Hmodel & Hbest & _).
    split; [rewrite Hbest; apply py_max2_Qmax|].
    rewrite saves_at_best_epoch, Hmodel, Hbest.
    destruct (Qltb (best_prec1 s) (epoch_metric s e)) eqn:E.
    + left. rewrite (py_max2_improved _ _ E).
      split; [apply Qltb_lt, E | reflexivity].
    + right. split; [apply Qltb_ge, E | reflexivity].
  - destruct (loop_runs es s sch Hs Hse) as (tr & s' & Hrun).
    destruct (loop_run_train_loop _ _ _ _ Hrun) as (Hloop & Hlog).
    destruct (best_saves_loop _ _ _ _ Hrun _ _ (running_best_start (best_prec1 s)))
      as (Hes & Hsaves & Hbest).
    exists s', tr. repeat (split; [assumption|]).
    intros es1 es2 ->.
    destruct (loop_runs es1 s sch Hs Hse) as (tr1 & s1 & Hrun1).
    destruct (loop_run_train_loop _ _ _ _ Hrun1) as (Hloop1 & _).
    exists s1. split; [exact Hloop1|].
    split; [exact (loop_run_best_monotone _ _ _ _ Hrun1)|].
    destruct (loop_run_scheduler _ _ _ _ Hrun1) as [sch1 Hs1]; [eauto|].
    assert (Hse1 : save_every (args s1) <> 0%Z).
    { rewrite (loop_run_args _ _ _ _ Hrun1). exact Hse. }
    destruct (loop_runs es2 s1 sch1 Hs1 Hse1) as (tr2 & s2 & Hrun2).
    destruct (loop_run_train_loop _ _ _ _ Hrun2) as (Hloop2 & _).
    rewrite train_loop_app, (run_bind _ _ _ _ _ Hloop1), Hloop2 in Hloop.
    injection Hloop as <-.
    exact (loop_run_best_monotone _ _ _ _ Hrun2).
Qed.

(** *** Periodic checkpoints *)

Lemma periodic_due_spec (every e : Z) :
  periodic_due every e = true <-> (0 < e /\ (e + 1) mod every = 0)%Z.
Proof.
  unfold periodic_due. rewrite andb_true_iff, Z.ltb_lt, Z.eqb_eq. reflexivity.
Qed.

Lemma periodic_saves_loop s es tr s' :
  loop_run s es tr s' ->
  saves_elsewhere (best_path (args s)) tr
  = List.map (fun e => periodic_path (args s) (e + 1))
             (List.filter (periodic_due (save_every (args s))) es).
Proof.
  induction 1 as [s|s e s1 es tr s' Hep Hrun IH]; [reflexivity|].
  destruct Hep as (_ & Hargs & _).
  unfold saves_elsewhere in *. rewrite omap_app.
  fold (saves_elsewhere (best_path (args s)) (epoch_events s e)).
  rewrite saves_elsewhere_epoch. rewrite Hargs in IH. rewrite IH.
  cbn [List.filter].
  destruct (periodic_due (save_every (args s)) e); reflexivity.
Qed.

(** C3.  Over the epochs the loop runs, the checkpoints written beside the
    best one are, in order, [checkpoint_{e+1}.th] for exactly the epochs [e]
    with [e > 0] and [(e + 1) mod save_every = 0]; with [save_every = 10] and
    25 epochs these are the epochs 9 and 19, and epoch 0 never is one. *)
Theorem periodic_checkpoint_timing (s : State) (sch : MultiStepLR) (es : list Z) :
  lr_scheduler s = Some sch ->
  save_every (args s) <> 0%Z ->
  (exists s' tr,
     train_loop es s = (s', Ok tt) /\
     log s' = log s ++ tr /\
     saves_elsewhere (best_path (args s)) tr
     = List.map (fun e => periodic_path (args s) (e + 1))
                (List.filter (periodic_due (save_every (args s))) es)) /\
  (forall e, periodic_due (save_every (args s)) e = true
             <-> (0 < e /\ (e + 1) mod save_every (args s) = 0)%Z) /\
  (forall every, periodic_due every 0 = false) /\
  List.filter (periodic_due 10) (py_range 0 25) = [9; 19]%Z.
Proof.
  intros Hs Hse. split; [|split; [|split]].
  - destruct (loop_runs es s sch Hs Hse) as (tr & s' & Hrun).
    destruct (loop_run_train_loop _ _ _ _ Hrun) as (Hloop & Hlog).
    exists s', tr. split; [exact Hloop|]. split; [exact Hlog|].
    exact (periodic_saves_loop _ _ _ _ Hrun).
  - intros e. apply periodic_due_spec.
  - reflexivity.
  - reflexivity.
Qed.

(** *** The learning-rate trajectory *)

Lemma py_range_nil (a b : Z) : (b <= a)%Z -> py_range a b = [].
Proof.
  intros H. unfold py_range. replace (Z.to_nat (b - a)) with 0%nat by lia.
  reflexivity.
Qed.

Lemma py_range_cons (a b : Z) :
  (a < b)%Z -> py_range a b = a :: py_range (a + 1) b.
Proof.
  intros H. unfold py_range.
  replace (Z.to_nat (b - a)) with (S (Z.to_nat (b - (a + 1)))) by lia.
  cbn [List.seq List.map]. f_equal; [lia|].
  rewrite <- List.seq_shift, List.map_map.
  apply List.map_ext. intros i. lia.
Qed.

Lemma py_range_length (a b : Z) :
  py_range a b = py_range a (a + Z.of_nat (Z.to_nat (b - a))).
Proof.
  unfold py_range. do 2 f_equal. lia.
Qed.

Lemma milestones_step (ms : list Z) (e : Z) :
  length (List.filter (fun m => (m <=? e + 1)%Z) ms)
  = (length (List.filter (fun m => (m <=? e)%Z) ms)
     + count_occ Z.eq_dec ms (e + 1)%Z)%nat.
Proof.
  induction ms as [|m ms IH]; [reflexivity|]. cbn.
  destruct (Z.leb_spec m (e + 1)), (Z.leb_spec m e), (Z.eq_dec m (e + 1));
    cbn; try lia.
Qed.

Lemma closed_form_lr_step (base : Q) (sch : MultiStepLR) (g : ParamGroup) :
  gamma sch = (1 # 10)%Q ->
  (group_lr g == closed_form_lr base (milestones sch) (last_epoch sch))%Q ->
  (get_lr (stepped sch) g
   == closed_form_lr base (milestones sch) (last_epoch sch + 1))%Q.
Proof.
  intros Hgamma Hlr. unfold get_lr, stepped, closed_form_lr in *. cbn.
  rewrite milestones_step, Nat2Z.inj_add, Qpower_plus by discriminate.
  rewrite Hgamma.
  set (p := ((1 # 10) ^ Z.of_nat (length _))%Q) in *.
  destruct (Nat.eqb_spec (count_occ Z.eq_dec (milestones sch) (last_epoch sch + 1)%Z) 0)
    as [->|_].
  - change ((1 # 10) ^ Z.of_nat 0)%Q with 1%Q. rewrite Hlr. ring.
  - set (q := ((1 # 10) ^ Z.of_nat (count_occ _ _ _))%Q). rewrite Hlr. ring.
Qed.

Lemma closed_form_lr_values (base : Q) (e : Z) :
  ((e < 100)%Z -> closed_form_lr base [100; 150]%Z e == base)%Q /\
  ((100 <= e < 150)%Z -> closed_form_lr base [100; 150]%Z e == base * (1 # 10))%Q /\
  ((150 <= e)%Z -> closed_form_lr base [100; 150]%Z e == base * (1 # 100))%Q.
Proof.
  unfold closed_form_lr. cbn [List.filter].
  repeat split; intros He;
    destruct (Z.leb_spec 100 e), (Z.leb_spec 150 e); try lia; cbn [length].
  - change ((1 # 10) ^ Z.of_nat 0)%Q with 1%Q. ring.
  - apply Qmult_comp; reflexivity.
  - apply Qmult_comp; reflexivity.
Qed.

Lemma lr_trajectory (n : nat) : forall (s : State) (sch : MultiStepLR) (base : Q),
  lr_scheduler s = Some sch ->
  gamma sch = (1 # 10)%Q ->
  (group_lr (param_group s)
   == closed_form_lr base (milestones sch) (last_epoch sch))%Q ->
  save_every (args s) <> 0%Z ->
  exists tr s',
    loop_run s (py_range (last_epoch sch) (last_epoch sch + Z.of_nat n)) tr s' /\
    List.map fst (learning_rates tr)
    = py_range (last_epoch sch) (last_epoch sch + Z.of_nat n) /\
    List.Forall
      (fun er => (snd er == closed_form_lr base (milestones sch) (fst er))%Q)
      (learning_rates tr).
Proof.
  induction n as [|n IH]; intros s sch base Hs Hgamma Hlr Hse.
  - rewrite py_range_nil by lia. exists [], s.
    split; [constructor|]. split; [reflexivity | constructor].
  - rewrite py_range_cons by lia.
    destruct (epoch_body_run s (last_epoch sch) sch Hs (or_introl Hse))
      as (s1 & Hep).
    pose proof Hep as (_ & Hargs & _ & _ & (sch0 & Hs0 & Hs1 & Hg1) & _).
    assert (sch0 = sch) by congruence. subst sch0.
    destruct (IH s1 (stepped sch) base Hs1 Hgamma) as (tr & s' & Hrun & Hfst & Hall).
    { rewrite Hg1. cbn [group_lr stepped milestones last_epoch].
      apply closed_form_lr_step; assumption. }
    { rewrite Hargs. exact Hse. }
    cbn [stepped last_epoch milestones] in Hrun, Hfst, Hall.
    replace (last_epoch sch + 1 + Z.of_nat n)%Z
      with (last_epoch sch + Z.of_nat (S n))%Z in Hrun, Hfst by lia.
    exists (epoch_events s (last_epoch sch) ++ tr), s'.
    split; [econstructor; eassumption|].
    unfold learning_rates in *. rewrite omap_app.
    fold (learning_rates (epoch_events s (last_epoch sch))).
    rewrite learning_rates_epoch. cbn [app List.map fst].
    split; [f_equal; exact Hfst|].
    constructor; [exact Hlr | exact Hall].
Qed.

(** A run from epoch 0 that loaded nothing: it completes, and each epoch is
    trained at the closed form of the schedule, from the rate the loop was
    entered with. *)
Lemma fresh_run_schedule (a : Args) files lg :
  main (initial_state a files)
    = train_loop (py_range 0 (epochs a)) (entry_state a files lg) ->
  save_every a <> 0%Z ->
  exists s' tr,
    main (initial_state a files) = (s', Ok tt) /\
    log s' = lg ++ tr /\
    loop_run (entry_state a files lg) (py_range 0 (epochs a)) tr s' /\
    List.map fst (learning_rates tr) = py_range 0 (epochs a) /\
    List.Forall
      (fun er => (snd er == closed_form_lr
                              (if warm_up_arch (arch a) then lr a * (1 # 10) else lr a)
                              [100; 150]%Z (fst er))%Q)
      (learning_rates tr).
Proof.
  intros Hmain Hse.
  destruct (lr_trajectory (Z.to_nat (epochs a - 0)) (entry_state a files lg)
              (mkSched [100; 150]%Z (1 # 10) [lr a] 0)
              (if warm_up_arch (arch a) then lr a * (1 # 10) else lr a)%Q)
    as (tr & s' & Hrun & Hfst & Hall); try reflexivity; try exact Hse.
  { unfold closed_form_lr. cbn.
    change ((1 # 10) ^ Z.of_nat 0)%Q with 1%Q. ring. }
  cbn [last_epoch milestones] in *. rewrite <- py_range_length in *.
  destruct (loop_run_train_loop _ _ _ _ Hrun) as (Hloop & Hlog).
  exists s', tr. rewrite Hmain. auto.
Qed.

(** *** Resuming *)

Lemma files_with_save_dir_lookup (a : Args) files p x :
  files !! p = Some x -> files_with_save_dir a files !! p = Some x.
Proof.
  intros Hp. unfold files_with_save_dir.
  destruct (files !! save_dir a) eqn:Hdir; [exact Hp|].
  rewrite lookup_insert_ne; [exact Hp|]. congruence.
Qed.

(** A run resumed from a checkpoint whose epoch is not 0 restores the three
    values and then stops: the scheduler cannot be built. *)
Lemma main_resumed_checkpoint_raises (a : Args) files p obj e b sd :
  configured (resume a) = Some p ->
  files !! p = Some (File (Pickled obj)) ->
  obj !! "epoch" = Some (PInt e) ->
  obj !! "best_prec1" = Some (PNum b) ->
  obj !! "state_dict" = Some (PState sd) ->
  e <> 0%Z ->
  main (initial_state a files)
  = (restored (set_fs (files_with_save_dir a files) (initial_state a files))
              p e b sd,
     Raise (KeyError "initial_lr")).
Proof.
  intros Hconf Hfile He Hb Hsd Hne.
  apply main_resuming_raises; [|reflexivity | exact Hne].
  apply (resume_checkpoint_found _ p obj); try assumption.
  cbn. apply files_with_save_dir_lookup, Hfile.
Qed.

(** *** What a checkpoint holds, and resuming from it *)

Lemma epoch_events_saves (s : State) (e : Z) p obj :
  In (TorchSave p obj) (epoch_events s e) ->
  obj = checkpoint_dict (e + 1) (trained s e)
                        (py_max2 (epoch_metric s e) (best_prec1 s)) /\
  (p = best_path (args s) /\ Qltb (best_prec1 s) (epoch_metric s e) = true \/
   p = periodic_path (args s) (e + 1) /\
   periodic_due (save_every (args s)) e = true).
Proof.
  unfold epoch_events. cbn. intros [Hin|[Hin|Hin]]; try discriminate Hin.
  apply List.in_app_or in Hin as [Hin|Hin].
  - destruct (Qltb _ _); [|destruct Hin].
    destruct Hin as [Hin|[]]. injection Hin as <- <-. auto.
  - destruct (periodic_due _ _); [|destruct Hin].
    destruct Hin as [Hin|[Hin|[]]]; [discriminate Hin|].
    injection Hin as <- <-. auto.
Qed.

(** C8.  Every checkpoint written in epoch [e], the best one or the
    periodic one, has exactly the keys [epoch], [state_dict] and
    [best_prec1]; its [epoch] is [e + 1] and the two other entries are the
    parameters and the [best_prec1] of that moment, and the file holds that
    object.  But a run told to resume from it (with the same architecture)
    does not continue after epoch [e]: it reads back [start_epoch = e + 1],
    that [best_prec1] and those parameters, and then raises [KeyError] while
    building the scheduler, before any epoch. *)
Theorem checkpoint_resume_point_unusable
  (s : State) (sch : MultiStepLR) (e : Z) :
  lr_scheduler s = Some sch ->
  (save_every (args s) <> 0 \/ e <= 0)%Z ->
  (0 <= e)%Z ->
  exists s' evs,
    epoch_body e s = (s', Ok tt) /\
    log s' = log s ++ evs /\
    forall p obj, In (TorchSave p obj) evs ->
      dom obj = ({["epoch"]} ∪ {["state_dict"]} ∪ {["best_prec1"]} : gset string) /\
      obj !! "epoch" = Some (PInt (e + 1)) /\
      obj !! "state_dict" = Some (PState (model s')) /\
      obj !! "best_prec1" = Some (PNum (best_prec1 s')) /\
      fs s' !! p = Some (File (Pickled obj)) /\
      forall a, configured (resume a) = Some p -> arch a = arch (args s) ->
        exists r,
          main (initial_state a (fs s')) = (r, Raise (KeyError "initial_lr")) /\
          start_epoch (args r) = (e + 1)%Z /\
          best_prec1 r = best_prec1 s' /\
          model r = model s' /\
          learning_rates (log r) = [] /\
          test_accuracies (log r) = [].
Proof.
  intros Hs Hse He.
  destruct (epoch_body_run s e sch Hs Hse)
    as (s' & Hbody & Hargs & Hmodel & Hbest & _ & Hlog & Hfs).
  exists s', (epoch_events s e). split; [exact Hbody|]. split; [exact Hlog|].
  intros p obj Hin.
  pose proof (Hfs p obj Hin) as Hfile.
  destruct (epoch_events_saves s e p obj Hin) as [Hobj _].
  rewrite <- Hmodel, <- Hbest in Hobj. subst obj.
  split; [apply checkpoint_dict_dom|].
  split; [apply checkpoint_dict_epoch|].
  split; [apply checkpoint_dict_state_dict|].
  split; [apply checkpoint_dict_best_prec1|].
  split; [exact Hfile|].
  intros a Hres _. eexists. split.
  - apply (main_resumed_checkpoint_raises a (fs s') p _ (e + 1)
             (best_prec1 s') (model s') Hres Hfile).
    + apply checkpoint_dict_epoch.
    + apply checkpoint_dict_best_prec1.
    + apply checkpoint_dict_state_dict.
    + lia.
  - cbn. repeat split; reflexivity.
Qed.

(** C2, evaluated on the specification's own example.  Resuming from a
    checkpoint with epoch 5 and best metric 80 restores the start epoch, the
    best metric and the parameters, and then [main] raises [KeyError] while
    building the scheduler: no epoch runs, epoch 5 or any other. *)
Theorem resumed_run_stops_at_scheduler (sd : params) :
  let p := "save_temp/checkpoint_5.th" in
  let a := mkArgs "resnet32" 200 (Some p) 0 (1 # 10) false false "save_temp" 10 in
  let files : gmap string (Node params) :=
    {[ p := File (Pickled (checkpoint_dict 5 sd 80)) ]} in
  exists s',
    main (initial_state a files) = (s', Raise (KeyError "initial_lr")) /\
    start_epoch (args s') = 5%Z /\
    best_prec1 s' = 80%Q /\
    model s' = sd /\
    learning_rates (log s') = [] /\
    test_accuracies (log s') = [] /\
    all_saves (log s') = [].
Proof.
  intros p a files. eexists. split.
  - apply (main_resumed_checkpoint_raises a files p (checkpoint_dict 5 sd 80) 5 80 sd).
    + reflexivity.
    + apply lookup_singleton_eq.
    + apply checkpoint_dict_epoch.
    + apply checkpoint_dict_best_prec1.
    + apply checkpoint_dict_state_dict.
    + discriminate.
  - cbn. repeat split; reflexivity.
Qed.

(** C4, evaluated.  A run from epoch 0 trains at 0.1 before epoch 100, at
    0.01 from 100 to 149 and at 0.001 from 150 on.  A run resumed from a
    checkpoint of epoch 120 does not reach epoch 120 at all: building the
    scheduler with [last_epoch = 119] on the new optimizer raises
    [KeyError], so no learning rate is reproduced. *)
Theorem schedule_lost_on_resume (sd : params) (b : Q) :
  let a0 := mkArgs "resnet32" 200 None 0 (1 # 10) false false "save_temp" 10 in
  let p := "save_temp/checkpoint_120.th" in
  let a120 := mkArgs "resnet32" 200 (Some p) 0 (1 # 10) false false "save_temp" 10 in
  let files : gmap string (Node params) :=
    {[ p := File (Pickled (checkpoint_dict 120 sd b)) ]} in
  (exists s',
     main (initial_state a0 ∅) = (s', Ok tt) /\
     List.map fst (learning_rates (log s')) = py_range 0 200 /\
     List.Forall
       (fun er =>
          ((fst er < 100)%Z -> snd er == 1 # 10)%Q /\
          ((100 <= fst er < 150)%Z -> snd er == 1 # 100)%Q /\
          ((150 <= fst er)%Z -> snd er == 1 # 1000)%Q)
       (learning_rates (log s'))) /\
  (exists s',
     main (initial_state a120 files) = (s', Raise (KeyError "initial_lr")) /\
     start_epoch (args s') = 120%Z /\
     learning_rates (log s') = []).
Proof.
  intros a0 p a120 files. split.
  - destruct (fresh_run_schedule a0 ∅ [])
      as (s' & tr & Hmain & Hlog & _ & Hfst & Hall).
    { apply main_without_resume; reflexivity. }
    { discriminate. }
    exists s'. rewrite Hlog. cbn [app]. split; [exact Hmain|].
    split; [exact Hfst|].
    eapply List.Forall_impl; [|exact Hall]. intros [e r] Hr. cbn in Hr |- *.
    destruct (closed_form_lr_values (1 # 10) e) as (H1 & H2 & H3).
    repeat split; intros He; rewrite Hr;
      [rewrite (H1 He) | rewrite (H2 He) | rewrite (H3 He)]; reflexivity.
  - eexists. split.
    + apply (main_resumed_checkpoint_raises a120 files p
               (checkpoint_dict 120 sd b) 120 b sd).
      * reflexivity.
      * apply lookup_singleton_eq.
      * apply checkpoint_dict_epoch.
      * apply checkpoint_dict_best_prec1.
      * apply checkpoint_dict_state_dict.
      * discriminate.
    + cbn. split; reflexivity.
Qed.

(** With [initial_lr] supplied by hand the constructor goes through, and
    the rate it leaves at epoch 120 is still the base rate: the recursive
    [get_lr] only ever multiplies at a milestone it steps onto. *)
Lemma MultiStepLR_new_resumed_rate (s : State) (base : Q) :
  param_group s = mkGroup base (Some base) ->
  exists s',
    MultiStepLR_new [100; 150]%Z 119 s = (s', Ok tt) /\
    group_lr (param_group s') = base.
Proof.
  intros Hg. unfold MultiStepLR_new, scheduler_step. run_statement.
  rewrite Hg. run_statement. rewrite Hg. run_statement.
  eexists. split; [reflexivity|]. cbn. rewrite Hg. reflexivity.
Qed.

(** *** Warm-up *)

(** For the warm-up architectures every epoch before the first milestone
    is trained at one tenth of the configured rate. *)
Lemma warm_up_persists (a : Args) files :
  warm_up_arch (arch a) = true ->
  configured (resume a) = None ->
  start_epoch a = 0%Z ->
  evaluate a = false ->
  save_every a <> 0%Z ->
  exists s',
    main (initial_state a files) = (s', Ok tt) /\
    List.map fst (learning_rates (log s')) = py_range 0 (epochs a) /\
    List.Forall (fun er => ((fst er < 100)%Z -> snd er == lr a * (1 # 10))%Q)
                (learning_rates (log s')).
Proof.
  intros Hw Hres Hstart Heval Hse.
  destruct (fresh_run_schedule a files [])
    as (s' & tr & Hmain & Hlog & _ & Hfst & Hall).
  { apply main_without_resume; assumption. }
  { exact Hse. }
  exists s'. rewrite Hlog. cbn [app]. split; [exact Hmain|].
  split; [exact Hfst|].
  eapply List.Forall_impl; [|exact Hall]. intros [e r] Hr He.
  rewrite Hw in Hr. cbn [fst snd] in Hr, He |- *. rewrite Hr.
  apply (closed_form_lr_values (lr a * (1 # 10)) e), He.
Qed.

(** C5, evaluated.  With [--arch resnet110] and the rate 0.1, epoch 0 is
    trained at 0.01, and so is epoch 1 (and every epoch before 100): the
    rate does not come back to 0.1 after the first epoch. *)
Theorem warm_up_outlasts_first_epoch :
  let a := mkArgs "resnet110" 200 None 0 (1 # 10) false false "save_temp" 10 in
  exists s' r0 r1,
    main (initial_state a ∅) = (s', Ok tt) /\
    In (0%Z, r0) (learning_rates (log s')) /\ (r0 == 1 # 100)%Q /\
    In (1%Z, r1) (learning_rates (log s')) /\ (r1 == 1 # 100)%Q /\
    ~ (r1 == 1 # 10)%Q.
Proof.
  intros a.
  destruct (warm_up_persists a ∅) as (s' & Hmain & Hfst & Hall);
    try reflexivity; try discriminate.
  unfold a in Hfst, Hall. cbn [epochs lr] in Hfst, Hall.
  assert (Hin : forall e, In e (py_range 0 200) ->
            exists r, In (e, r) (learning_rates (log s'))).
  { intros e He. rewrite <- Hfst in He.
    apply List.in_map_iff in He as ([e' r] & He' & Hin). cbn in He'. subst e'.
    exists r. exact Hin. }
  destruct (Hin 0%Z) as [r0 H0]; [vm_compute; tauto|].
  destruct (Hin 1%Z) as [r1 H1]; [vm_compute; tauto|].
  rewrite List.Forall_forall in Hall.
  pose proof (Hall _ H0 ltac:(cbn; lia)) as E0.
  pose proof (Hall _ H1 ltac:(cbn; lia)) as E1.
  cbn in E0, E1.
  exists s', r0, r1. split; [exact Hmain|].
  split; [exact H0|]. split; [rewrite E0; reflexivity|].
  split; [exact H1|]. split; [rewrite E1; reflexivity|].
  rewrite E1. discriminate.
Qed.

(** *** The first epoch of a fresh run *)

Lemma py_range_In (a b e : Z) : In e (py_range a b) -> (a <= e < b)%Z.
Proof.
  unfold py_range. rewrite List.in_map_iff. intros (i & <- & Hi).
  apply List.in_seq in Hi. lia.
Qed.

(** Every checkpoint the loop saves carries the number of the epoch after
    the one that wrote it. *)
Lemma loop_run_saves_epoch s es tr s' :
  loop_run s es tr s' ->
  forall p obj, In (TorchSave p obj) tr ->
    exists e, In e es /\ obj !! "epoch" = Some (PInt (e + 1)).
Proof.
  induction 1 as [s|s e s1 es tr s' Hep _ IH]; intros p obj Hin; [destruct Hin|].
  apply List.in_app_or in Hin as [Hin|Hin].
  - exists e. split; [left; reflexivity|].
    destruct (epoch_events_saves s e p obj Hin) as [-> _].
    apply checkpoint_dict_epoch.
  - destruct (IH p obj Hin) as (e' & He' & Hobj).
    exists e'. split; [right; exact He' | exact Hobj].
Qed.

(** C9, as amended.  When no checkpoint was loaded, [best_prec1] is 0 when
    the loop is entered.  With [m0] the first validation metric the run
    logs: the run saves a best checkpoint for its first epoch (one holding
    [epoch = 1]) if and only if [m0] is strictly greater than 0; when it
    does, the checkpoint holds [m0]; when [m0] is not greater than 0, every
    checkpoint of the run, if there is one, was written by a later epoch. *)
Theorem first_best_checkpoint_iff_positive (a : Args) files :
  (configured (resume a) = None \/
   exists p, configured (resume a) = Some p /\
             forall c, files !! p <> Some (File c)) ->
  start_epoch a = 0%Z ->
  evaluate a = false ->
  (0 < epochs a)%Z ->
  save_every a <> 0%Z ->
  exists s' m0 rest,
    main (initial_state a files) = (s', Ok tt) /\
    test_accuracies (log s') = (0%Z, m0) :: rest /\
    ((exists obj, In (TorchSave (best_path a) obj) (log s') /\
                  obj !! "epoch" = Some (PInt 1))
     <-> (0 < m0)%Q) /\
    ((0 < m0)%Q ->
     exists obj, In (TorchSave (best_path a) obj) (log s') /\
                 obj !! "epoch" = Some (PInt 1) /\
                 obj !! "best_prec1" = Some (PNum m0)) /\
    ((m0 <= 0)%Q ->
     forall p obj, In (TorchSave p obj) (log s') ->
       exists k, obj !! "epoch" = Some (PInt k) /\ (2 <= k)%Z).
Proof.
  intros Hres Hstart Heval Hep Hse.
  assert (Hmain : exists lg,
            main (initial_state a files)
            = train_loop (py_range 0 (epochs a)) (entry_state a files lg) /\
            test_accuracies lg = [] /\
            (forall p obj, ~ In (TorchSave p obj) lg)).
  { destruct Hres as [Hnone|(p & Hp & Hmiss)].
    - exists []. split; [apply main_without_resume; assumption|].
      split; [reflexivity|]. intros p obj [].
    - eexists. split; [apply (main_resume_missing a files p); assumption|].
      split; [reflexivity|]. intros q obj [Hq|[]]. discriminate Hq. }
  destruct Hmain as (lg & Hmain & Hlg1 & Hlg2).
  destruct (loop_runs (py_range 0 (epochs a)) (entry_state a files lg)
              (mkSched [100; 150]%Z (1 # 10) [lr a] 0) eq_refl Hse)
    as (tr & s' & Hrun).
  destruct (loop_run_train_loop _ _ _ _ Hrun) as (Hloop & Hlog).
  rewrite py_range_cons in Hrun by lia.
  inversion Hrun as [|s0 e0 s1 es tr' s2 Hepoch Hrest]; subst.
  set (s0 := entry_state a files lg) in *.
  set (m0 := epoch_metric s0 0).
  assert (Hlater : forall p obj, In (TorchSave p obj) tr' ->
            exists k, obj !! "epoch" = Some (PInt k) /\ (2 <= k)%Z).
  { intros p obj Hin.
    destruct (loop_run_saves_epoch _ _ _ _ Hrest p obj Hin) as (e & He & Hobj).
    apply py_range_In in He. exists (e + 1)%Z. split; [exact Hobj | lia]. }
  assert (Hfirst : forall p obj, In (TorchSave p obj) (epoch_events s0 0) ->
            p = best_path a /\ Qltb 0 m0 = true /\
            obj = checkpoint_dict 1 (trained s0 0) (py_max2 m0 0)).
  { intros p obj Hin.
    destruct (epoch_events_saves s0 0 p obj Hin) as [-> [[-> Hb]|[_ Hp]]].
    - auto.
    - discriminate Hp. }
  assert (Hsaves : forall p obj, In (TorchSave p obj) (log s') ->
            In (TorchSave p obj) (epoch_events s0 0) \/ In (TorchSave p obj) tr').
  { intros p obj Hin. rewrite Hlog in Hin. cbn [log s0 entry_state] in Hin.
    apply List.in_app_or in Hin as [Hin|Hin]; [destruct (Hlg2 _ _ Hin)|].
    apply List.in_app_or in Hin. exact Hin. }
  exists s', m0, (test_accuracies tr').
  split; [rewrite Hmain; exact Hloop|].
  split.
  { rewrite Hlog. cbn [log s0 entry_state]. unfold test_accuracies at 1.
    rewrite !omap_app.
    fold (test_accuracies lg). fold (test_accuracies (epoch_events s0 0)).
    fold (test_accuracies tr').
    rewrite Hlg1, test_accuracies_epoch. reflexivity. }
  assert (Hpos : (0 < m0)%Q ->
            exists obj, In (TorchSave (best_path a) obj) (log s') /\
                        obj !! "epoch" = Some (PInt 1) /\
                        obj !! "best_prec1" = Some (PNum m0)).
  { intros Hm. apply Qltb_lt in Hm.
    exists (checkpoint_dict 1 (trained s0 0) m0).
    split; [|split; [apply checkpoint_dict_epoch | apply checkpoint_dict_best_prec1]].
    rewrite Hlog. apply List.in_or_app. right. apply List.in_or_app. left.
    unfold epoch_events. fold m0. cbn [best_prec1 s0 entry_state args].
    rewrite Hm, (py_max2_improved _ _ Hm).
    right. right. left. reflexivity. }
  split; [|split; [exact Hpos|]].
  - split.
    + intros (obj & Hin & Hobj).
      destruct (Hsaves _ _ Hin) as [H0|H1].
      * destruct (Hfirst _ _ H0) as (_ & Hb & _). apply Qltb_lt. exact Hb.
      * destruct (Hlater _ _ H1) as (k & Hk & Hk2). rewrite Hobj in Hk.
        injection Hk as <-. lia.
    + intros Hm. destruct (Hpos Hm) as (obj & Hin & Hobj & _). eauto.
  - intros Hm p obj Hin.
    destruct (Hsaves _ _ Hin) as [H0|H1]; [|exact (Hlater _ _ H1)].
    destruct (Hfirst _ _ H0) as (_ & Hb & _). apply Qltb_lt in Hb. lra.
Qed.

End ControllerProperties.

(** ** Concrete runs *)

Lemma best_checkpoint_on_strict_improvement_witness :
  lr_scheduler (@entry_state (replay [70; 68; 71; 71; 72]%Q) (example_args 5 10) ∅ [])
    = Some (mkSched [100; 150]%Z (1 # 10) [1 # 10] 0) /\
  save_every (args (@entry_state (replay [70; 68; 71; 71; 72]%Q)
                                 (example_args 5 10) ∅ [])) <> 0%Z /\
  exists s' tr,
    @train_loop (replay [70; 68; 71; 71; 72]%Q) (py_range 0 5)
                (entry_state (example_args 5 10) ∅ []) = (s', Ok tt) /\
    log s' = tr /\
    List.map fst (test_accuracies tr) = py_range 0 5 /\
    List.map numeric_fields (saves_at (best_path (example_args 5 10)) tr)
    = List.map (fun em => (Some (PInt (fst em + 1)), Some (PNum (snd em))))
               (strict_improvements 0 (test_accuracies tr)).
Proof.
  split; [reflexivity|]. split; [discriminate|].
  destruct (@best_checkpoint_on_strict_improvement
              (replay [70; 68; 71; 71; 72]%Q)
              (entry_state (example_args 5 10) ∅ [])
              (mkSched [100; 150]%Z (1 # 10) [1 # 10] 0)
              (py_range 0 5) eq_refl ltac:(discriminate))
    as (_ & s' & tr & Hloop & Hlog & Hes & Hsaves & _).
  exists s', tr. auto.
Defined.

(** The sequence of the specification: metrics 70, 68, 71, 71, 72 write the
    best checkpoint after the epochs 0, 2 and 4, holding 70, 71 and 72; the
    second 71 writes nothing. *)
Example best_checkpoint_sequence :
  List.map numeric_fields
    (saves_at (best_path (example_args 5 10))
       (log (fst (@main (replay [70; 68; 71; 71; 72]%Q)
                        (initial_state (example_args 5 10) ∅)))))
  = [(Some (PInt 1), Some (PNum 70)); (Some (PInt 3), Some (PNum 71));
     (Some (PInt 5), Some (PNum 72))].
Proof. vm_compute. reflexivity. Qed.

Lemma periodic_checkpoint_timing_witness :
  lr_scheduler (@entry_state (replay []) (example_args 25 10) ∅ [])
    = Some (mkSched [100; 150]%Z (1 # 10) [1 # 10] 0) /\
  save_every (args (@entry_state (replay []) (example_args 25 10) ∅ [])) <> 0%Z /\
  exists s' tr,
    @train_loop (replay []) (py_range 0 25)
                (entry_state (example_args 25 10) ∅ []) = (s', Ok tt) /\
    log s' = tr /\
    saves_elsewhere (best_path (example_args 25 10)) tr
    = ["save_temp/checkpoint_10.th"; "save_temp/checkpoint_20.th"].
Proof.
  split; [reflexivity|]. split; [discriminate|].
  destruct (@periodic_checkpoint_timing (replay [])
              (entry_state (example_args 25 10) ∅ [])
              (mkSched [100; 150]%Z (1 # 10) [1 # 10] 0)
              (py_range 0 25) eq_refl ltac:(discriminate))
    as ((s' & tr & Hloop & Hlog & Hsaves) & _).
  exists s', tr. split; [exact Hloop|]. split; [exact Hlog|].
  etransitivity; [exact Hsaves|]. vm_compute. reflexivity.
Defined.

Lemma checkpoint_resume_point_unusable_witness :
  exists s' obj r,
    @epoch_body (replay [70]%Q) 0 (entry_state (example_args 25 10) ∅ []) = (s', Ok tt) /\
    In (TorchSave "save_temp/best_checkpoint.th" obj) (log s') /\
    obj !! "epoch" = Some (PInt 1) /\
    fs s' !! "save_temp/best_checkpoint.th" = Some (File (Pickled obj)) /\
    main (initial_state (resume_args "save_temp/best_checkpoint.th" 200) (fs s'))
      = (r, Raise (KeyError "initial_lr")) /\
    start_epoch (args r) = 1%Z /\
    best_prec1 r = best_prec1 s' /\
    learning_rates (log r) = [].
Proof.
  assert (H1 : lr_scheduler (@entry_state (replay [70]%Q) (example_args 25 10) ∅ [])
               = Some (mkSched [100; 150]%Z (1 # 10) [1 # 10] 0))
    by reflexivity.
  assert (H2 : (save_every (args (@entry_state (replay [70]%Q)
                                               (example_args 25 10) ∅ [])) <> 0
                \/ 0 <= 0)%Z)
    by (left; discriminate).
  assert (H3 : (0 <= 0)%Z) by lia.
  destruct (@checkpoint_resume_point_unusable (replay [70]%Q)
              (entry_state (example_args 25 10) ∅ [])
              (mkSched [100; 150]%Z (1 # 10) [1 # 10] 0) 0%Z H1 H2 H3)
    as (s' & evs & Hbody & Hlog & Hall).
  assert (Hs' : s' = fst (@epoch_body (replay [70]%Q) 0
                            (entry_state (example_args 25 10) ∅ [])))
    by (rewrite Hbody; reflexivity).
  assert (Hin : In (TorchSave "save_temp/best_checkpoint.th"
                      (@checkpoint_dict (replay [70]%Q) 1 1%nat 70))
                   (log s')).
  { rewrite Hs'. vm_compute. right. right. left. reflexivity. }
  assert (Hin' : In (TorchSave "save_temp/best_checkpoint.th"
                       (@checkpoint_dict (replay [70]%Q) 1 1%nat 70)) evs).
  { rewrite Hlog in Hin. exact Hin. }
  destruct (Hall _ _ Hin') as (_ & He & _ & _ & Hf & Hresume).
  destruct (Hresume (resume_args "save_temp/best_checkpoint.th" 200)
              eq_refl eq_refl)
    as (r & Hmain & Hstart & Hbest & _ & Hlrs & _).
  exists s', (@checkpoint_dict (replay [70]%Q) 1 1%nat 70), r.
  split; [exact Hbody|]. split; [exact Hin|]. split; [exact He|].
  split; [exact Hf|]. split; [exact Hmain|]. split; [exact Hstart|].
  split; [exact Hbest | exact Hlrs].
Defined.

Lemma first_best_checkpoint_iff_positive_witness :
  exists s' m0 rest,
    @main (replay [0; 5; 3]%Q) (initial_state (example_args 3 10) ∅) = (s', Ok tt) /\
    test_accuracies (log s') = (0%Z, m0) :: rest /\
    ((exists obj, In (TorchSave (best_path (example_args 3 10)) obj) (log s') /\
                  obj !! "epoch" = Some (PInt 1))
     <-> (0 < m0)%Q).
Proof.
  destruct (@first_best_checkpoint_iff_positive (replay [0; 5; 3]%Q)
              (example_args 3 10) ∅)
    as (s' & m0 & rest & Hmain & Hacc & Hiff & _).
  - left. reflexivity.
  - reflexivity.
  - reflexivity.
  - reflexivity.
  - discriminate.
  - exists s', m0, rest. auto.
Defined.

(** C9, as stated, fails: a fresh run whose first validation metric is 0.0
    completes its first epoch without saving a best checkpoint (or any
    checkpoint). *)
Lemma first_metric_zero_writes_nothing :
  snd (@main (replay [0]%Q) (initial_state (example_args 1 10) ∅)) = Ok tt /\
  test_accuracies
    (log (fst (@main (replay [0]%Q) (initial_state (example_args 1 10) ∅))))
  = [(0%Z, 0%Q)] /\
  all_saves
    (log (fst (@main (replay [0]%Q) (initial_state (example_args 1 10) ∅))))
  = [].
Proof. vm_compute. repeat split; reflexivity. Qed.


(** * Part III: further properties of the code *)

(** ** accuracy: when it returns *)

Lemma py_max_Forall topk maxk n :
  py_max topk = Ok maxk -> (maxk <= n)%nat ->
  List.Forall (fun k => (k <= n)%nat) topk.
Proof.
  intros Hmax Hn. apply List.Forall_forall. intros k Hk.
  pose proof (py_max_ge _ _ Hmax k Hk). lia.
Qed.

Lemma mapM_result_ok_inv {A B} (f : A -> result B) (l : list A) (res : list B) :
  mapM f l = Ok res -> forall x, In x l -> exists y, f x = Ok y.
Proof.
  revert res. induction l as [|x l IH]; intros res Hres z Hz; [destruct Hz|].
  cbn in Hres. destruct (f x) as [y|e] eqn:Hx; [|discriminate Hres].
  cbn in Hres. destruct (mapM f l) as [ys|e] eqn:Hl; [|discriminate Hres].
  destruct Hz as [<-|Hz]; [eauto|]. exact (IH ys eq_refl z Hz).
Qed.

(** X3.  [accuracy] returns a list exactly when [topk] is not empty, no
    requested [k] exceeds the number of classes, the target has one entry per
    row of the output (or is a single entry, which [expand_as] stretches) and
    is not empty, and no [k >= 2] is requested on an output of two rows or
    more (where [view] refuses the slice); in every other case it raises. *)
Theorem accuracy_returns_iff (output : Tensor2) (target : list Z) (topk : list nat) :
  (exists res, accuracy output target topk = Ok res) <->
  topk <> [] /\
  List.Forall (fun k => (k <= ncols output)%nat) topk /\
  (length target = nrows output \/ length target = 1%nat) /\
  target <> [] /\
  List.Forall (fun k => (k <= 1 \/ nrows output <= 1)%nat) topk.
Proof.
  split.
  - intros [res Hres]. unfold accuracy in Hres.
    destruct (py_max topk) as [maxk|e] eqn:Hmax; [|discriminate Hres].
    cbn [mbind result_bind] in Hres. unfold tensor_topk in Hres.
    destruct (Nat.leb_spec maxk (ncols output)) as [Hle|]; [|discriminate Hres].
    cbn [mbind result_bind] in Hres.
    assert (Htopk : topk <> []) by (intros ->; discriminate Hmax).
    split; [exact Htopk|]. split; [eapply py_max_Forall; eassumption|].
    unfold expand_as in Hres.
    assert (Hshape : length target = nrows output \/ length target = 1%nat).
    { destruct (Nat.eqb_spec (length target) (nrows output)); [left; assumption|].
      destruct (Nat.eqb_spec (length target) 1); [right; assumption|].
      discriminate Hres. }
    split; [exact Hshape|].
    destruct (expand_as_cases maxk (nrows output) target Hshape) as [expanded Hexp].
    unfold expand_as in Hexp. rewrite Hexp in Hres. cbn [mbind result_bind] in Hres.
    pose proof (mapM_result_ok_inv _ _ _ Hres) as Hall.
    split.
    + intros ->. destruct topk as [|k topk]; [congruence|].
      destruct (Hall k (or_introl eq_refl)) as [y Hy].
      destruct (view_flat k (nrows output) _); [|discriminate Hy].
      cbn in Hy. discriminate Hy.
    + apply List.Forall_forall. intros k Hk.
      destruct (Hall k Hk) as [y Hy].
      destruct (Nat.le_gt_cases 2 k) as [Hk2|Hk2]; [|left; lia].
      destruct (Nat.le_gt_cases 2 (nrows output)) as [Hb2|Hb2]; [|right; lia].
      rewrite view_flat_refused in Hy by assumption. discriminate Hy.
  - intros (Htopk & Hall & Hshape & Hne & Hview).
    destruct (py_max_bounded topk (ncols output) Htopk Hall) as (maxk & Hmax & Hle).
    unfold accuracy. rewrite Hmax. cbn [mbind result_bind].
    unfold tensor_topk. destruct (Nat.leb_spec maxk (ncols output)); [|lia].
    cbn [mbind result_bind].
    destruct (expand_as_cases maxk (nrows output) target Hshape) as [expanded ->].
    cbn [mbind result_bind].
    rewrite List.Forall_forall in Hview.
    eexists. apply mapM_result_ok. intros k Hk.
    rewrite (view_flat_ok _ _ _ (Hview k Hk)).
    rewrite py_float_div_ok by (destruct target; [congruence | cbn; lia]).
    reflexivity.
Qed.

(** X23.  Asked for some [k >= 2] on a batch of two rows or more (one
    target per row, rows of at least [max(topk)] classes), [accuracy] does
    not return: [correct[:k].view(-1)] at line 339 is refused with
    [RuntimeError], whatever else is requested, although the function is
    written for several values of [k] ("for the specified values of k").
    So it is for the scores [[0.1, 0.9], [0.8, 0.2]] with [topk=(1, 2)]. *)
Theorem accuracy_raises_for_k_above_1 (output : Tensor2) (target : list Z)
    (topk : list nat) :
  well_shaped output = true ->
  length target = nrows output ->
  (2 <= nrows output)%nat ->
  topk <> [] ->
  List.Forall (fun k => (k <= ncols output)%nat) topk ->
  List.Exists (fun k => (2 <= k)%nat) topk ->
  accuracy output target topk
  = Raise (RuntimeError "view size is not compatible with input tensor's size and stride").
Proof.
  intros _ Hlen Hrows Htopk Hcols Hex.
  destruct (py_max_bounded topk _ Htopk Hcols) as (maxk & Hmax & Hle).
  apply (accuracy_view_refused output target topk maxk); auto.
Qed.

Lemma accuracy_raises_for_k_above_1_witness :
  accuracy (mkTensor2 2 [[1 # 10; 9 # 10]; [8 # 10; 2 # 10]]%Q) [1; 0]%Z [1%nat; 2%nat]
  = Raise (RuntimeError "view size is not compatible with input tensor's size and stride").
Proof.
  apply (accuracy_raises_for_k_above_1
           (mkTensor2 2 [[1 # 10; 9 # 10]; [8 # 10; 2 # 10]]%Q) [1; 0]%Z [1%nat; 2%nat]).
  - reflexivity.
  - reflexivity.
  - cbn. lia.
  - discriminate.
  - repeat constructor.
  - right. left. cbn. lia.
Defined.

(** ** accuracy: which class counts as a hit *)

Lemma topk_indices_one row :
  row <> [] -> exists i, topk_indices 1 row = [i].
Proof.
  intros Hne. pose proof (topk_indices_length 1 row) as Hlen.
  destruct row as [|q row]; [congruence|]. cbn [length] in Hlen.
  destruct (topk_indices 1 (q :: row)) as [|i [|i' l]]; cbn in Hlen; try lia.
  exists i. reflexivity.
Qed.

(** With [k = 1], being counted and carrying a greatest score of the row. *)
Lemma top1_hit_is_row_maximum (row : list Q) (i : nat) :
  (i < length row)%nat ->
  (in_topk 1 row (Z.of_nat i) = true ->
   forall j, (j < length row)%nat -> (List.nth j row 0 <= List.nth i row 0)%Q) /\
  ((forall j, (j < length row)%nat -> j <> i ->
              (List.nth j row 0 < List.nth i row 0)%Q) ->
   in_topk 1 row (Z.of_nat i) = true).
Proof.
  intros Hi.
  assert (Hne : row <> []) by (intros ->; cbn in Hi; lia).
  destruct (topk_indices_one row Hne) as [i0 Hi0].
  split.
  - unfold in_topk. rewrite Hi0. cbn [existsb]. rewrite orb_false_r.
    intros Heq%Z.eqb_eq%Nat2Z.inj. subst i0. intros j Hj.
    destruct (Nat.eq_dec j i) as [->|Hji]; [apply Qle_refl|].
    apply (topk_indices_highest 1 row i j); [rewrite Hi0; left; reflexivity | exact Hj|].
    rewrite Hi0. intros [E|[]]. congruence.
  - intros Hstrict. unfold in_topk. rewrite Hi0. cbn [existsb]. rewrite orb_false_r.
    apply Z.eqb_eq. f_equal.
    destruct (Nat.eq_dec i0 i) as [E|Hne0]; [exact E|]. exfalso.
    assert (Hi0r : (i0 < length row)%nat).
    { apply (topk_indices_range 1 row). rewrite Hi0. left. reflexivity. }
    assert (Hle : (List.nth i row 0 <= List.nth i0 row 0)%Q).
    { apply (topk_indices_highest 1 row i0 i);
        [rewrite Hi0; left; reflexivity | exact Hi|].
      rewrite Hi0. intros [E|[]]. congruence. }
    pose proof (Hstrict i0 Hi0r Hne0) as Hlt. lra.
Qed.

Lemma fl32_percent_of_one :
  fl32 (inject_Z (Z.of_nat 1) * fl32 (fl64 (100 / inject_Z (Z.of_nat 1)))) = 100%Q /\
  fl32 (inject_Z (Z.of_nat 0) * fl32 (fl64 (100 / inject_Z (Z.of_nat 1)))) = 0%Q /\
  fl32 (fl64 (100 / inject_Z (Z.of_nat 1))) = 100%Q.
Proof. vm_compute. repeat split; reflexivity. Qed.

(** X5.  On a batch of one row, [accuracy] with the default [topk=(1,)]
    returns 100 or 0; it returns 100 only if no class of the row has a score
    above the target's, and it does return 100 when the target's score is
    strictly above every other, however equal scores are ordered. *)
Theorem accuracy_top1_is_row_maximum (row : list Q) (i : nat) :
  (i < length row)%nat ->
  exists v,
    accuracy (mkTensor2 (length row) [row]) [Z.of_nat i] [1%nat] = Ok [v] /\
    ((v == 100)%Q \/ (v == 0)%Q) /\
    ((v == 100)%Q ->
     forall j, (j < length row)%nat -> (List.nth j row 0 <= List.nth i row 0)%Q) /\
    ((forall j, (j < length row)%nat -> j <> i ->
                (List.nth j row 0 < List.nth i row 0)%Q) ->
     (v == 100)%Q).
Proof.
  intros Hi.
  destruct (top1_hit_is_row_maximum row i Hi) as [Hmax Hstrict].
  destruct fl32_percent_of_one as (Hone & Hzero & _).
  eexists. split.
  { apply (accuracy_value (mkTensor2 (length row) [row]) [Z.of_nat i] [1%nat] 1%nat).
    - cbn. rewrite Nat.eqb_refl. reflexivity.
    - reflexivity.
    - discriminate.
    - reflexivity.
    - cbn. lia.
    - repeat constructor. }
  unfold correct_within. cbn [rows List.combine List.filter fst snd length].
  destruct (in_topk 1 row (Z.of_nat i)) eqn:Hin; cbn [length].
  - rewrite Hone.
    split; [left; reflexivity|]. split; [intros _; apply Hmax; reflexivity|].
    intros _. reflexivity.
  - rewrite Hzero.
    split; [right; reflexivity|]. split.
    + intros H. exfalso. revert H. unfold Qeq. cbn. lia.
    + intros H. discriminate (Hstrict H).
Qed.

Lemma accuracy_top1_is_row_maximum_witness :
  exists v,
    accuracy (mkTensor2 (length [1 # 10; 7 # 10; 2 # 10]%Q) [[1 # 10; 7 # 10; 2 # 10]%Q])
             [Z.of_nat 1] [1%nat] = Ok [v] /\
    ((v == 100)%Q \/ (v == 0)%Q) /\
    ((v == 100)%Q ->
     forall j, (j < length [1 # 10; 7 # 10; 2 # 10]%Q)%nat ->
       (List.nth j [1 # 10; 7 # 10; 2 # 10] 0 <= List.nth 1 [1 # 10; 7 # 10; 2 # 10] 0)%Q) /\
    ((forall j, (j < length [1 # 10; 7 # 10; 2 # 10]%Q)%nat -> j <> 1%nat ->
       (List.nth j [1 # 10; 7 # 10; 2 # 10] 0 < List.nth 1 [1 # 10; 7 # 10; 2 # 10] 0)%Q) ->
     (v == 100)%Q).
Proof.
  apply (accuracy_top1_is_row_maximum [1 # 10; 7 # 10; 2 # 10]%Q 1). cbn. lia.
Defined.

Lemma in_topk_out_of_range k row t :
  (t < 0 \/ Z.of_nat (length row) <= t)%Z -> in_topk k row t = false.
Proof.
  intros Ht. unfold in_topk. apply not_true_is_false.
  rewrite List.existsb_exists. intros (i & Hi & Heq%Z.eqb_eq).
  apply topk_indices_range in Hi. lia.
Qed.

Lemma well_shaped_row output row :
  well_shaped output = true -> In row (rows output) -> length row = ncols output.
Proof.
  unfold well_shaped. rewrite List.forallb_forall. intros Hws Hin.
  apply Nat.eqb_eq, Hws, Hin.
Qed.

Lemma filter_none {A} (f : A -> bool) (l : list A) :
  (forall x, In x l -> f x = false) -> List.filter f l = [].
Proof.
  induction l as [|x l IH]; intros Hf; cbn; [reflexivity|].
  rewrite (Hf x (or_introl eq_refl)). apply IH. intros y Hy. apply Hf. right. exact Hy.
Qed.

(** X6.  A target that names no class of the output (negative, or not
    below the number of classes) is compared like any other and is never a
    hit: where [accuracy] returns (each [k <= 1], or a single row) and every
    target is out of range, each returned value is 0 and nothing is
    raised. *)
Theorem accuracy_targets_out_of_range (output : Tensor2) (target : list Z) (topk : list nat) :
  well_shaped output = true ->
  length target = nrows output ->
  target <> [] ->
  topk <> [] ->
  List.Forall (fun k => (k <= ncols output)%nat) topk ->
  List.Forall (fun k => (k <= 1 \/ nrows output <= 1)%nat) topk ->
  List.Forall (fun t => (t < 0 \/ Z.of_nat (ncols output) <= t)%Z) target ->
  exists res,
    accuracy output target topk = Ok res /\
    length res = length topk /\
    List.Forall (fun v => (v == 0)%Q) res.
Proof.
  intros Hws Hlen Hne Htopk Hall Hview Hout.
  destruct (py_max_bounded topk (ncols output) Htopk Hall) as (maxk & Hmax & Hle).
  eexists. split; [apply (accuracy_value output target topk maxk); assumption|].
  split; [apply List.length_map|].
  apply List.Forall_forall. intros v (k & <- & _)%List.in_map_iff.
  assert (Hzero : correct_within k output target = 0%nat).
  { unfold correct_within. rewrite filter_none; [reflexivity|].
    intros [row t] Hin. cbn.
    pose proof (List.in_combine_l _ _ _ _ Hin) as Hrow.
    pose proof (List.in_combine_r _ _ _ _ Hin) as Ht.
    apply in_topk_out_of_range.
    rewrite (well_shaped_row output row Hws Hrow).
    rewrite List.Forall_forall in Hout. exact (Hout t Ht). }
  rewrite Hzero. unfold fl32 at 1. rewrite fl_of_zero; [reflexivity|].
  cbn. apply Qmult_0_l.
Qed.

Lemma accuracy_targets_out_of_range_witness :
  exists res,
    accuracy (mkTensor2 2 [[1 # 10; 9 # 10]; [8 # 10; 2 # 10]]%Q)
             [2; -1]%Z [1%nat] = Ok res /\
    length res = 1%nat /\
    List.Forall (fun v => (v == 0)%Q) res.
Proof.
  apply (accuracy_targets_out_of_range
           (mkTensor2 2 [[1 # 10; 9 # 10]; [8 # 10; 2 # 10]]%Q)
           [2; -1]%Z [1%nat]).
  - reflexivity.
  - reflexivity.
  - discriminate.
  - discriminate.
  - repeat constructor.
  - repeat constructor.
  - repeat constructor; cbn; lia.
Defined.

(** X8.  A target of a single entry is not refused when the output has
    several rows: [expand_as] repeats it for every row while [batch_size] is
    1, so with the default [topk=(1,)] (or any [k <= 1]) the returned value
    is the float32 of 100 times the number of rows that have the entry among
    their [k] best, and exceeds 100 as soon as two rows do. *)
Theorem accuracy_single_target_broadcast (output : Tensor2) (t : Z) (topk : list nat) :
  well_shaped output = true ->
  (Z.of_nat (nrows output) < 2 ^ 24)%Z ->
  topk <> [] ->
  List.Forall (fun k => (k <= ncols output)%nat) topk ->
  List.Forall (fun k => (k <= 1 \/ nrows output <= 1)%nat) topk ->
  accuracy output [t] topk
  = Ok (List.map
          (fun k => fl32 (inject_Z (Z.of_nat
                            (correct_within k output (List.repeat t (nrows output))))
                          * 100))
          topk).
Proof.
  intros Hws _ Htopk Hall Hview.
  destruct (py_max_bounded topk (ncols output) Htopk Hall) as (maxk & Hmax & Hle).
  destruct fl32_percent_of_one as (_ & _ & Hhundred).
  assert (Hexp : expand_as maxk (nrows output) [t]
                 = Ok (List.repeat (List.repeat t (nrows output)) maxk)).
  { unfold expand_as. cbn [length].
    destruct (Nat.eqb_spec 1 (nrows output)) as [<-|_]; reflexivity. }
  unfold accuracy. rewrite Hmax. cbn [mbind result_bind].
  unfold tensor_topk. destruct (Nat.leb_spec maxk (ncols output)); [|lia].
  cbn [mbind result_bind]. rewrite Hexp. cbn [mbind result_bind].
  apply mapM_result_ok. intros k Hk.
  pose proof (py_max_ge _ _ Hmax k Hk) as Hkmax.
  rewrite List.Forall_forall in Hview.
  rewrite (view_flat_ok _ _ _ (Hview k Hk)).
  change (py_float_div 100 (Z.of_nat (length [t])))
    with (Ok (fl64 (100 / inject_Z (Z.of_nat 1)))).
  cbn [mbind result_bind mret result_ret]. rewrite Hhundred. do 3 f_equal.
  unfold float_sum. do 2 f_equal.
  rewrite (correct_rows maxk k (rows output) (List.repeat t (nrows output)) Hkmax),
    float_sum_rows.
  symmetry. apply correct_within_sum; assumption.
Qed.

Lemma accuracy_single_target_broadcast_witness :
  accuracy (mkTensor2 2 [[9 # 10; 1 # 10]; [8 # 10; 2 # 10]; [7 # 10; 3 # 10]]%Q)
           [0%Z] [1%nat]
  = Ok (List.map
          (fun k => fl32 (inject_Z (Z.of_nat
             (correct_within k
                (mkTensor2 2 [[9 # 10; 1 # 10]; [8 # 10; 2 # 10]; [7 # 10; 3 # 10]]%Q)
                (List.repeat 0%Z
                   (nrows (mkTensor2 2 [[9 # 10; 1 # 10]; [8 # 10; 2 # 10];
                                        [7 # 10; 3 # 10]]%Q)))))
             * 100))
          [1%nat]).
Proof.
  apply (accuracy_single_target_broadcast
           (mkTensor2 2 [[9 # 10; 1 # 10]; [8 # 10; 2 # 10]; [7 # 10; 3 # 10]]%Q)
           0%Z [1%nat]).
  - reflexivity.
  - cbn. lia.
  - discriminate.
  - repeat constructor.
  - repeat constructor.
Defined.

(** The value of that run: three rows rank class 0 first, the result is 300. *)
Example accuracy_single_target_exceeds_100 :
  accuracy (mkTensor2 2 [[9 # 10; 1 # 10]; [8 # 10; 2 # 10]; [7 # 10; 3 # 10]]%Q)
           [0%Z] [1%nat] = Ok [300%Q].
Proof. vm_compute. reflexivity. Qed.

(** ** The epoch runners *)

Section EpochProperties.
Context `{N : Epoch.Net}.

Lemma prec_at_1_value (output : Tensor2) (target : list Z) :
  well_shaped output = true ->
  nrows output = length target ->
  target <> [] ->
  (1 <= ncols output)%nat ->
  Epoch.prec_at_1 output target
  = Ok (fl32 (inject_Z (Z.of_nat (correct_within 1 output target))
              * fl32 (fl64 (100 / inject_Z (Z.of_nat (length target)))))).
Proof.
  intros Hws Hrows Hne Hcols. unfold Epoch.prec_at_1.
  rewrite (accuracy_value output target [1%nat] 1%nat Hws (eq_sym Hrows) Hne eq_refl Hcols)
    by (repeat constructor).
  reflexivity.
Qed.

(** One iteration of [validate] on a sound batch. *)
Lemma validate_batch_run (pf : Z) (n i : nat) (b : Epoch.images * list Z)
    (s : Epoch.Runner) :
  pf <> 0%Z ->
  Epoch.sound_batch (Epoch.eval_forward (Epoch.net s)) b ->
  (0 <= count (Epoch.losses s))%Z ->
  (0 <= count (Epoch.top1 s))%Z ->
  exists s',
    Epoch.validate_batch pf n (i, b) s = (s', Ok tt) /\
    Epoch.net s' = Epoch.net s /\ Epoch.opt s' = Epoch.opt s /\
    count (Epoch.losses s') = (count (Epoch.losses s) + Z.of_nat (length (snd b)))%Z /\
    count (Epoch.top1 s') = (count (Epoch.top1 s) + Z.of_nat (length (snd b)))%Z /\
    Epoch.out s' =
      Epoch.out s ++
      (if (Z.of_nat i mod pf =? 0)%Z
       then [Epoch.TestLine i n (val (Epoch.losses s')) (avg (Epoch.losses s'))
                                (val (Epoch.top1 s')) (avg (Epoch.top1 s'))]
       else []).
Proof.
  intros Hpf (Hws & Hrows & Hne & Hcols & Hsize & loss & Hloss) Hcl Hct.
  assert (Hlen : (0 < length (snd b))%nat)
    by (destruct (snd b); [congruence | cbn; lia]).
  unfold Epoch.validate_batch. cbn [fst snd].
  unfold mbind at 1, M_bind at 1, get at 1. cbn [fst snd].
  unfold mbind at 1, M_bind at 1, lift at 1. cbn [fst snd]. rewrite Hloss.
  unfold mbind at 1, M_bind at 1, lift at 1. cbn [fst snd].
  rewrite (prec_at_1_value _ _ Hws Hrows Hne Hcols).
  unfold mbind at 1, M_bind at 1, Epoch.on_losses at 1. cbn [fst snd].
  rewrite Hsize.
  rewrite (update_ok (Epoch.losses s) loss (Z.of_nat (length (snd b))) ltac:(lia)).
  cbn [fst snd].
  unfold mbind at 1, M_bind at 1, Epoch.on_top1 at 1. cbn [fst snd Epoch.top1 Epoch.set_losses].
  rewrite (update_ok (Epoch.top1 s) _ (Z.of_nat (length (snd b))) ltac:(lia)).
  cbn [fst snd].
  unfold mbind at 1, M_bind at 1, lift at 1, py_mod. cbn [fst snd].
  destruct (Z.eqb_spec pf 0) as [|_]; [contradiction|].
  destruct (Z.of_nat i mod pf =? 0)%Z.
  - eexists. split; [reflexivity|]. cbn. repeat split; reflexivity.
  - eexists. split; [reflexivity|]. cbn. rewrite app_nil_r.
    repeat split; reflexivity.
Qed.

Lemma test_lines_app (l1 l2 : list Epoch.Report) :
  Epoch.test_lines (l1 ++ l2) = Epoch.test_lines l1 ++ Epoch.test_lines l2.
Proof. unfold Epoch.test_lines. apply omap_app. Qed.

Lemma total_examples_cons (b : Epoch.images * list Z) l :
  Epoch.total_examples (b :: l) = (length (snd b) + Epoch.total_examples l)%nat.
Proof. reflexivity. Qed.

(** The loop of [validate], from any meter state and over any numbering of
    the batches. *)
Lemma validate_loop_run (pf : Z) (n : nat) :
  forall (l : list (Epoch.images * list Z)) (idx : list nat) (s : Epoch.Runner),
  pf <> 0%Z ->
  length idx = length l ->
  List.Forall (Epoch.sound_batch (Epoch.eval_forward (Epoch.net s))) l ->
  (0 <= count (Epoch.losses s))%Z ->
  (0 <= count (Epoch.top1 s))%Z ->
  exists s',
    for_each (List.combine idx l) (Epoch.validate_batch pf n) s = (s', Ok tt) /\
    Epoch.net s' = Epoch.net s /\ Epoch.opt s' = Epoch.opt s /\
    (0 <= count (Epoch.losses s'))%Z /\
    count (Epoch.top1 s')
      = (count (Epoch.top1 s) + Z.of_nat (Epoch.total_examples l))%Z /\
    (l = [] -> s' = s) /\
    Epoch.test_lines (Epoch.out s')
      = Epoch.test_lines (Epoch.out s)
        ++ List.filter (fun i => (Z.of_nat i mod pf =? 0)%Z) idx.
Proof.
  induction l as [|b l IH]; intros idx s Hpf Hidx Hall Hcl Hct.
  - destruct idx; [|discriminate Hidx]. exists s. cbn.
    rewrite app_nil_r, Z.add_0_r.
    repeat split; try reflexivity; assumption.
  - destruct idx as [|i idx]; [discriminate Hidx|]. injection Hidx as Hidx.
    apply List.Forall_cons_iff in Hall as [Hb Hall].
    destruct (validate_batch_run pf n i b s Hpf Hb Hcl Hct)
      as (s1 & Hrun1 & Hnet1 & Hopt1 & Hcl1 & Hct1 & Hout1).
    destruct (IH idx s1 Hpf Hidx) as
      (s' & Hrun & Hnet & Hopt & Hcl' & Hct' & Hnil & Hlines);
      [rewrite Hnet1; exact Hall | lia | lia |].
    exists s'. cbn [List.combine for_each].
    unfold mbind at 1, M_bind at 1. rewrite Hrun1. cbn [fst snd].
    split; [exact Hrun|]. split; [congruence|]. split; [congruence|].
    split; [exact Hcl'|].
    rewrite total_examples_cons.
    split; [rewrite Hct', Hct1; lia|].
    split; [discriminate|].
    rewrite Hlines, Hout1, test_lines_app, <- app_assoc. f_equal.
    cbn [List.filter]. destruct (Z.of_nat i mod pf =? 0)%Z; reflexivity.
Qed.

(** [validate] on sound batches. *)
Lemma validate_run (pf : Z) (loader : list (Epoch.images * list Z))
    (epoch : option Z) (s : Epoch.Runner) :
  pf <> 0%Z ->
  List.Forall (Epoch.sound_batch (Epoch.eval_forward (Epoch.net s))) loader ->
  exists s',
    Epoch.validate pf loader epoch s = (s', Ok (avg (Epoch.top1 s'))) /\
    Epoch.net s' = Epoch.net s /\ Epoch.opt s' = Epoch.opt s /\
    count (Epoch.top1 s') = Z.of_nat (Epoch.total_examples loader) /\
    (loader = [] -> avg (Epoch.top1 s') = 0%Q) /\
    (exists pre,
       Epoch.out s' =
         Epoch.out s ++ pre ++
         [Epoch.PrecLine (avg (Epoch.top1 s'));
          Epoch.Scalar "test loss" (avg (Epoch.losses s')) epoch;
          Epoch.Scalar "test accuracy" (avg (Epoch.top1 s')) epoch]) /\
    Epoch.test_lines (Epoch.out s')
      = Epoch.test_lines (Epoch.out s) ++ Epoch.progress_indices pf (length loader).
Proof.
  intros Hpf Hall.
  set (s0 := Epoch.set_top1 AverageMeter_new (Epoch.set_losses AverageMeter_new s)).
  destruct (validate_loop_run pf (length loader) loader
              (List.seq 0 (length loader)) s0 Hpf (List.length_seq _ _))
    as (s1 & Hrun & Hnet & Hopt & _ & Hct & Hnil & Hlines);
    [exact Hall | cbn; lia | cbn; lia |].
  assert (Hpre : exists pre, Epoch.out s1 = Epoch.out s ++ pre).
  { clear - Hrun Hpf Hall. subst s0.
    change (Epoch.out s) with
      (Epoch.out (Epoch.set_top1 AverageMeter_new (Epoch.set_losses AverageMeter_new s))).
    assert (Hc1 : (0 <= count (Epoch.losses
              (Epoch.set_top1 AverageMeter_new (Epoch.set_losses AverageMeter_new s))))%Z)
      by (cbn; lia).
    assert (Hc2 : (0 <= count (Epoch.top1
              (Epoch.set_top1 AverageMeter_new (Epoch.set_losses AverageMeter_new s))))%Z)
      by (cbn; lia).
    change (Epoch.net s) with
      (Epoch.net (Epoch.set_top1 AverageMeter_new (Epoch.set_losses AverageMeter_new s)))
      in Hall.
    revert Hrun Hall Hc1 Hc2.
    generalize (Epoch.set_top1 AverageMeter_new (Epoch.set_losses AverageMeter_new s)).
    generalize (List.seq 0 (length loader)). generalize (length loader) at 1.
    induction loader as [|b l IH]; intros n idx r Hrun Hall Hc1 Hc2.
    - destruct idx; cbn in Hrun; injection Hrun as <-;
        exists []; rewrite app_nil_r; reflexivity.
    - destruct idx as [|i idx].
      { cbn in Hrun. injection Hrun as <-. exists []. rewrite app_nil_r. reflexivity. }
      apply List.Forall_cons_iff in Hall as [Hb Hall].
      destruct (validate_batch_run pf n i b r Hpf Hb Hc1 Hc2)
        as (r1 & Hrun1 & Hnet1 & _ & Hcl1 & Hct1 & Hout1).
      cbn [List.combine for_each] in Hrun.
      unfold mbind at 1, M_bind at 1 in Hrun. rewrite Hrun1 in Hrun. cbn [fst snd] in Hrun.
      destruct (IH n idx r1 Hrun) as [pre Hpre];
        [rewrite Hnet1; exact Hall | lia | lia |].
      eexists. rewrite Hpre, Hout1, <- app_assoc. reflexivity. }
  destruct Hpre as [pre Hpre].
  exists (Epoch.report (Epoch.Scalar "test accuracy" (avg (Epoch.top1 s1)) epoch)
            (Epoch.report (Epoch.Scalar "test loss" (avg (Epoch.losses s1)) epoch)
               (Epoch.report (Epoch.PrecLine (avg (Epoch.top1 s1))) s1))).
  split.
  { unfold Epoch.validate.
    unfold mbind at 1, M_bind at 1, modify at 1. cbn [fst snd].
    unfold mbind at 1, M_bind at 1, modify at 1. cbn [fst snd].
    unfold mbind at 1, M_bind at 1, Epoch.enumerate. fold s0. rewrite Hrun.
    cbn [fst snd]. reflexivity. }
  cbn. split; [exact Hnet|]. split; [exact Hopt|].
  split; [rewrite Hct; cbn; lia|].
  split; [intros E; rewrite (Hnil E); reflexivity|].
  split.
  { exists pre. rewrite Hpre, <- !app_assoc. reflexivity. }
  rewrite !test_lines_app, Hlines. cbn. rewrite !app_nil_r. reflexivity.
Qed.


(** X10.  [validate] prints its progress line for the batches whose index
    is a multiple of [print_freq], in order and starting with batch 0; the
    sign of [print_freq] plays no part. *)
Theorem validate_progress_lines (pf : Z) (loader : list (Epoch.images * list Z))
    (epoch : option Z) (s : Epoch.Runner) :
  pf <> 0%Z ->
  List.Forall (Epoch.sound_batch (Epoch.eval_forward (Epoch.net s))) loader ->
  exists s' v,
    Epoch.validate pf loader epoch s = (s', Ok v) /\
    Epoch.test_lines (Epoch.out s')
      = Epoch.test_lines (Epoch.out s) ++ Epoch.progress_indices pf (length loader) /\
    (forall i, In i (Epoch.progress_indices pf (length loader)) <->
               (i < length loader)%nat /\ exists q, Z.of_nat i = (q * Z.abs pf)%Z) /\
    (loader <> [] -> exists rest, Epoch.progress_indices pf (length loader) = 0%nat :: rest).
Proof.
  intros Hpf Hall.
  destruct (validate_run pf loader epoch s Hpf Hall)
    as (s' & Hrun & _ & _ & _ & _ & _ & Hlines).
  exists s', (avg (Epoch.top1 s')).
  split; [exact Hrun|]. split; [exact Hlines|]. split.
  - intros i. unfold Epoch.progress_indices.
    rewrite List.filter_In, List.in_seq, Z.eqb_eq. split.
    + intros [Hi Hmod]. split; [lia|].
      apply Z.mod_divide in Hmod; [|exact Hpf].
      apply Z.divide_abs_l in Hmod. destruct Hmod as [q Hq]. exists q. exact Hq.
    + intros [Hi [q Hq]]. split; [lia|].
      apply Z.mod_divide; [exact Hpf|]. apply Z.divide_abs_l. exists q. exact Hq.
  - intros Hne. destruct loader as [|b l]; [congruence|].
    unfold Epoch.progress_indices. cbn [length List.seq List.filter].
    change (Z.of_nat 0) with 0%Z. rewrite Z.mod_0_l by exact Hpf.
    cbn [Z.eqb]. eexists. reflexivity.
Qed.

(** X11.  With [print_freq = 0] the test [i % args.print_freq] of the
    first batch divides by zero: [validate] raises ZeroDivisionError after
    both meters took the batch, and nothing is printed or logged. *)
Theorem validate_print_freq_zero (b : Epoch.images * list Z)
    (loader : list (Epoch.images * list Z)) (epoch : option Z) (s : Epoch.Runner) :
  Epoch.sound_batch (Epoch.eval_forward (Epoch.net s)) b ->
  exists s',
    Epoch.validate 0 (b :: loader) epoch s = (s', Raise ZeroDivisionError) /\
    count (Epoch.top1 s') = Z.of_nat (length (snd b)) /\
    count (Epoch.losses s') = Z.of_nat (length (snd b)) /\
    Epoch.out s' = Epoch.out s.
Proof.
  intros (Hws & Hrows & Hne & Hcols & Hsize & loss & Hloss).
  assert (Hlen : (0 < length (snd b))%nat)
    by (destruct (snd b); [congruence | cbn; lia]).
  unfold Epoch.validate.
  unfold mbind at 1, M_bind at 1, modify at 1. cbn [fst snd].
  unfold mbind at 1, M_bind at 1, modify at 1. cbn [fst snd].
  unfold mbind at 1, M_bind at 1, Epoch.enumerate. cbn [length List.seq List.combine for_each].
  unfold mbind at 1, M_bind at 1.
  unfold Epoch.validate_batch at 1. cbn [fst snd].
  unfold mbind at 1, M_bind at 1, get at 1. cbn [fst snd Epoch.net Epoch.set_top1 Epoch.set_losses].
  unfold mbind at 1, M_bind at 1, lift at 1. cbn [fst snd]. rewrite Hloss.
  unfold mbind at 1, M_bind at 1, lift at 1. cbn [fst snd].
  rewrite (prec_at_1_value _ _ Hws Hrows Hne Hcols).
  unfold mbind at 1, M_bind at 1, Epoch.on_losses at 1.
  cbn [fst snd Epoch.losses Epoch.top1 Epoch.set_top1 Epoch.set_losses]. rewrite Hsize.
  rewrite (update_ok AverageMeter_new loss (Z.of_nat (length (snd b))) ltac:(cbn; lia)).
  cbn [fst snd].
  unfold mbind at 1, M_bind at 1, Epoch.on_top1 at 1.
  cbn [fst snd Epoch.top1 Epoch.set_losses].
  rewrite (update_ok AverageMeter_new _ (Z.of_nat (length (snd b))) ltac:(cbn; lia)).
  cbn [fst snd].
  unfold mbind at 1, M_bind at 1, lift at 1, py_mod. cbn [fst snd Z.eqb].
  eexists. split; [reflexivity|]. cbn. repeat split; reflexivity.
Qed.

(** One iteration of [train] on a sound batch. *)
Lemma train_batch_run (amp : bool) (pf epoch : Z) (n i : nat)
    (b : Epoch.images * list Z) (s : Epoch.Runner) :
  pf <> 0%Z ->
  Epoch.sound_batch (Epoch.train_forward amp (Epoch.net s)) b ->
  (0 <= count (Epoch.losses s))%Z ->
  (0 <= count (Epoch.top1 s))%Z ->
  exists s',
    Epoch.train_batch amp pf epoch n (i, b) s = (s', Ok tt) /\
    (Epoch.net s', Epoch.opt s')
      = Epoch.backward_step amp (Epoch.net s) (Epoch.opt s) (fst b) (snd b) /\
    (0 <= count (Epoch.losses s'))%Z /\
    (0 <= count (Epoch.top1 s'))%Z /\
    exists pre, Epoch.out s' = Epoch.out s ++ pre.
Proof.
  intros Hpf (Hws & Hrows & Hne & Hcols & Hsize & loss & Hloss) Hcl Hct.
  assert (Hlen : (0 < length (snd b))%nat)
    by (destruct (snd b); [congruence | cbn; lia]).
  unfold Epoch.train_batch. cbn [fst snd].
  unfold mbind at 1, M_bind at 1, get at 1. cbn [fst snd].
  unfold mbind at 1, M_bind at 1, lift at 1. cbn [fst snd]. rewrite Hloss.
  unfold mbind at 1, M_bind at 1, modify at 1. cbn [fst snd].
  unfold mbind at 1, M_bind at 1, lift at 1. cbn [fst snd].
  rewrite (prec_at_1_value _ _ Hws Hrows Hne Hcols).
  unfold mbind at 1, M_bind at 1, Epoch.on_losses at 1.
  cbn [fst snd Epoch.losses Epoch.top1 Epoch.set_net Epoch.set_opt]. rewrite Hsize.
  rewrite (update_ok (Epoch.losses s) loss (Z.of_nat (length (snd b))) ltac:(lia)).
  cbn [fst snd].
  unfold mbind at 1, M_bind at 1, Epoch.on_top1 at 1.
  cbn [fst snd Epoch.top1 Epoch.set_losses Epoch.set_net Epoch.set_opt].
  rewrite (update_ok (Epoch.top1 s) _ (Z.of_nat (length (snd b))) ltac:(lia)).
  cbn [fst snd].
  unfold mbind at 1, M_bind at 1, lift at 1, py_mod. cbn [fst snd].
  destruct (Z.eqb_spec pf 0) as [|_]; [contradiction|].
  destruct (Epoch.backward_step amp (Epoch.net s) (Epoch.opt s) (fst b) (snd b))
    as [w' o'] eqn:Hstep.
  destruct (Z.of_nat i mod pf =? 0)%Z.
  - eexists. split; [reflexivity|]. cbn.
    split; [reflexivity|]. split; [lia|]. split; [lia|]. eexists; reflexivity.
  - eexists. split; [reflexivity|]. cbn.
    split; [reflexivity|]. split; [lia|]. split; [lia|].
    exists []. rewrite app_nil_r. reflexivity.
Qed.

Lemma train_loop_run (amp : bool) (pf epoch : Z) (n : nat) :
  forall (l : list (Epoch.images * list Z)) (idx : list nat) (s : Epoch.Runner),
  pf <> 0%Z ->
  length idx = length l ->
  (forall w, List.Forall (Epoch.sound_batch (Epoch.train_forward amp w)) l) ->
  (0 <= count (Epoch.losses s))%Z ->
  (0 <= count (Epoch.top1 s))%Z ->
  exists s',
    for_each (List.combine idx l) (Epoch.train_batch amp pf epoch n) s = (s', Ok tt) /\
    (Epoch.net s', Epoch.opt s') = Epoch.steps amp l (Epoch.net s, Epoch.opt s) /\
    exists pre, Epoch.out s' = Epoch.out s ++ pre.
Proof.
  induction l as [|b l IH]; intros idx s Hpf Hidx Hall Hcl Hct.
  - destruct idx; [|discriminate Hidx]. exists s. cbn.
    repeat split. exists []. rewrite app_nil_r. reflexivity.
  - destruct idx as [|i idx]; [discriminate Hidx|]. injection Hidx as Hidx.
    assert (Hb : Epoch.sound_batch (Epoch.train_forward amp (Epoch.net s)) b).
    { specialize (Hall (Epoch.net s)). apply List.Forall_cons_iff in Hall. tauto. }
    assert (Hl : forall w, List.Forall (Epoch.sound_batch (Epoch.train_forward amp w)) l).
    { intros w. specialize (Hall w). apply List.Forall_cons_iff in Hall. tauto. }
    destruct (train_batch_run amp pf epoch n i b s Hpf Hb Hcl Hct)
      as (s1 & Hrun1 & Hstep1 & Hcl1 & Hct1 & pre1 & Hout1).
    destruct (IH idx s1 Hpf Hidx Hl Hcl1 Hct1) as (s' & Hrun & Hsteps & pre & Hout).
    exists s'. cbn [List.combine for_each].
    unfold mbind at 1, M_bind at 1. rewrite Hrun1. cbn [fst snd].
    split; [exact Hrun|]. split.
    { rewrite Hsteps, Hstep1. unfold Epoch.steps. cbn [List.fold_left fst snd].
      reflexivity. }
    exists (pre1 ++ pre). rewrite Hout, Hout1, <- app_assoc. reflexivity.
Qed.

(** X12.  [train] over batches that each carry one target per row runs
    its update statement (lines 207-230) once per batch, in the order of the
    loader, and then logs 'training loss' and 'training accuracy' for the
    epoch, the last two things it writes. *)
Theorem train_steps_and_scalars (amp : bool) (pf epoch : Z)
    (loader : list (Epoch.images * list Z)) (s : Epoch.Runner) :
  pf <> 0%Z ->
  (forall w, List.Forall (Epoch.sound_batch (Epoch.train_forward amp w)) loader) ->
  exists s' pre l v,
    Epoch.train amp pf loader epoch s = (s', Ok tt) /\
    (Epoch.net s', Epoch.opt s') = Epoch.steps amp loader (Epoch.net s, Epoch.opt s) /\
    Epoch.out s' =
      Epoch.out s ++ pre ++
      [Epoch.Scalar "training loss" l (Some epoch);
       Epoch.Scalar "training accuracy" v (Some epoch)] /\
    l = avg (Epoch.losses s') /\ v = avg (Epoch.top1 s').
Proof.
  intros Hpf Hall.
  set (s0 := Epoch.set_top1 AverageMeter_new (Epoch.set_losses AverageMeter_new s)).
  destruct (train_loop_run amp pf epoch (length loader) loader
              (List.seq 0 (length loader)) s0 Hpf (List.length_seq _ _) Hall
              ltac:(cbn; lia) ltac:(cbn; lia))
    as (s1 & Hrun & Hsteps & pre & Hout).
  exists (Epoch.report (Epoch.Scalar "training accuracy" (avg (Epoch.top1 s1)) (Some epoch))
            (Epoch.report (Epoch.Scalar "training loss" (avg (Epoch.losses s1)) (Some epoch))
               s1)),
    pre, (avg (Epoch.losses s1)), (avg (Epoch.top1 s1)).
  split.
  { unfold Epoch.train.
    unfold mbind at 1, M_bind at 1, modify at 1. cbn [fst snd].
    unfold mbind at 1, M_bind at 1, modify at 1. cbn [fst snd].
    unfold mbind at 1, M_bind at 1, Epoch.enumerate. fold s0. rewrite Hrun.
    cbn [fst snd]. reflexivity. }
  cbn. split; [exact Hsteps|]. split; [|split; reflexivity].
  rewrite Hout. cbn. rewrite <- !app_assoc. reflexivity.
Qed.

(** X13.  With [print_freq = 0], [train] raises ZeroDivisionError at the
    end of its first batch: the optimizer step of that batch has been taken,
    and no scalar of the epoch is logged. *)
Theorem train_print_freq_zero (amp : bool) (epoch : Z) (b : Epoch.images * list Z)
    (loader : list (Epoch.images * list Z)) (s : Epoch.Runner) :
  Epoch.sound_batch (Epoch.train_forward amp (Epoch.net s)) b ->
  exists s',
    Epoch.train amp 0 (b :: loader) epoch s = (s', Raise ZeroDivisionError) /\
    (Epoch.net s', Epoch.opt s')
      = Epoch.backward_step amp (Epoch.net s) (Epoch.opt s) (fst b) (snd b) /\
    count (Epoch.top1 s') = Z.of_nat (length (snd b)) /\
    Epoch.out s' = Epoch.out s.
Proof.
  intros (Hws & Hrows & Hne & Hcols & Hsize & loss & Hloss).
  assert (Hlen : (0 < length (snd b))%nat)
    by (destruct (snd b); [congruence | cbn; lia]).
  unfold Epoch.train.
  unfold mbind at 1, M_bind at 1, modify at 1. cbn [fst snd].
  unfold mbind at 1, M_bind at 1, modify at 1. cbn [fst snd].
  unfold mbind at 1, M_bind at 1, Epoch.enumerate.
  cbn [length List.seq List.combine for_each].
  unfold mbind at 1, M_bind at 1.
  unfold Epoch.train_batch at 1. cbn [fst snd].
  unfold mbind at 1, M_bind at 1, get at 1.
  cbn [fst snd Epoch.net Epoch.opt Epoch.set_top1 Epoch.set_losses].
  unfold mbind at 1, M_bind at 1, lift at 1. cbn [fst snd]. rewrite Hloss.
  unfold mbind at 1, M_bind at 1, modify at 1.
  cbn [fst snd Epoch.net Epoch.opt Epoch.set_top1 Epoch.set_losses].
  unfold mbind at 1, M_bind at 1, lift at 1. cbn [fst snd].
  rewrite (prec_at_1_value _ _ Hws Hrows Hne Hcols).
  unfold mbind at 1, M_bind at 1, Epoch.on_losses at 1.
  cbn [fst snd Epoch.losses Epoch.top1 Epoch.set_top1 Epoch.set_losses
       Epoch.set_net Epoch.set_opt]. rewrite Hsize.
  rewrite (update_ok AverageMeter_new loss (Z.of_nat (length (snd b))) ltac:(cbn; lia)).
  cbn [fst snd].
  unfold mbind at 1, M_bind at 1, Epoch.on_top1 at 1.
  cbn [fst snd Epoch.top1 Epoch.set_losses].
  rewrite (update_ok AverageMeter_new _ (Z.of_nat (length (snd b))) ltac:(cbn; lia)).
  cbn [fst snd].
  unfold mbind at 1, M_bind at 1, lift at 1, py_mod. cbn [fst snd Z.eqb].
  destruct (Epoch.backward_step amp (Epoch.net s) (Epoch.opt s) (fst b) (snd b))
    as [w' o'] eqn:Hstep.
  eexists. split; [reflexivity|]. cbn. repeat split; reflexivity.
Qed.

End EpochProperties.

(** *** Concrete epochs *)


Lemma validate_progress_lines_witness :
  exists s' v,
    @Epoch.validate Epoch.scores_net 2
      [([[1 # 10; 9 # 10]]%Q, [1%Z]); ([[3 # 10; 7 # 10]]%Q, [0%Z]);
       ([[6 # 10; 4 # 10]]%Q, [0%Z])]
      None Epoch.example_runner
    = (s', Ok v) /\
    Epoch.test_lines (Epoch.out s') = [] ++ Epoch.progress_indices 2 3 /\
    (forall i, In i (Epoch.progress_indices 2 3) <->
               (i < 3)%nat /\ exists q, Z.of_nat i = (q * Z.abs 2)%Z) /\
    ([([[1 # 10; 9 # 10]]%Q, [1%Z]); ([[3 # 10; 7 # 10]]%Q, [0%Z]);
      ([[6 # 10; 4 # 10]]%Q, [0%Z])] <> [] ->
     exists rest, Epoch.progress_indices 2 3 = 0%nat :: rest).
Proof.
  apply (@validate_progress_lines Epoch.scores_net 2
           [([[1 # 10; 9 # 10]]%Q, [1%Z]); ([[3 # 10; 7 # 10]]%Q, [0%Z]);
            ([[6 # 10; 4 # 10]]%Q, [0%Z])]
           None Epoch.example_runner).
  - lia.
  - repeat constructor; cbn; try lia; try discriminate; eexists; reflexivity.
Defined.

Lemma validate_print_freq_zero_witness :
  exists s',
    @Epoch.validate Epoch.scores_net 0
      [([[1 # 10; 9 # 10]; [8 # 10; 2 # 10]]%Q, [1; 0]%Z)]
      None Epoch.example_runner
    = (s', Raise ZeroDivisionError) /\
    count (Epoch.top1 s') = 2%Z /\
    count (Epoch.losses s') = 2%Z /\
    Epoch.out s' = [].
Proof.
  apply (@validate_print_freq_zero Epoch.scores_net
           ([[1 # 10; 9 # 10]; [8 # 10; 2 # 10]]%Q, [1; 0]%Z) []
           None Epoch.example_runner).
  repeat constructor; cbn; try lia; try discriminate; eexists; reflexivity.
Defined.

Lemma train_steps_and_scalars_witness :
  exists s' pre l v,
    @Epoch.train Epoch.scores_net false 50 Epoch.example_loader 3 Epoch.example_runner
    = (s', Ok tt) /\
    (Epoch.net s', Epoch.opt s')
      = @Epoch.steps Epoch.scores_net false Epoch.example_loader (0%nat, 0%nat) /\
    Epoch.out s' =
      [] ++ pre ++
      [Epoch.Scalar "training loss" l (Some 3%Z);
       Epoch.Scalar "training accuracy" v (Some 3%Z)] /\
    l = avg (Epoch.losses s') /\ v = avg (Epoch.top1 s').
Proof.
  apply (@train_steps_and_scalars Epoch.scores_net false 50 3 Epoch.example_loader
           Epoch.example_runner).
  - lia.
  - intros w. repeat constructor; cbn; try lia; try discriminate; eexists; reflexivity.
Defined.

Lemma train_print_freq_zero_witness :
  exists s',
    @Epoch.train Epoch.scores_net false 0
      [([[1 # 10; 9 # 10]; [8 # 10; 2 # 10]]%Q, [1; 0]%Z)]
      3 Epoch.example_runner
    = (s', Raise ZeroDivisionError) /\
    (Epoch.net s', Epoch.opt s') = (1%nat, 1%nat) /\
    count (Epoch.top1 s') = 2%Z /\
    Epoch.out s' = [].
Proof.
  apply (@train_print_freq_zero Epoch.scores_net false 3
           ([[1 # 10; 9 # 10]; [8 # 10; 2 # 10]]%Q, [1; 0]%Z) []
           Epoch.example_runner).
  repeat constructor; cbn; try lia; try discriminate; eexists; reflexivity.
Defined.

(** ** main: the paths beside the training loop *)

Section ControllerFurther.
Context `{T : Torch}.

Ltac run_statements :=
  repeat (unfold mbind, M_bind, mret, M_ret, get, modify, lift, skip,
            raise, print, add_scalar, torch_save; cbn).

(** The modelled log of a run with [--evaluate] that resumes nothing. *)
Lemma main_evaluate_run (a : Args) (files : gmap string (Node params)) :
  configured (resume a) = None ->
  start_epoch a = 0%Z ->
  evaluate a = true ->
  exists s',
    main (initial_state a files) = (s', Ok tt) /\
    log s' = [AddScalar "test accuracy" (validate_pass (new_model (arch a)) None) None] /\
    model s' = new_model (arch a) /\
    best_prec1 s' = 0%Q.
Proof.
  intros Hres Hstart Heval. unfold main.
  rewrite (run_bind _ _ _ _ _ (ensure_save_dir_run a files)).
  erewrite run_bind by (apply resume_checkpoint_none; exact Hres).
  erewrite (run_bind get) by reflexivity.
  cbn [args set_fs initial_state]. rewrite Hstart. change (0 - 1)%Z with (-1)%Z.
  erewrite run_bind by (apply MultiStepLR_new_fresh; reflexivity).
  erewrite run_bind by apply warm_up_run.
  erewrite (run_bind get) by reflexivity.
  cbn [args set_fs initial_state set_param_group set_lr_scheduler].
  destruct (warm_up_arch (arch a)); cbn; rewrite Heval;
    unfold validate; run_statements; eexists; split; try reflexivity;
    cbn; repeat split; reflexivity.
Qed.

(** X14.  With [--evaluate], a run that resumes nothing builds the model
    and the scheduler, validates once with no epoch number, and returns
    normally: the test accuracy of the fresh model is sent to the summary
    writer with no step, no epoch is trained (no 'learning rate' and no
    per-epoch 'test accuracy' is logged), [torch.save] is never called, the
    model is the fresh one and [best_prec1] stays 0 whatever the metric;
    [--epochs] and [--save-every] play no part. *)
Theorem evaluate_only_run (a : Args) (files : gmap string (Node params)) :
  configured (resume a) = None ->
  start_epoch a = 0%Z ->
  evaluate a = true ->
  exists s',
    main (initial_state a files) = (s', Ok tt) /\
    In (AddScalar "test accuracy" (validate_pass (new_model (arch a)) None) None)
       (log s') /\
    learning_rates (log s') = [] /\
    test_accuracies (log s') = [] /\
    all_saves (log s') = [] /\
    model s' = new_model (arch a) /\
    best_prec1 s' = 0%Q.
Proof.
  intros Hres Hstart Heval.
  destruct (main_evaluate_run a files Hres Hstart Heval)
    as (s' & Hrun & Hlog & Hmodel & Hbest).
  exists s'. split; [exact Hrun|]. rewrite Hlog.
  split; [left; reflexivity|]. repeat split; assumption.
Qed.

(** X15.  A [--resume] path that names no regular file (nothing there, or
    a directory) is not an error: the run prints that no checkpoint was
    found and trains every epoch from 0 with the arguments unchanged. *)
Theorem resume_without_file_starts_fresh (a : Args)
    (files : gmap string (Node params)) (p : string) :
  configured (resume a) = Some p ->
  (forall c, files !! p <> Some (File c)) ->
  start_epoch a = 0%Z ->
  evaluate a = false ->
  save_every a <> 0%Z ->
  exists s',
    main (initial_state a files) = (s', Ok tt) /\
    In (Stdout ("=> no checkpoint found at '" +:+ p +:+ "'")) (log s') /\
    args s' = a /\
    List.map fst (learning_rates (log s')) = py_range 0 (epochs a) /\
    List.map fst (test_accuracies (log s')) = py_range 0 (epochs a).
Proof.
  intros Hres Hmiss Hstart Heval Hse.
  pose proof (main_resume_missing a files p Hres Hmiss Hstart Heval) as Hmain.
  destruct (fresh_run_schedule a files _ Hmain Hse)
    as (s' & tr & Hrun & Hlog & Hloop & Hlrs & _).
  exists s'. split; [exact Hrun|]. rewrite Hlog.
  split; [left; reflexivity|].
  split; [exact (loop_run_args _ _ _ _ Hloop)|]. split; [exact Hlrs|].
  destruct (best_saves_loop _ _ _ _ Hloop _ _ (running_best_start 0)) as (Hes & _).
  exact Hes.
Qed.


(** An epoch, however it ends, writes at most the two checkpoint paths. *)
Lemma epoch_body_frame (s : State) (e : Z) (s' : State) (r : result unit) :
  epoch_body e s = (s', r) ->
  forall p,
    (Qltb (best_prec1 s) (epoch_metric s e) = false \/ p <> best_path (args s)) ->
    p <> periodic_path (args s) (e + 1) ->
    fs s' !! p = fs s !! p.
Proof.
  unfold epoch_body, train, validate, scheduler_step.
  run_statements. destruct (lr_scheduler s) as [sch|]; run_statements.
  2: { intros [= <- _] p _ _. reflexivity. }
  unfold epoch_metric, trained, py_mod.
  set (m := (train_pass _ _ _ _).1).
  set (prec := validate_pass m (Some e)).
  destruct (Qltb (best_prec1 s) prec) eqn:Ebest;
    destruct (Z.ltb_spec 0 e) as [He|He]; run_statements;
    try (destruct (Z.eqb_spec (save_every (args s)) 0) as [E0|E0]);
    run_statements;
    try (destruct (Z.eqb_spec ((e + 1) mod save_every (args s)) 0) as [Em|Em]);
    run_statements;
    intros [= <- _] p Hbest Hper; cbn;
    rewrite ?lookup_insert_ne; try reflexivity;
    try (intros E; apply Hper; symmetry; exact E);
    try (destruct Hbest as [Hb|Hb]; [discriminate Hb | intros E; apply Hb; symmetry; exact E]).
Qed.

Lemma py_max2_not_improved m b : Qltb b m = false -> (py_max2 m b == b)%Q.
Proof.
  intros Hb. apply Qltb_ge in Hb. unfold py_max2.
  destruct (Qltb m b) eqn:E; [reflexivity|]. apply Qltb_ge in E. lra.
Qed.

(** What the loop leaves at the best path. *)
Lemma loop_run_best_file s es tr s' :
  loop_run s es tr s' ->
  (saves_at (best_path (args s)) tr = [] ->
   fs s' !! best_path (args s) = fs s !! best_path (args s) /\
   (best_prec1 s' == best_prec1 s)%Q) /\
  (forall pre obj, saves_at (best_path (args s)) tr = pre ++ [obj] ->
   fs s' !! best_path (args s) = Some (File (Pickled obj)) /\
   exists q, obj !! "best_prec1" = Some (PNum q) /\ (q == best_prec1 s')%Q).
Proof.
  induction 1 as [s|s e s1 es tr s' Hep Hrun IH].
  - split; [intros _; split; reflexivity|].
    intros pre obj Hsaves. destruct pre; discriminate Hsaves.
  - pose proof Hep as (Hbody & Hargs & _ & Hbest1 & _ & _ & Hfs).
    rewrite Hargs in IH. destruct IH as [IHnil IHlast].
    unfold saves_at in *. rewrite omap_app.
    fold (saves_at (best_path (args s)) (epoch_events s e)).
    fold (saves_at (best_path (args s)) tr) in *.
    rewrite saves_at_best_epoch.
    destruct (Qltb (best_prec1 s) (epoch_metric s e)) eqn:Eb.
    + split; [intros Hnil; discriminate Hnil|].
      intros pre obj Hsaves.
      destruct (saves_at (best_path (args s)) tr) as [|x rest] eqn:Erest.
      * destruct pre as [|y pre]; [|destruct pre; discriminate Hsaves].
        injection Hsaves as <-.
        destruct (IHnil eq_refl) as [Hfile Hsame].
        split.
        { rewrite Hfile. apply Hfs. unfold epoch_events. rewrite Eb.
          rewrite (py_max2_improved _ _ Eb).
          apply List.in_or_app. right. apply List.in_or_app. left. left. reflexivity. }
        exists (epoch_metric s e). split; [apply checkpoint_dict_best_prec1|].
        rewrite Hsame, Hbest1, (py_max2_improved _ _ Eb). reflexivity.
      * destruct pre as [|y pre].
        { exfalso. cbn in Hsaves. destruct rest; discriminate Hsaves. }
        cbn in Hsaves. injection Hsaves as _ Hsaves.
        apply (IHlast pre obj). exact Hsaves.
    + cbn [app]. split.
      * intros Hnil. destruct (IHnil Hnil) as [Hfile Hsame]. split.
        { rewrite Hfile.
          apply (epoch_body_frame s e s1 (Ok tt) Hbody); [left; exact Eb|].
          intros E. symmetry in E. exact (periodic_path_not_best _ _ E). }
        rewrite Hsame, Hbest1. apply py_max2_not_improved. exact Eb.
      * exact IHlast.
Qed.

(** X18.  Whenever the loop ends, [best_checkpoint.th] holds the last
    best checkpoint written and its [best_prec1] is, as a number, the
    [best_prec1] the loop ends with; if no epoch improved on the starting
    value, the file is what it was and [best_prec1] is unchanged. *)
Theorem best_file_holds_best (s : State) (sch : MultiStepLR) (es : list Z) :
  lr_scheduler s = Some sch ->
  save_every (args s) <> 0%Z ->
  exists s' tr,
    train_loop es s = (s', Ok tt) /\
    log s' = log s ++ tr /\
    (saves_at (best_path (args s)) tr = [] ->
     fs s' !! best_path (args s) = fs s !! best_path (args s) /\
     (best_prec1 s' == best_prec1 s)%Q) /\
    (forall pre obj, saves_at (best_path (args s)) tr = pre ++ [obj] ->
     fs s' !! best_path (args s) = Some (File (Pickled obj)) /\
     exists q, obj !! "best_prec1" = Some (PNum q) /\ (q == best_prec1 s')%Q).
Proof.
  intros Hsch Hse.
  destruct (loop_runs es s sch Hsch Hse) as (tr & s' & Hrun).
  destruct (loop_run_train_loop _ _ _ _ Hrun) as (Hloop & Hlog).
  destruct (loop_run_best_file _ _ _ _ Hrun) as (Hnil & Hlast).
  exists s', tr. split; [exact Hloop|]. split; [exact Hlog|].
  split; [exact Hnil | exact Hlast].
Qed.

(** What an epoch logs before the division of line 171 fails. *)
Lemma epoch_body_zero_division_events (s : State) (e : Z) (sch : MultiStepLR) :
  lr_scheduler s = Some sch ->
  save_every (args s) = 0%Z ->
  (0 < e)%Z ->
  exists s',
    epoch_body e s = (s', Raise ZeroDivisionError) /\
    log s' = log s ++
      [AddScalar "learning rate" (group_lr (param_group s)) (Some e);
       AddScalar "test accuracy" (epoch_metric s e) (Some e)] ++
      (if Qltb (best_prec1 s) (epoch_metric s e)
       then [TorchSave (best_path (args s))
               (checkpoint_dict (e + 1) (trained s e)
                                (py_max2 (epoch_metric s e) (best_prec1 s)))]
       else []).
Proof.
  intros Hs Hse He. unfold epoch_body, train, validate, scheduler_step.
  run_statements. rewrite Hs. run_statements.
  unfold epoch_metric, trained, py_mod. rewrite Hse.
  destruct (Qltb _ _); destruct (Z.ltb_spec 0 e) as [_|Hle];
    try (exfalso; clear - He Hle; lia);
    run_statements; eexists; (split; [reflexivity|]);
    cbn; rewrite <- ?app_assoc; reflexivity.
Qed.

Lemma partial_epoch_test_accuracies (e : Z) (r m : Q) (b : bool) (p : string)
    (obj : gmap string (PyVal params)) :
  test_accuracies ([AddScalar "learning rate" r (Some e);
                    AddScalar "test accuracy" m (Some e)]
                   ++ (if b then [TorchSave p obj] else []))
  = [(e, m)].
Proof. destruct b; reflexivity. Qed.

Lemma partial_epoch_saves_elsewhere (e : Z) (r m : Q) (b : bool) (p : string)
    (obj : gmap string (PyVal params)) :
  saves_elsewhere p ([AddScalar "learning rate" r (Some e);
                      AddScalar "test accuracy" m (Some e)]
                     ++ (if b then [TorchSave p obj] else []))
  = [].
Proof.
  destruct b; [|reflexivity]. unfold saves_elsewhere. cbn.
  rewrite String.eqb_refl. reflexivity.
Qed.

(** X19.  [--save-every 0] does not switch the periodic checkpoints off:
    epoch 0 passes because the test of line 171 stops at [epoch > 0], and
    epoch 1 raises ZeroDivisionError after it was trained and validated; no
    periodic checkpoint is ever written. *)
Theorem save_every_zero_stops_in_epoch_1 (a : Args) (files : gmap string (Node params)) :
  configured (resume a) = None ->
  start_epoch a = 0%Z ->
  evaluate a = false ->
  save_every a = 0%Z ->
  (2 <= epochs a)%Z ->
  exists s',
    main (initial_state a files) = (s', Raise ZeroDivisionError) /\
    List.map fst (test_accuracies (log s')) = [0; 1]%Z /\
    saves_elsewhere (best_path a) (log s') = [].
Proof.
  intros Hres Hstart Heval Hse Hep.
  rewrite (main_without_resume a files Hres Hstart Heval).
  rewrite (py_range_cons 0 (epochs a)) by lia. change (0 + 1)%Z with 1%Z.
  rewrite (py_range_cons 1 (epochs a)) by lia.
  set (s := entry_state a files []).
  destruct (epoch_body_run s 0 (mkSched [100; 150]%Z (1 # 10) [lr a] 0) eq_refl
              ltac:(right; lia))
    as (s1 & Hbody & Hargs & _ & _ & (sch & Hsch & Hsch1 & _) & Hlog1 & _).
  assert (Hse1 : save_every (args s1) = 0%Z) by (rewrite Hargs; exact Hse).
  destruct (epoch_body_zero_division_events s1 1 (stepped sch) Hsch1 Hse1 ltac:(lia))
    as (s' & Hbody' & Hlog').
  exists s'. split.
  { unfold train_loop. cbn [for_each].
    rewrite (run_bind _ _ _ _ _ Hbody). apply run_bind_raise. exact Hbody'. }
  rewrite Hlog', Hlog1. change (log s) with (@nil (Event params)).
  rewrite app_nil_l.
  assert (Ha : args s = a) by reflexivity.
  split.
  - unfold test_accuracies at 1. rewrite omap_app.
    fold (test_accuracies (epoch_events s 0)).
    match goal with |- context [omap ?f (?l1 ++ ?l2)] =>
      change (omap f (l1 ++ l2)) with (test_accuracies (l1 ++ l2)) end.
    rewrite test_accuracies_epoch, partial_epoch_test_accuracies. reflexivity.
  - unfold saves_elsewhere at 1. rewrite omap_app.
    fold (saves_elsewhere (best_path a) (epoch_events s 0)).
    match goal with |- context [omap ?f (?l1 ++ ?l2)] =>
      change (omap f (l1 ++ l2)) with (saves_elsewhere (best_path a) (l1 ++ l2)) end.
    rewrite <- Ha at 1. rewrite saves_elsewhere_epoch.
    rewrite Hargs, Ha. rewrite partial_epoch_saves_elsewhere. reflexivity.
Qed.

Lemma periodic_due_opp (every e : Z) :
  periodic_due (- every) e = periodic_due every e.
Proof.
  unfold periodic_due. f_equal.
  destruct (Z.eq_dec every 0) as [->|Hne]; [reflexivity|].
  apply eq_iff_eq_true. rewrite !Z.eqb_eq.
  rewrite !Z.mod_divide by lia. apply Z.divide_opp_l.
Qed.

(** X20.  A negative [--save-every] behaves like its absolute value:
    Python's remainder by [-k] is zero exactly when the remainder by [k] is,
    so the periodic checkpoints are those of [k]. *)
Theorem negative_save_every (s : State) (sch : MultiStepLR) (es : list Z) (k : Z) :
  lr_scheduler s = Some sch ->
  save_every (args s) = (- k)%Z ->
  k <> 0%Z ->
  exists s' tr,
    train_loop es s = (s', Ok tt) /\
    log s' = log s ++ tr /\
    saves_elsewhere (best_path (args s)) tr
    = List.map (fun e => periodic_path (args s) (e + 1))
               (List.filter (periodic_due k) es).
Proof.
  intros Hsch Hse Hk.
  destruct (loop_runs es s sch Hsch ltac:(lia)) as (tr & s' & Hrun).
  destruct (loop_run_train_loop _ _ _ _ Hrun) as (Hloop & Hlog).
  exists s', tr. split; [exact Hloop|]. split; [exact Hlog|].
  rewrite (periodic_saves_loop _ _ _ _ Hrun), Hse. f_equal.
  apply List.filter_ext. intros e. apply periodic_due_opp.
Qed.

(** The resume block on a checkpoint that has no ['best_prec1']. *)
(** The resume block on a checkpoint that has no ['best_prec1']. *)
Lemma resume_checkpoint_missing_best (s : State) p obj e :
  configured (resume (args s)) = Some p ->
  fs s !! p = Some (File (Pickled obj)) ->
  obj !! "epoch" = Some (PInt e) ->
  obj !! "best_prec1" = None ->
  exists s',
    resume_checkpoint s = (s', Raise (KeyError "best_prec1")) /\
    start_epoch (args s') = e /\
    best_prec1 s' = best_prec1 s /\
    model s' = model s /\
    log s' = log s ++ [Stdout ("=> loading checkpoint '" +:+ p +:+ "'")].
Proof.
  intros Hp Hfile He Hb.
  unfold resume_checkpoint, isfile, torch_load, getitem, as_int, as_number,
    as_state_dict.
  run_statements. rewrite Hp, Hfile. run_statements.
  rewrite Hfile. run_statements. rewrite He. run_statements.
  rewrite Hb. run_statements.
  eexists. split; [reflexivity|]. cbn. repeat split; reflexivity.
Qed.

(** X21.  Resuming from a file that holds ['epoch'] but no ['best_prec1']
    stops the run with KeyError at line 83, after the loading line was
    printed and [args.start_epoch] was already overwritten at line 82: the
    best value and the model are still the fresh ones, no epoch has been
    trained or validated and nothing has been saved. *)
Theorem resume_without_best_prec1 (a : Args) (files : gmap string (Node params))
    (p : string) (obj : gmap string (PyVal params)) (e : Z) :
  configured (resume a) = Some p ->
  files !! p = Some (File (Pickled obj)) ->
  obj !! "epoch" = Some (PInt e) ->
  obj !! "best_prec1" = None ->
  exists s',
    main (initial_state a files) = (s', Raise (KeyError "best_prec1")) /\
    start_epoch (args s') = e /\
    best_prec1 s' = 0%Q /\
    model s' = new_model (arch a) /\
    In (Stdout ("=> loading checkpoint '" +:+ p +:+ "'")) (log s') /\
    learning_rates (log s') = [] /\
    test_accuracies (log s') = [] /\
    all_saves (log s') = [].
Proof.
  intros Hres Hfile He Hb.
  destruct (resume_checkpoint_missing_best
              (set_fs (files_with_save_dir a files) (initial_state a files))
              p obj e Hres (files_with_save_dir_lookup a files p _ Hfile) He Hb)
    as (s' & Hrun & Hstart & Hbest & Hmodel & Hlog).
  exists s'. split.
  { unfold main. rewrite (run_bind _ _ _ _ _ (ensure_save_dir_run a files)).
    apply run_bind_raise. exact Hrun. }
  rewrite Hlog. cbn.
  split; [exact Hstart|]. split; [exact Hbest|]. split; [exact Hmodel|].
  split; [left; reflexivity|]. repeat split; reflexivity.
Qed.

End ControllerFurther.

(** *** Concrete runs of the further properties *)

Lemma evaluate_only_run_witness :
  exists s',
    @main (replay [70]%Q) (initial_state evaluate_args ∅) = (s', Ok tt) /\
    In (AddScalar "test accuracy"
          (@validate_pass (replay [70]%Q)
             (@new_model (replay [70]%Q) (arch evaluate_args)) None) None)
       (log s') /\
    learning_rates (log s') = [] /\
    test_accuracies (log s') = [] /\
    all_saves (log s') = [] /\
    model s' = @new_model (replay [70]%Q) (arch evaluate_args) /\
    best_prec1 s' = 0%Q.
Proof.
  apply (@evaluate_only_run (replay [70]%Q) evaluate_args ∅); reflexivity.
Defined.

Lemma resume_without_file_starts_fresh_witness :
  exists s',
    @main (replay [70; 68]%Q) (initial_state (resume_args "nowhere.th" 2) ∅)
      = (s', Ok tt) /\
    In (Stdout ("=> no checkpoint found at '" +:+ "nowhere.th" +:+ "'")) (log s') /\
    args s' = resume_args "nowhere.th" 2 /\
    List.map fst (learning_rates (log s'))
      = py_range 0 (epochs (resume_args "nowhere.th" 2)) /\
    List.map fst (test_accuracies (log s'))
      = py_range 0 (epochs (resume_args "nowhere.th" 2)).
Proof.
  apply (@resume_without_file_starts_fresh (replay [70; 68]%Q)
           (resume_args "nowhere.th" 2) ∅ "nowhere.th").
  - reflexivity.
  - intros c. rewrite lookup_empty. discriminate.
  - reflexivity.
  - reflexivity.
  - discriminate.
Defined.


Lemma best_file_holds_best_witness :
  exists s' tr,
    @train_loop (replay [70; 68; 71]%Q) (py_range 0 3)
                (entry_state (example_args 3 10) ∅ []) = (s', Ok tt) /\
    log s' = log (@entry_state (replay [70; 68; 71]%Q) (example_args 3 10) ∅ []) ++ tr /\
    (saves_at (best_path (args (@entry_state (replay [70; 68; 71]%Q)
                                  (example_args 3 10) ∅ []))) tr = [] ->
     fs s' !! best_path (args (@entry_state (replay [70; 68; 71]%Q)
                                 (example_args 3 10) ∅ []))
     = fs (@entry_state (replay [70; 68; 71]%Q) (example_args 3 10) ∅ [])
         !! best_path (args (@entry_state (replay [70; 68; 71]%Q)
                               (example_args 3 10) ∅ [])) /\
     (best_prec1 s'
      == best_prec1 (@entry_state (replay [70; 68; 71]%Q) (example_args 3 10) ∅ []))%Q) /\
    (forall pre obj,
       saves_at (best_path (args (@entry_state (replay [70; 68; 71]%Q)
                                    (example_args 3 10) ∅ []))) tr = pre ++ [obj] ->
       fs s' !! best_path (args (@entry_state (replay [70; 68; 71]%Q)
                                   (example_args 3 10) ∅ []))
       = Some (File (Pickled obj)) /\
       exists q, obj !! "best_prec1" = Some (PNum q) /\ (q == best_prec1 s')%Q).
Proof.
  apply (@best_file_holds_best (replay [70; 68; 71]%Q)
           (entry_state (example_args 3 10) ∅ [])
           (mkSched [100; 150]%Z (1 # 10) [1 # 10] 0) (py_range 0 3)).
  - reflexivity.
  - discriminate.
Defined.

Lemma save_every_zero_stops_in_epoch_1_witness :
  exists s',
    @main (replay [70; 68; 71]%Q) (initial_state (example_args 3 0) ∅)
      = (s', Raise ZeroDivisionError) /\
    List.map fst (test_accuracies (log s')) = [0; 1]%Z /\
    saves_elsewhere (best_path (example_args 3 0)) (log s') = [].
Proof.
  apply (@save_every_zero_stops_in_epoch_1 (replay [70; 68; 71]%Q) (example_args 3 0) ∅).
  - reflexivity.
  - reflexivity.
  - reflexivity.
  - reflexivity.
  - cbn. lia.
Defined.

Lemma negative_save_every_witness :
  exists s' tr,
    @train_loop (replay []) (py_range 0 25)
                (entry_state (example_args 25 (-10)) ∅ []) = (s', Ok tt) /\
    log s' = log (@entry_state (replay []) (example_args 25 (-10)) ∅ []) ++ tr /\
    saves_elsewhere
      (best_path (args (@entry_state (replay []) (example_args 25 (-10)) ∅ []))) tr
    = List.map
        (fun e => periodic_path
                    (args (@entry_state (replay []) (example_args 25 (-10)) ∅ []))
                    (e + 1))
        (List.filter (periodic_due 10) (py_range 0 25)).
Proof.
  apply (@negative_save_every (replay [])
           (entry_state (example_args 25 (-10)) ∅ [])
           (mkSched [100; 150]%Z (1 # 10) [1 # 10] 0) (py_range 0 25) 10).
  - reflexivity.
  - reflexivity.
  - discriminate.
Defined.

Lemma resume_without_best_prec1_witness :
  exists s',
    @main (replay [70]%Q)
      (initial_state (resume_args "old.th" 200) {[ "old.th" := File (Pickled {[ "epoch" := PInt 5 ]}) ]})
      = (s', Raise (KeyError "best_prec1")) /\
    start_epoch (args s') = 5%Z /\
    best_prec1 s' = 0%Q /\
    model s' = @new_model (replay [70]%Q) (arch (resume_args "old.th" 200)) /\
    In (Stdout ("=> loading checkpoint '" +:+ "old.th" +:+ "'")) (log s') /\
    learning_rates (log s') = [] /\
    test_accuracies (log s') = [] /\
    all_saves (log s') = [].
Proof.
  apply (@resume_without_best_prec1 (replay [70]%Q) (resume_args "old.th" 200)
           {[ "old.th" := File (Pickled {[ "epoch" := PInt 5 ]}) ]}
           "old.th" {[ "epoch" := PInt 5 ]} 5).
  - reflexivity.
  - reflexivity.
  - reflexivity.
  - reflexivity.
Defined.

(** ** The wall-clock lines *)

Lemma training_shown_app (l1 l2 : list Timing.TimeLine) :
  Timing.training_shown (l1 ++ l2)
  = Timing.training_shown l1 ++ Timing.training_shown l2.
Proof. unfold Timing.training_shown. apply omap_app. Qed.

Lemma time_epoch_run (e : Z) (st : Timing.Stamps) (s : Timing.Timers) :
  (0 <= count (Timing.epoch_time s))%Z ->
  (0 <= count (Timing.train_time s))%Z ->
  (0 <= count (Timing.val_time s))%Z ->
  exists s',
    Timing.time_epoch (e, st) s = (s', Ok tt) /\
    (0 <= count (Timing.epoch_time s'))%Z /\
    (0 <= count (Timing.train_time s'))%Z /\
    (0 <= count (Timing.val_time s'))%Z /\
    val (Timing.epoch_time s') = Timing.epoch_duration st /\
    Timing.training_shown (Timing.shown s')
    = Timing.training_shown (Timing.shown s) ++ [val (Timing.epoch_time s)].
Proof.
  intros He Ht Hv. unfold Timing.time_epoch. cbn [fst snd].
  unfold mbind at 1, M_bind at 1, Timing.on_train_time at 1. cbn [fst snd].
  rewrite (update_ok (Timing.train_time s) _ 1 ltac:(lia)). cbn [fst snd].
  unfold mbind at 1, M_bind at 1, Timing.say at 1, modify at 1.
  cbn [fst snd Timing.epoch_time Timing.train_time Timing.val_time Timing.shown].
  unfold mbind at 1, M_bind at 1, Timing.on_val_time at 1.
  cbn [fst snd Timing.epoch_time Timing.train_time Timing.val_time Timing.shown].
  rewrite (update_ok (Timing.val_time s) _ 1 ltac:(lia)). cbn [fst snd].
  unfold mbind at 1, M_bind at 1, Timing.say at 1, modify at 1.
  cbn [fst snd Timing.epoch_time Timing.train_time Timing.val_time Timing.shown].
  unfold mbind at 1, M_bind at 1, Timing.on_epoch_time at 1.
  cbn [fst snd Timing.epoch_time Timing.train_time Timing.val_time Timing.shown].
  rewrite (update_ok (Timing.epoch_time s) _ 1 ltac:(lia)). cbn [fst snd].
  unfold Timing.say, modify.
  eexists. split; [reflexivity|].
  cbn [Timing.epoch_time Timing.train_time Timing.val_time Timing.shown count val].
  split; [lia|]. split; [lia|]. split; [lia|]. split; [reflexivity|].
  rewrite !training_shown_app. cbn. rewrite !app_nil_r. reflexivity.
Qed.

Lemma time_loop_run (l : list (Z * Timing.Stamps)) : forall (s : Timing.Timers),
  (0 <= count (Timing.epoch_time s))%Z ->
  (0 <= count (Timing.train_time s))%Z ->
  (0 <= count (Timing.val_time s))%Z ->
  exists s',
    Timing.time_loop l s = (s', Ok tt) /\
    Timing.training_shown (Timing.shown s')
    = Timing.training_shown (Timing.shown s)
      ++ List.firstn (length l)
           (val (Timing.epoch_time s)
            :: List.map (fun es => Timing.epoch_duration (snd es)) l).
Proof.
  induction l as [|[e st] l IH]; intros s He Ht Hv.
  - exists s. split; [reflexivity|]. cbn. rewrite app_nil_r. reflexivity.
  - destruct (time_epoch_run e st s He Ht Hv)
      as (s1 & Hrun1 & He1 & Ht1 & Hv1 & Hval1 & Hshown1).
    destruct (IH s1 He1 Ht1 Hv1) as (s' & Hrun & Hshown).
    exists s'. unfold Timing.time_loop in *. cbn [for_each].
    unfold mbind at 1, M_bind at 1. rewrite Hrun1. cbn [fst snd].
    split; [exact Hrun|].
    rewrite Hshown, Hshown1, Hval1, <- app_assoc. reflexivity.
Qed.

(** X22.  The number printed as the 'training time' of an epoch is
    [epoch_time.val], which is only updated at the end of an epoch: the line
    shows the whole duration of the epoch before, and 0 in the first epoch
    of the run, whatever the training took; the timing statements themselves
    never raise. *)
Theorem training_time_line_shows_previous_epoch (l : list (Z * Timing.Stamps)) :
  exists s',
    Timing.time_loop l Timing.timers_new = (s', Ok tt) /\
    Timing.training_shown (Timing.shown s')
    = List.firstn (length l)
        (0%Q :: List.map (fun es => Timing.epoch_duration (snd es)) l).
Proof.
  destruct (time_loop_run l Timing.timers_new) as (s' & Hrun & Hshown);
    cbn; try lia.
  exists s'. split; [exact Hrun | exact Hshown].
Qed.
